(** * RooToolParser: a shallow embedding of [core/parsers/roo_tool_parser.py]

    The parser turns model output into OpenAI-style tool calls.  It knows
    four surface syntaxes (Hermes [<tool_call>], Qwen [<tools>], direct
    JSON and Roo XML), a batch entry point [extract_tool_calls] and an
    incremental one, [extract_tool_calls_streaming], that mutates a few
    bookkeeping fields of the parser object.

    Layout of the development:
    - [PyStr]: Python [str] as a list of code points, with the handful of
      [str] methods the parser calls;
    - the exception monad [py] and JSON values [pyval];
    - the class [Runtime]: what the parser asks of [json] and of the regex
      engine, kept abstract so that the general theorems hold for every
      behaviour of those libraries;
    - the parser itself, function by function, names as in the source;
    - [PyJson]: an executable instance of [Runtime] used to evaluate the
      parser on concrete inputs;
    - [extract_thinking_from_content], the helper of the same file that
      separates reasoning from content, over the class [ReModule];
    - the properties. *)

From Stdlib Require Import String Ascii List ZArith NArith Bool Lia DecimalString.
Import ListNotations.


(* ------------------------------------------------------------------ *)
(** * Python strings *)

Module PyStr.

(** A Python [str] is a sequence of Unicode code points. *)
Definition char := N.
Definition pystr := list char.

Definition str (s : string) : pystr :=
  map N_of_ascii (list_ascii_of_string s).

(** Literal with the apostrophe standing for the double quote, which keeps
    JSON text readable inside a Rocq string. *)
Definition strq (s : string) : pystr :=
  map (fun c => if N.eqb c 39 then 34%N else c) (str s).

Arguments str s%_string.
Arguments strq s%_string.

Fixpoint eqb (s t : pystr) : bool :=
  match s, t with
  | [], [] => true
  | a :: s', b :: t' => N.eqb a b && eqb s' t'
  | _, _ => false
  end.

(** [s.startswith(p)] *)
Fixpoint startswith (s p : pystr) {struct p} : bool :=
  match p with
  | [] => true
  | a :: p' =>
      match s with
      | [] => false
      | b :: s' => N.eqb a b && startswith s' p'
      end
  end.

(** [s.endswith(p)] *)
Definition endswith (s p : pystr) : bool := startswith (rev s) (rev p).

(** [s.find(p)], as an optional offset; [find] below gives Python's -1. *)
Fixpoint find_nat (s p : pystr) : option nat :=
  match s with
  | [] => if startswith [] p then Some 0 else None
  | _ :: s' =>
      if startswith s p then Some 0 else option_map S (find_nat s' p)
  end.

Definition find (s p : pystr) : Z :=
  match find_nat s p with
  | Some i => Z.of_nat i
  | None => (-1)%Z
  end.

(** [p in s] *)
Definition str_in (p s : pystr) : bool :=
  match find_nat s p with
  | Some _ => true
  | None => false
  end.

(** [s.rfind(p)] *)
Fixpoint rfind_nat (s p : pystr) : option nat :=
  match s with
  | [] => if startswith [] p then Some 0 else None
  | _ :: s' =>
      match rfind_nat s' p with
      | Some i => Some (S i)
      | None => if startswith s p then Some 0 else None
      end
  end.

Definition rfind (s p : pystr) : Z :=
  match rfind_nat s p with
  | Some i => Z.of_nat i
  | None => (-1)%Z
  end.

(** [s.replace(old, new)]: occurrences are taken left to right and do not
    overlap; the text produced by one replacement is not rescanned. *)
Fixpoint replace_go (old new : pystr) (skip : nat) (s : pystr) : pystr :=
  match s with
  | [] => []
  | c :: s' =>
      match skip with
      | S k => replace_go old new k s'
      | O =>
          if startswith s old
          then new ++ replace_go old new (length old - 1) s'
          else c :: replace_go old new 0 s'
      end
  end.

Definition replace (s old new : pystr) : pystr :=
  match old with
  | [] => new ++ flat_map (fun c => c :: new) s
  | _ :: _ => replace_go old new 0 s
  end.

(** [str.isspace] on one code point (CPython's [_PyUnicode_IsWhitespace]);
    the [re] module's [\s] on [str] patterns is the same set. *)
Definition isspace (c : char) : bool :=
  ((9 <=? c) && (c <=? 13) || (28 <=? c) && (c <=? 32)
   || (c =? 133) || (c =? 160) || (c =? 5760)
   || (8192 <=? c) && (c <=? 8202)
   || (c =? 8232) || (c =? 8233) || (c =? 8239) || (c =? 8287)
   || (c =? 12288))%N.

Fixpoint lstrip_by (f : char -> bool) (s : pystr) : pystr :=
  match s with
  | [] => []
  | c :: s' => if f c then lstrip_by f s' else s
  end.

Definition rstrip_by (f : char -> bool) (s : pystr) : pystr :=
  rev (lstrip_by f (rev s)).

Definition lstrip (s : pystr) : pystr := lstrip_by isspace s.

Definition rstrip (s : pystr) : pystr := rstrip_by isspace s.

Definition strip (s : pystr) : pystr := rstrip (lstrip s).

(** Slices [s[lo:hi]] with Python's treatment of negative and
    out-of-range bounds. *)
Definition clamp_index (len i : Z) : Z :=
  if (i <? 0)%Z then Z.max (len + i) 0 else Z.min i len.

Definition slice (s : pystr) (lo hi : option Z) : pystr :=
  let n := Z.of_nat (length s) in
  let a := match lo with None => 0%Z | Some i => clamp_index n i end in
  let b := match hi with None => n | Some j => clamp_index n j end in
  firstn (Z.to_nat (b - a)) (skipn (Z.to_nat a) s).

(** Truthiness of a string: [if s:] *)
Definition nonempty (s : pystr) : bool :=
  match s with [] => false | _ :: _ => true end.

End PyStr.

Import PyStr.

(* ------------------------------------------------------------------ *)
(** * Exceptions *)

Inductive exn : Type :=
| JSONDecodeError
| KeyError
| TypeError
| AttributeError
| IndexError
| ValidationError
| OtherError.

Inductive py (A : Type) : Type :=
| Ok (a : A)
| Raise (e : exn).

Arguments Ok {A} a.
Arguments Raise {A} e.

Definition bind {A B} (m : py A) (k : A -> py B) : py B :=
  match m with
  | Ok a => k a
  | Raise e => Raise e
  end.

Notation "x <- m ;; k" := (bind m (fun x => k))
  (at level 61, m at next level, right associativity).

(** [try: body / except Exception: handler] *)
Definition try_except {A} (body : py A) (handler : exn -> py A) : py A :=
  match body with
  | Ok a => Ok a
  | Raise e => handler e
  end.

(** [try: body / except json.JSONDecodeError: handler] *)
Definition try_except_json {A} (body : py A) (handler : py A) : py A :=
  match body with
  | Raise JSONDecodeError => handler
  | r => r
  end.

(* ------------------------------------------------------------------ *)
(** * JSON values and the operations Python applies to them *)

Set Warnings "-register-all".

(** What [json.loads] returns.  A float is carried by its [repr]. *)
Inductive pyval : Type :=
| JNull
| JBool (b : bool)
| JInt (n : Z)
| JFloat (repr : pystr)
| JStr (s : pystr)
| JList (l : list pyval)
| JDict (d : list (pystr * pyval)).

Fixpoint dict_get (d : list (pystr * pyval)) (k : pystr) : option pyval :=
  match d with
  | [] => None
  | (k', v) :: d' => if eqb k' k then Some v else dict_get d' k
  end.

(** [d[k] = v]: an existing key keeps its place, a new one goes last. *)
Fixpoint dict_set (d : list (pystr * pyval)) (k : pystr) (v : pyval)
  : list (pystr * pyval) :=
  match d with
  | [] => [(k, v)]
  | (k', v') :: d' =>
      if eqb k' k then (k', v) :: d' else (k', v') :: dict_set d' k v
  end.

(** [v[k]] for a string key *)
Definition getitem (v : pyval) (k : pystr) : py pyval :=
  match v with
  | JDict d =>
      match dict_get d k with
      | Some x => Ok x
      | None => Raise KeyError
      end
  | _ => Raise TypeError
  end.

(** [v.get(k, default)] *)
Definition get_method (v : pyval) (k : pystr) (default : pyval) : py pyval :=
  match v with
  | JDict d =>
      match dict_get d k with
      | Some x => Ok x
      | None => Ok default
      end
  | _ => Raise AttributeError
  end.

(** [k in v] for a string [k]: key membership in a dict, element membership
    in a list, substring test in a string, [TypeError] elsewhere. *)
Definition contains (k : pystr) (v : pyval) : py bool :=
  match v with
  | JDict d =>
      Ok (match dict_get d k with Some _ => true | None => false end)
  | JList l =>
      Ok (existsb (fun x => match x with JStr s => eqb s k | _ => false end) l)
  | JStr s => Ok (str_in k s)
  | _ => Raise TypeError
  end.

(** Truthiness: [if v:] *)
Definition truthy (v : pyval) : bool :=
  match v with
  | JNull => false
  | JBool b => b
  | JInt n => negb (Z.eqb n 0)
  | JFloat r => negb (eqb r (str "0.0") || eqb r (str "-0.0"))
  | JStr s => nonempty s
  | JList l => match l with [] => false | _ :: _ => true end
  | JDict d => match d with [] => false | _ :: _ => true end
  end.

(* ------------------------------------------------------------------ *)
(** * The libraries behind the parser *)

(** [json.loads], [json.dumps(_, ensure_ascii=False)] and the two character
    classes of the [regex] module that the Roo XML patterns use.  The parser
    is written against this interface; [PyJson.runtime] below is an
    executable instance. *)
Class Runtime : Type := {
  json_loads : pystr -> py pyval;
  json_dumps : pyval -> pystr;
  regex_word : char -> bool;
  regex_space : char -> bool
}.

(* ------------------------------------------------------------------ *)
(** * Protocol records

    The host's pydantic models, reduced to the fields the parser fills.
    The random [id] of a call is left out.  Validation is kept: a [str]
    field refuses any JSON value that is not a string. *)

Record FunctionCall : Type := {
  name : pystr;
  arguments : pystr
}.

Record ToolCall : Type := {
  type : pystr;
  function : FunctionCall
}.

Record ExtractedToolCallInformation : Type := {
  tools_called : bool;
  tool_calls : list ToolCall;
  content : option pystr
}.

Record DeltaFunctionCall : Type := {
  delta_name : option pystr;
  delta_arguments : pystr
}.

Record DeltaToolCall : Type := {
  index : Z;
  delta_type : pystr;
  delta_function : DeltaFunctionCall
}.

Record DeltaMessage : Type := {
  delta_content : option pystr;
  delta_tool_calls : list DeltaToolCall
}.

(** [FunctionCall(name=v, arguments=a)] *)
Definition new_FunctionCall (v : pyval) (a : pystr) : py FunctionCall :=
  match v with
  | JStr s => Ok {| name := s; arguments := a |}
  | _ => Raise ValidationError
  end.

(** [ToolCall(type="function", function=FunctionCall(name=v, arguments=a))] *)
Definition new_ToolCall (v : pyval) (a : pystr) : py ToolCall :=
  f <- new_FunctionCall v a ;;
  Ok {| type := str "function"; function := f |}.

(** [DeltaFunctionCall(name=v, arguments=a)]: the name is optional there. *)
Definition new_DeltaFunctionCall (v : pyval) (a : pystr)
  : py DeltaFunctionCall :=
  match v with
  | JStr s => Ok {| delta_name := Some s; delta_arguments := a |}
  | JNull => Ok {| delta_name := None; delta_arguments := a |}
  | _ => Raise ValidationError
  end.

(** [DeltaMessage(content=c, tool_calls=[DeltaToolCall(index=i, ...)])] *)
Definition new_call_message (c : option pystr) (i : Z) (v : pyval)
  (a : pystr) : py DeltaMessage :=
  f <- new_DeltaFunctionCall v a ;;
  Ok {| delta_content := c;
        delta_tool_calls :=
          [{| index := i; delta_type := str "function";
              delta_function := f |}] |}.

Definition make_extraction_result (called : bool) (calls : list ToolCall)
  (c : option pystr) : ExtractedToolCallInformation :=
  {| tools_called := called; tool_calls := calls; content := c |}.

(* ------------------------------------------------------------------ *)
(** * Constants *)

Definition ROO_TOOLS : list pystr :=
  [ str "execute_command"; str "read_file"; str "write_to_file";
    str "apply_diff"; str "search_files"; str "list_files";
    str "list_code_definition_names"; str "browser_action";
    str "use_mcp_tool"; str "access_mcp_resource";
    str "ask_followup_question"; str "attempt_completion";
    str "switch_mode"; str "new_task"; str "fetch_instructions" ].

Definition tool_call_start_token : pystr := str "<tool_call>".
Definition tool_call_end_token : pystr := str "</tool_call>".

Definition start_tag (tool_name : pystr) : pystr :=
  str "<" ++ tool_name ++ str ">".
Definition end_tag (tool_name : pystr) : pystr :=
  str "</" ++ tool_name ++ str ">".

(* ------------------------------------------------------------------ *)
(** * The regular expressions, as functions

    Every pattern of the parser is a fixed shape around literal tags, so
    each is embedded as the function its backtracking search computes.
    All of them are compiled with DOTALL.  In the comments a pattern is
    written with a blank between a star and a closing parenthesis. *)

(** [findall] of the pattern [A(.*?)B|A(.* )] for literal tags [A] and [B]:
    one pair of groups per match, the group that did not take part being
    empty.  A match of the second branch runs to the end. *)
Fixpoint findall_envelope (A B : pystr) (skip : nat) (s : pystr)
  : list (pystr * pystr) :=
  match s with
  | [] => []
  | _ :: s' =>
      match skip with
      | S k => findall_envelope A B k s'
      | O =>
          if startswith s A then
            let body := skipn (length A) s in
            match find_nat body B with
            | Some q =>
                (firstn q body, [])
                  :: findall_envelope A B (length A + q + length B - 1) s'
            | None => [([], body)]
            end
          else findall_envelope A B 0 s'
      end
  end.

(** [search] of the pattern [A(.*?)B]: group 1 of the leftmost match *)
Definition search_envelope (A B s : pystr) : option pystr :=
  match find_nat s A with
  | None => None
  | Some p =>
      let body := skipn (p + length A) s in
      match find_nat body B with
      | Some q => Some (firstn q body)
      | None => None
      end
  end.

(** [^(<think>.*?</think>)\s*] at the start of [s]: group 1 and the text
    after the match ([s[match.end():]]). *)
Definition match_think (s : pystr) : option (pystr * pystr) :=
  if startswith s (str "<think>") then
    let body := skipn 7 s in
    match find_nat body (str "</think>") with
    | Some q =>
        Some (str "<think>" ++ firstn q body ++ str "</think>",
              lstrip (skipn (q + 8) body))
    | None => None
    end
  else None.

(** The lazy [.*?] of [^(<think>.*?</think>)\s*(\{.* )] stops at the first
    [</think>] that optional whitespace and a brace follow.  [acc] holds,
    reversed, the text already passed over. *)
Fixpoint think_json_scan (acc s : pystr) : option (pystr * pystr) :=
  match s with
  | [] => None
  | c :: s' =>
      if startswith s (str "</think>")
         && startswith (lstrip (skipn 8 s)) (str "{")
      then Some (rev acc ++ str "</think>", lstrip (skipn 8 s))
      else think_json_scan (c :: acc) s'
  end.

(** [match] of [^(<think>.*?</think>)\s*(\{.* )]: groups 1 and 2 *)
Definition match_think_json (s : pystr) : option (pystr * pystr) :=
  if startswith s (str "<think>") then
    match think_json_scan [] (skipn 7 s) with
    | Some (inner, json) => Some (str "<think>" ++ inner, json)
    | None => None
    end
  else None.

(** [re.search(r'<[a-zA-Z_]', s)] *)
Definition is_tag_initial (c : char) : bool :=
  ((65 <=? c) && (c <=? 90) || (97 <=? c) && (c <=? 122) || (c =? 95))%N.

Fixpoint search_tag_initial (s : pystr) : bool :=
  match s with
  | [] => false
  | c :: s' =>
      (N.eqb c 60 && match s' with d :: _ => is_tag_initial d | [] => false end)
      || search_tag_initial s'
  end.

Section Parser.

Context {R : Runtime}.

(** The longest run of [\w] at the head of [s], and what follows it. *)
Fixpoint span_word (s : pystr) : pystr * pystr :=
  match s with
  | [] => ([], [])
  | c :: s' =>
      if regex_word c
      then let (w, r) := span_word s' in (c :: w, r)
      else ([], s)
  end.

(** One attempt of [<(\w+)>.*?</\1>] at the head of [s]: the name, the text
    up to the first matching closing tag, and the length of the match. *)
Definition match_inner_tag (s : pystr) : option (pystr * pystr * nat) :=
  match s with
  | c :: r =>
      if N.eqb c 60 then
        let (w, r') := span_word r in
        match w, r' with
        | _ :: _, d :: body =>
            if N.eqb d 62 then
              match find_nat body (end_tag w) with
              | Some q =>
                  Some (w, firstn q body,
                        length (start_tag w) + q + length (end_tag w))
              | None => None
              end
            else None
        | _, _ => None
        end
      else None
  | [] => None
  end.

(** The matches of [<(\w+)>.*?</\1>] in [s], left to right, each with its
    name and the text between its tags. *)
Fixpoint findall_tags (skip : nat) (s : pystr) : list (pystr * pystr) :=
  match s with
  | [] => []
  | _ :: s' =>
      match skip with
      | S k => findall_tags k s'
      | O =>
          match match_inner_tag s with
          | Some (w, between, len) =>
              (w, between) :: findall_tags (len - 1) s'
          | None => findall_tags 0 s'
          end
      end
  end.

(** [inner_tag_pattern.findall]: [<(\w+)>.*?</\1>] has one group. *)
Definition inner_tag_findall (s : pystr) : list pystr :=
  map fst (findall_tags 0 s).

(** [param_pattern.findall]: [<(\w+)>\s*(.*?)\s*</\1>] matches where the
    pattern above does, and its second group is the text between the tags
    without the whitespace ([\s] of the regex module) around it. *)
Definition param_findall (s : pystr) : list (pystr * pystr) :=
  map (fun m => (fst m, rstrip_by regex_space (lstrip_by regex_space (snd m))))
      (findall_tags 0 s).

(* ------------------------------------------------------------------ *)
(** * Content sanitizer *)

Definition remove_pattern (cleaned pattern : pystr) : pystr :=
  if str_in pattern cleaned then replace cleaned pattern [] else cleaned.

Definition tag_patterns (tool_name : pystr) : list pystr :=
  [ str "<" ++ tool_name ++ str ">"; str "</" ++ tool_name ++ str ">";
    str "<" ++ tool_name; str "</" ++ tool_name ].

Definition hermes_patterns : list pystr :=
  [ str "<tool_call>"; str "</tool_call>"; str "<tool_call";
    str "</tool_call"; str "<tools>"; str "</tools>"; str "<tools";
    str "</tools" ].

Definition clean_content_from_xml_tags (content tool_name : pystr)
  : option pystr :=
  if negb (nonempty content) then None
  else
    let cleaned := fold_left remove_pattern (tag_patterns tool_name) content in
    let cleaned :=
      fold_left
        (fun acc roo_tool => fold_left remove_pattern (tag_patterns roo_tool) acc)
        ROO_TOOLS cleaned in
    let cleaned := fold_left remove_pattern hermes_patterns cleaned in
    let cleaned := strip cleaned in
    if nonempty cleaned then Some cleaned else None.

(* ------------------------------------------------------------------ *)
(** * Format detection *)

Definition _has_hermes_format (text : pystr) : bool :=
  str_in tool_call_start_token text.

Definition _has_tools_tag_format (text : pystr) : bool :=
  str_in (str "<tools>") text && str_in (str "name") text
  && str_in (str "arguments") text.

Definition _has_roo_xml_format (text : pystr) : bool :=
  existsb (fun tool_name => str_in (start_tag tool_name) text) ROO_TOOLS.

Definition _has_direct_json_format (text : pystr) : bool :=
  let text := strip text in
  if startswith text (str "{") && str_in (strq "'name'") text
     && str_in (strq "'arguments'") text
  then true
  else
    match match_think_json text with
    | Some _ => str_in (strq "'name'") text && str_in (strq "'arguments'") text
    | None => false
    end.

(* ------------------------------------------------------------------ *)
(** * Batch extractors

    Each extractor is a [try] block with a catch-all handler.  The block is
    given first, as a computation that may raise; the extractor proper wraps
    it. *)

Definition fallback (model_output : pystr) : ExtractedToolCallInformation :=
  make_extraction_result false [] (Some model_output).

(** [text[:idx] if idx > 0 else ""] *)
Definition text_before (model_output : pystr) (idx : Z) : pystr :=
  if (0 <? idx)%Z then slice model_output None (Some idx) else [].

(** [match[0] if match[0] else match[1]] *)
Definition match_json_str (m : pystr * pystr) : pystr :=
  if nonempty (fst m) then fst m else snd m.

(** First loop of the Hermes extractor: every match is parsed, a
    [JSONDecodeError] skips the match.  The log line after the [append]
    calls [parsed.get]. *)
Fixpoint hermes_parse_matches (ms : list (pystr * pystr))
  (raw_function_calls : list pyval) : py (list pyval) :=
  match ms with
  | [] => Ok raw_function_calls
  | m :: ms' =>
      raw <- try_except_json
               (parsed <- json_loads (match_json_str m) ;;
                _ <- get_method parsed (str "name") (JStr (str "UNKNOWN")) ;;
                Ok (raw_function_calls ++ [parsed]))
               (Ok raw_function_calls) ;;
      hermes_parse_matches ms' raw
  end.

(** Second loop: one [ToolCall] per parsed value. *)
Fixpoint hermes_build_calls (raw_function_calls : list pyval)
  : py (list ToolCall) :=
  match raw_function_calls with
  | [] => Ok []
  | fc :: rest =>
      n <- getitem fc (str "name") ;;
      a <- getitem fc (str "arguments") ;;
      tc <- new_ToolCall n (json_dumps a) ;;
      tcs <- hermes_build_calls rest ;;
      Ok (tc :: tcs)
  end.

Definition hermes_try (model_output : pystr)
  : py ExtractedToolCallInformation :=
  let function_call_tuples :=
    findall_envelope tool_call_start_token tool_call_end_token 0
                     model_output in
  raw_function_calls <- hermes_parse_matches function_call_tuples [] ;;
  tool_calls <- hermes_build_calls raw_function_calls ;;
  let content_end_idx := find model_output tool_call_start_token in
  let raw_content := text_before model_output content_end_idx in
  let content := clean_content_from_xml_tags raw_content (str "tool_call") in
  Ok (make_extraction_result true tool_calls content).

Definition _extract_hermes_tool_calls (model_output : pystr)
  : py ExtractedToolCallInformation :=
  try_except (hermes_try model_output)
             (fun _ => Ok (fallback model_output)).

(** The loop of the [<tools>] extractor: parsing and building sit in one
    [try] that only catches [JSONDecodeError]. *)
Fixpoint tools_tag_loop (ms : list (pystr * pystr))
  (tool_calls : list ToolCall) : py (list ToolCall) :=
  match ms with
  | [] => Ok tool_calls
  | m :: ms' =>
      let json_str := strip (match_json_str m) in
      tcs <- try_except_json
               (function_call <- json_loads json_str ;;
                n <- getitem function_call (str "name") ;;
                a <- getitem function_call (str "arguments") ;;
                tc <- new_ToolCall n (json_dumps a) ;;
                Ok (tool_calls ++ [tc]))
               (Ok tool_calls) ;;
      tools_tag_loop ms' tcs
  end.

Definition tools_tag_try (model_output : pystr)
  : py ExtractedToolCallInformation :=
  let matches :=
    findall_envelope (str "<tools>") (str "</tools>") 0 model_output in
  match matches with
  | [] => Ok (fallback model_output)
  | _ :: _ =>
      tool_calls <- tools_tag_loop matches [] ;;
      match tool_calls with
      | _ :: _ =>
          let content_end_idx := find model_output (str "<tools>") in
          let raw_content := text_before model_output content_end_idx in
          let content := clean_content_from_xml_tags raw_content (str "tools") in
          Ok (make_extraction_result true tool_calls content)
      | [] => Ok (fallback model_output)
      end
  end.

Definition _extract_tools_tag_format (model_output : pystr)
  : py ExtractedToolCallInformation :=
  try_except (tools_tag_try model_output)
             (fun _ => Ok (fallback model_output)).

Definition direct_json_try (model_output : pystr)
  : py ExtractedToolCallInformation :=
  let (thinking_content, json_part) :=
    match match_think model_output with
    | Some (group1, rest) => (Some group1, strip rest)
    | None => (None, model_output)
    end in
  let json_str := strip json_part in
  function_call <- json_loads json_str ;;
  has_name <- contains (str "name") function_call ;;
  has_both <- (if has_name : bool
               then contains (str "arguments") function_call
               else Ok false) ;;
  if has_both : bool then
    n <- getitem function_call (str "name") ;;
    a <- getitem function_call (str "arguments") ;;
    tc <- new_ToolCall n (json_dumps a) ;;
    Ok (make_extraction_result true [tc] thinking_content)
  else Ok (fallback model_output).

Definition _extract_direct_json (model_output : pystr)
  : py ExtractedToolCallInformation :=
  try_except (direct_json_try model_output)
             (fun _ => Ok (fallback model_output)).

(** The parameter loop of the Roo XML extractor. *)
Fixpoint roo_params (param_matches : list (pystr * pystr))
  (arguments : list (pystr * pyval)) : py (list (pystr * pyval)) :=
  match param_matches with
  | [] => Ok arguments
  | (param_name, param_value) :: rest =>
      let param_value := strip param_value in
      v <- (if startswith param_value (str "{")
               || startswith param_value (str "[")
            then try_except_json (json_loads param_value)
                                 (Ok (JStr param_value))
            else Ok (JStr param_value)) ;;
      roo_params rest (dict_set arguments param_name v)
  end.

(** [model_output[start_idx + len(start_tag):]], up to [end_idx] when the
    closing tag was found. *)
Definition roo_xml_content (model_output tool_name : pystr) : pystr :=
  let start_idx := find model_output (start_tag tool_name) in
  let end_idx := find model_output (end_tag tool_name) in
  let from := (start_idx + Z.of_nat (length (start_tag tool_name)))%Z in
  if (end_idx =? -1)%Z
  then slice model_output (Some from) None
  else slice model_output (Some from) (Some end_idx).

(** The loop over [ROO_TOOLS]: the first name whose opening tag occurs is
    processed and ends the loop.  The result is [(tool_calls, content)]. *)
Fixpoint roo_xml_loop (tools : list pystr) (model_output : pystr)
  : py (list ToolCall * option pystr) :=
  match tools with
  | [] => Ok ([], None)
  | tool_name :: rest =>
      if negb (str_in (start_tag tool_name) model_output)
      then roo_xml_loop rest model_output
      else
        let start_idx := find model_output (start_tag tool_name) in
        let xml_content := roo_xml_content model_output tool_name in
        arguments <- roo_params (param_findall xml_content) [] ;;
        tc <- new_ToolCall (JStr tool_name) (json_dumps (JDict arguments)) ;;
        let raw_content := text_before model_output start_idx in
        let content := clean_content_from_xml_tags raw_content tool_name in
        Ok ([tc], content)
  end.

Definition roo_xml_try (model_output : pystr)
  : py ExtractedToolCallInformation :=
  r <- roo_xml_loop ROO_TOOLS model_output ;;
  match fst r with
  | _ :: _ => Ok (make_extraction_result true (fst r) (snd r))
  | [] => Ok (fallback model_output)
  end.

Definition _extract_roo_xml_tool_calls (model_output : pystr)
  : py ExtractedToolCallInformation :=
  try_except (roo_xml_try model_output)
             (fun _ => Ok (fallback model_output)).

(* ------------------------------------------------------------------ *)
(** * The batch entry point *)

Definition extract_tool_calls (model_output : pystr)
  : py ExtractedToolCallInformation :=
  let has_hermes := _has_hermes_format model_output in
  let has_tools := _has_tools_tag_format model_output in
  let has_roo := _has_roo_xml_format model_output in
  let has_json := _has_direct_json_format model_output in
  if has_hermes then _extract_hermes_tool_calls model_output
  else if has_tools then _extract_tools_tag_format model_output
  else if has_json then _extract_direct_json model_output
  else if has_roo then _extract_roo_xml_tool_calls model_output
  else Ok (make_extraction_result false [] (Some model_output)).

End Parser.

(* ------------------------------------------------------------------ *)
(** * Streaming state

    The fields of the parser object that the streaming methods read and
    write.  The two token arrays are computed once by the constructor from
    the tokenizer and never change. *)

Record ParserState : Type := {
  current_tool_name_sent : bool;
  prev_tool_call_arr : list pyval;
  current_tool_id : Z;
  streamed_args_for_tool : list pystr;
  buffered_delta_text : pystr;
  tool_call_start_token_array : list pystr;
  tool_call_end_token_array : list pystr
}.

(** The state [__init__] leaves behind. *)
Definition init_state (start_array end_array : list pystr) : ParserState :=
  {| current_tool_name_sent := false;
     prev_tool_call_arr := [];
     current_tool_id := -1;
     streamed_args_for_tool := [];
     buffered_delta_text := [];
     tool_call_start_token_array := start_array;
     tool_call_end_token_array := end_array |}.

Definition set_current_tool_id (i : Z) (st : ParserState) : ParserState :=
  {| current_tool_name_sent := current_tool_name_sent st;
     prev_tool_call_arr := prev_tool_call_arr st;
     current_tool_id := i;
     streamed_args_for_tool := streamed_args_for_tool st;
     buffered_delta_text := buffered_delta_text st;
     tool_call_start_token_array := tool_call_start_token_array st;
     tool_call_end_token_array := tool_call_end_token_array st |}.

Definition set_prev_tool_call_arr (l : list pyval) (st : ParserState)
  : ParserState :=
  {| current_tool_name_sent := current_tool_name_sent st;
     prev_tool_call_arr := l;
     current_tool_id := current_tool_id st;
     streamed_args_for_tool := streamed_args_for_tool st;
     buffered_delta_text := buffered_delta_text st;
     tool_call_start_token_array := tool_call_start_token_array st;
     tool_call_end_token_array := tool_call_end_token_array st |}.

Definition set_streamed_args_for_tool (l : list pystr) (st : ParserState)
  : ParserState :=
  {| current_tool_name_sent := current_tool_name_sent st;
     prev_tool_call_arr := prev_tool_call_arr st;
     current_tool_id := current_tool_id st;
     streamed_args_for_tool := l;
     buffered_delta_text := buffered_delta_text st;
     tool_call_start_token_array := tool_call_start_token_array st;
     tool_call_end_token_array := tool_call_end_token_array st |}.

Definition set_buffered_delta_text (b : pystr) (st : ParserState)
  : ParserState :=
  {| current_tool_name_sent := current_tool_name_sent st;
     prev_tool_call_arr := prev_tool_call_arr st;
     current_tool_id := current_tool_id st;
     streamed_args_for_tool := streamed_args_for_tool st;
     buffered_delta_text := b;
     tool_call_start_token_array := tool_call_start_token_array st;
     tool_call_end_token_array := tool_call_end_token_array st |}.

(** A method of the parser: it may raise, and what it wrote to the object
    before raising stays written. *)
Definition method (A : Type) : Type := ParserState -> py A * ParserState.

Definition ret {A} (a : A) : method A := fun st => (Ok a, st).

Definition lift {A} (m : py A) : method A := fun st => (m, st).

Definition mbind {A B} (m : method A) (k : A -> method B) : method B :=
  fun st =>
    match m st with
    | (Ok a, st') => k a st'
    | (Raise e, st') => (Raise e, st')
    end.

Notation "x <~ m ;; k" := (mbind m (fun x => k))
  (at level 61, m at next level, right associativity).

Definition get : method ParserState := fun st => (Ok st, st).

Definition modify (f : ParserState -> ParserState) : method unit :=
  fun st => (Ok tt, f st).

(** [try: body / except Exception: handler] around a method body *)
Definition mtry_except {A} (body : method A) (handler : method A) : method A :=
  fun st =>
    match body st with
    | (Ok a, st') => (Ok a, st')
    | (Raise _, st') => handler st'
    end.

(** [try: body / except json.JSONDecodeError: handler] *)
Definition mtry_except_json {A} (body : method A) (handler : method A)
  : method A :=
  fun st =>
    match body st with
    | (Raise JSONDecodeError, st') => handler st'
    | r => r
    end.

(** [self.current_tool_id < 0 or len(self.prev_tool_call_arr) == 0] *)
Definition may_emit (st : ParserState) : bool :=
  (current_tool_id st <? 0)%Z || Nat.eqb (length (prev_tool_call_arr st)) 0.

(** [{"name": n, "arguments": a}] *)
Definition tool_call_dict (n a : pyval) : pyval :=
  JDict [(str "name", n); (str "arguments", a)].

Definition increment_tool_id : method unit :=
  modify (fun st => set_current_tool_id (current_tool_id st + 1) st).

Definition append_prev_tool_call (d : pyval) : method unit :=
  modify (fun st => set_prev_tool_call_arr (prev_tool_call_arr st ++ [d]) st).

Definition append_streamed_args (a : pystr) : method unit :=
  modify (fun st =>
            set_streamed_args_for_tool (streamed_args_for_tool st ++ [a]) st).

Section Streaming.

Context {R : Runtime}.

(* ------------------------------------------------------------------ *)
(** * Partial-tag recognizer *)

(** The loop over [ROO_TOOLS + ["tool_call", "tools"]] on the text that
    starts at the last [<]. *)
Definition partial_tag_match (after_lt tool_name : pystr) : bool :=
  let partial_tag := str "<" ++ tool_name in
  if startswith after_lt (str "</") then
    let close_partial := str "</" ++ tool_name in
    startswith close_partial after_lt || startswith after_lt close_partial
  else
    startswith partial_tag after_lt || startswith after_lt partial_tag.

Definition unclosed_tag (text tool_name : pystr) : bool :=
  str_in (start_tag tool_name) text && negb (str_in (end_tag tool_name) text).

Definition _is_accumulating_xml_tag (text : pystr) : bool * option pystr :=
  if endswith (rstrip text) (str "<") then (true, None)
  else
    let last_lt := rfind text (str "<") in
    let partial :=
      if (0 <=? last_lt)%Z then
        let after_lt := slice text (Some last_lt) None in
        if negb (str_in (str ">") after_lt) then
          List.find (partial_tag_match after_lt)
                    (ROO_TOOLS ++ [str "tool_call"; str "tools"])
        else None
      else None in
    match partial with
    | Some tool_name => (true, Some tool_name)
    | None =>
        match List.find (unclosed_tag text) ROO_TOOLS with
        | Some tool_name => (true, Some tool_name)
        | None =>
            if str_in (str "<tool_call>") text
               && negb (str_in (str "</tool_call>") text)
            then (true, Some (str "tool_call"))
            else if str_in (str "<tools") text
                    && negb (str_in (str "</tools>") text)
            then (true, Some (str "tools"))
            else (false, None)
        end
    end.

(* ------------------------------------------------------------------ *)
(** * Streaming extractors *)

(** [l[-1]] *)
Definition last_item (l : list pystr) : py pystr :=
  match rev l with
  | x :: _ => Ok x
  | [] => Raise IndexError
  end.

Definition list_in (x : pystr) (l : list pystr) : bool := existsb (eqb x) l.

Definition tool_call_delta_buffer (delta_text : pystr) : method pystr :=
  st <~ get ;;
  if list_in delta_text (tool_call_start_token_array st)
     || list_in delta_text (tool_call_end_token_array st)
  then
    last_start <~ lift (last_item (tool_call_start_token_array st)) ;;
    is_last <~ (if eqb delta_text last_start then ret true
                else
                  last_end <~ lift (last_item (tool_call_end_token_array st)) ;;
                  ret (eqb delta_text last_end)) ;;
    if is_last : bool then
      let buffered_text := buffered_delta_text st in
      _ <~ modify (set_buffered_delta_text []) ;;
      ret (buffered_text ++ delta_text)
    else
      _ <~ modify (set_buffered_delta_text
                     (buffered_delta_text st ++ delta_text)) ;;
      ret []
  else if nonempty (buffered_delta_text st) then
    let buffered_text := buffered_delta_text st in
    _ <~ modify (set_buffered_delta_text []) ;;
    ret (buffered_text ++ delta_text)
  else ret delta_text.

(** The block guarded by "Solo emitir una vez" in the three JSON paths:
    the counter is bumped first, both lists are appended to, and the
    message is built last. *)
Definition emit_json_call (thinking : option pystr) (tool_name args : pyval)
  : method (option DeltaMessage) :=
  _ <~ increment_tool_id ;;
  let args_str := json_dumps args in
  _ <~ append_prev_tool_call (tool_call_dict tool_name args) ;;
  _ <~ append_streamed_args args_str ;;
  st <~ get ;;
  msg <~ lift (new_call_message thinking (current_tool_id st) tool_name
                                args_str) ;;
  ret (Some msg).

Definition _streaming_extract_tools_format (current_text delta_text : pystr)
  : method (option DeltaMessage) :=
  match search_envelope (str "<tools>") (str "</tools>") current_text with
  | None => ret None
  | Some group1 =>
      mtry_except_json
        (let json_str := strip group1 in
         function_call <~ lift (json_loads json_str) ;;
         st <~ get ;;
         if may_emit st then
           _ <~ increment_tool_id ;;
           n <~ lift (getitem function_call (str "name")) ;;
           a <~ lift (get_method function_call (str "arguments") (JDict [])) ;;
           _ <~ append_prev_tool_call (tool_call_dict n a) ;;
           let args_str := json_dumps a in
           _ <~ append_streamed_args args_str ;;
           st' <~ get ;;
           msg <~ lift (new_call_message None (current_tool_id st') n
                                         args_str) ;;
           ret (Some msg)
         else ret None)
        (ret None)
  end.

(** The block guarded by "Solo emitir una vez" in the Roo XML and Hermes
    paths, once [args_dict] is known. *)
Definition emit_extracted_call (tc : ToolCall) (args_dict : pyval)
  : method (option DeltaMessage) :=
  _ <~ append_prev_tool_call
         (tool_call_dict (JStr (name (function tc))) args_dict) ;;
  _ <~ append_streamed_args (arguments (function tc)) ;;
  st <~ get ;;
  msg <~ lift (new_call_message None (current_tool_id st)
                                (JStr (name (function tc)))
                                (arguments (function tc))) ;;
  ret (Some msg).

Fixpoint streaming_roo_xml_loop (tools : list pystr) (current_text : pystr)
  : method (option DeltaMessage) :=
  match tools with
  | [] => ret None
  | tool_name :: rest =>
      if negb (str_in (start_tag tool_name) current_text)
         || negb (str_in (end_tag tool_name) current_text)
      then streaming_roo_xml_loop rest current_text
      else
        let start_idx := find current_text (start_tag tool_name) in
        let end_idx := find current_text (end_tag tool_name) in
        let xml_content :=
          slice current_text
                (Some (start_idx + Z.of_nat (length (start_tag tool_name)))%Z)
                (Some end_idx) in
        let inner_matches := inner_tag_findall xml_content in
        match inner_matches with
        | [] => ret None
        | _ :: _ =>
            result <~ lift (_extract_roo_xml_tool_calls current_text) ;;
            match tools_called result, tool_calls result with
            | true, tc :: _ =>
                args_dict <~ (if negb (eqb (arguments (function tc)) (str "{}"))
                              then lift (json_loads (arguments (function tc)))
                              else ret (JDict [])) ;;
                if negb (truthy args_dict) then ret None
                else
                  st <~ get ;;
                  if may_emit st then
                    _ <~ increment_tool_id ;;
                    emit_extracted_call tc args_dict
                  else streaming_roo_xml_loop rest current_text
            | _, _ => ret None
            end
        end
  end.

Definition _streaming_extract_roo_xml (current_text delta_text : pystr)
  : method (option DeltaMessage) :=
  streaming_roo_xml_loop ROO_TOOLS current_text.

Definition _streaming_extract_hermes
  (previous_text current_text delta_text : pystr)
  : method (option DeltaMessage) :=
  delta_text <~ tool_call_delta_buffer delta_text ;;
  st <~ get ;;
  let n := Z.of_nat (length (buffered_delta_text st)) in
  let current_text :=
    if (n <=? Z.of_nat (length previous_text))%Z
       && eqb (slice previous_text (Some (- n)%Z) None) (buffered_delta_text st)
    then slice previous_text None (Some (- n)%Z) ++ delta_text
    else current_text in
  if negb (str_in (str "</tool_call>") current_text) then ret None
  else
    result <~ lift (_extract_hermes_tool_calls current_text) ;;
    match tools_called result, tool_calls result with
    | true, tc :: _ =>
        st <~ get ;;
        if may_emit st then
          _ <~ increment_tool_id ;;
          args_dict <~ lift (json_loads (arguments (function tc))) ;;
          emit_extracted_call tc args_dict
        else ret None
    | _, _ => ret None
    end.

Definition _streaming_extract_think_json (current_text delta_text : pystr)
  : method (option DeltaMessage) :=
  mtry_except
    (match match_think_json (strip current_text) with
     | None => ret None
     | Some (thinking_content, json_str) =>
         function_call <~ lift (json_loads json_str) ;;
         has_name <~ lift (contains (str "name") function_call) ;;
         if negb has_name then ret None
         else
           tool_name <~ lift (getitem function_call (str "name")) ;;
           args <~ lift (get_method function_call (str "arguments")
                                    (JDict [])) ;;
           st <~ get ;;
           if may_emit st
           then emit_json_call (Some thinking_content) tool_name args
           else ret None
     end)
    (ret None).

Definition _streaming_extract_direct_json (current_text delta_text : pystr)
  : method (option DeltaMessage) :=
  mtry_except
    (let json_str := strip current_text in
     function_call <~ lift (json_loads json_str) ;;
     has_name <~ lift (contains (str "name") function_call) ;;
     if negb has_name then ret None
     else
       tool_name <~ lift (getitem function_call (str "name")) ;;
       args <~ lift (get_method function_call (str "arguments") (JDict [])) ;;
       st <~ get ;;
       if may_emit st then emit_json_call None tool_name args
       else ret None)
    (ret None).

(* ------------------------------------------------------------------ *)
(** * The streaming entry point *)

(** The brace-counting loop: true once the count comes back to zero on a
    closing brace. *)
Fixpoint json_complete (brace_count : Z) (s : pystr) : bool :=
  match s with
  | [] => false
  | c :: s' =>
      if (c =? 123)%N then json_complete (brace_count + 1) s'
      else if (c =? 125)%N then
        if (brace_count - 1 =? 0)%Z then true
        else json_complete (brace_count - 1) s'
      else json_complete brace_count s'
  end.

Definition extract_tool_calls_streaming
  (previous_text current_text delta_text : pystr)
  : method (option DeltaMessage) :=
  let stripped := strip current_text in
  if startswith stripped (str "<think>") then
    if str_in (str "</think>") stripped then
      match match_think_json stripped with
      | Some (_, json_part) =>
          if str_in (strq "'name'") json_part
             && str_in (strq "'arguments'") json_part
          then
            if json_complete 0 json_part
            then _streaming_extract_think_json current_text delta_text
            else ret None
          else ret None
      | None => ret None
      end
    else ret None
  else if startswith stripped (str "{") then
    if str_in (strq "'name'") stripped then
      if json_complete 0 stripped
      then _streaming_extract_direct_json current_text delta_text
      else ret None
    else ret None
  else
    let has_potential_tag := str_in (str "<") current_text in
    let plain :=
      ret (Some {| delta_content := Some delta_text; delta_tool_calls := [] |}) in
    if has_potential_tag then
      if _has_roo_xml_format current_text
      then _streaming_extract_roo_xml current_text delta_text
      else if _has_hermes_format current_text
              && str_in (str "</tool_call>") current_text
      then _streaming_extract_hermes previous_text current_text delta_text
      else if _has_tools_tag_format current_text
              && str_in (str "</tools>") current_text
      then _streaming_extract_tools_format current_text delta_text
      else if fst (_is_accumulating_xml_tag current_text) then ret None
      else if search_tag_initial current_text then ret None
      else plain
    else plain.

End Streaming.

(* ------------------------------------------------------------------ *)
(** * An executable runtime

    A model of CPython's [json] (the C scanner and encoder with the default
    options and [ensure_ascii=False]) and of the two character classes, used
    to run the parser on concrete text.  Limits: the recursion limit of the
    interpreter is not modelled; the [repr] of a float is exact for literals
    of at most 15 significant digits inside the double range; outside ASCII
    no character counts as a word character. *)

Module PyJson.

Definition is_digit (c : char) : bool := ((48 <=? c) && (c <=? 57))%N.

Definition is_json_ws (c : char) : bool :=
  ((c =? 32) || (c =? 9) || (c =? 10) || (c =? 13))%N.

Definition skip_ws (s : pystr) : pystr := lstrip_by is_json_ws s.

Definition hex_value (c : char) : option N :=
  if is_digit c then Some (c - 48)%N
  else if ((97 <=? c) && (c <=? 102))%N then Some (c - 87)%N
  else if ((65 <=? c) && (c <=? 70))%N then Some (c - 55)%N
  else None.

(** Four hexadecimal digits at the head of [s]. *)
Definition hex4 (s : pystr) : option (N * pystr) :=
  match s with
  | a :: b :: c :: d :: r =>
      match hex_value a, hex_value b, hex_value c, hex_value d with
      | Some x, Some y, Some z, Some w =>
          Some ((((x * 16 + y) * 16 + z) * 16 + w)%N, r)
      | _, _, _, _ => None
      end
  | _ => None
  end.

(** The body of a string literal, after the opening quote. *)
Fixpoint scanstring (fuel : nat) (s : pystr) : option (pystr * pystr) :=
  match fuel with
  | O => None
  | S f =>
      match s with
      | [] => None
      | c :: r =>
          if (c =? 34)%N then Some ([], r)
          else if (c <? 32)%N then None
          else if (c =? 92)%N then
            match r with
            | [] => None
            | e :: r' =>
                let simple (x : char) :=
                  match scanstring f r' with
                  | Some (t, rest) => Some (x :: t, rest)
                  | None => None
                  end in
                if (e =? 34)%N then simple 34%N
                else if (e =? 92)%N then simple 92%N
                else if (e =? 47)%N then simple 47%N
                else if (e =? 98)%N then simple 8%N
                else if (e =? 102)%N then simple 12%N
                else if (e =? 110)%N then simple 10%N
                else if (e =? 114)%N then simple 13%N
                else if (e =? 116)%N then simple 9%N
                else if (e =? 117)%N then
                  match hex4 r' with
                  | None => None
                  | Some (u, r2) =>
                      let lone :=
                        match scanstring f r2 with
                        | Some (t, rest) => Some (u :: t, rest)
                        | None => None
                        end in
                      if ((55296 <=? u) && (u <=? 56319))%N then
                        match r2 with
                        | b :: x :: r3 =>
                            if ((b =? 92) && (x =? 117))%N then
                              match hex4 r3 with
                              | Some (u2, r4) =>
                                  if ((56320 <=? u2) && (u2 <=? 57343))%N then
                                    match scanstring f r4 with
                                    | Some (t, rest) =>
                                        Some ((65536 + (u - 55296) * 1024
                                               + (u2 - 56320))%N :: t, rest)
                                    | None => None
                                    end
                                  else lone
                              | None => lone
                              end
                            else lone
                        | _ => lone
                        end
                      else lone
                  end
                else None
            end
          else
            match scanstring f r with
            | Some (t, rest) => Some (c :: t, rest)
            | None => None
            end
      end
  end.

Fixpoint span_digits (s : pystr) : pystr * pystr :=
  match s with
  | [] => ([], [])
  | c :: s' =>
      if is_digit c
      then let (d, r) := span_digits s' in (c :: d, r)
      else ([], s)
  end.

Definition digits_value (d : pystr) : Z :=
  fold_left (fun acc c => (acc * 10 + Z.of_N (c - 48))%Z) d 0%Z.

Definition decimal (n : Z) : pystr :=
  str (DecimalString.NilZero.string_of_int (Z.to_int n)).

Fixpoint drop_zeros (d : pystr) : pystr :=
  match d with
  | c :: d' => if (c =? 48)%N then drop_zeros d' else d
  | [] => []
  end.

Definition zeros (n : nat) : pystr := repeat 48%N n.

(** [repr] of the float written [int_part.frac_part e exp]. *)
Definition float_repr (neg : bool) (int_part frac_part : pystr) (exp : Z)
  : pystr :=
  let sign := if neg then str "-" else [] in
  let all := int_part ++ frac_part in
  let lead := drop_zeros all in
  let point :=
    (Z.of_nat (length int_part) + exp
     - Z.of_nat (length all - length lead))%Z in
  let digits := rev (drop_zeros (rev lead)) in
  match digits with
  | [] => sign ++ str "0.0"
  | d :: ds =>
      let e := (point - 1)%Z in
      if (308 <? e)%Z then sign ++ str "inf"
      else if (e <? -324)%Z then sign ++ str "0.0"
      else if ((e <? -4) || (16 <=? e))%Z then
        sign ++ [d] ++ (match ds with [] => [] | _ => str "." ++ ds end)
        ++ str "e" ++ (if (e <? 0)%Z then str "-" else str "+")
        ++ (if (Z.abs e <? 10)%Z then str "0" else [])
        ++ decimal (Z.abs e)
      else if (e <? 0)%Z then
        sign ++ str "0." ++ zeros (Z.to_nat (- e - 1)) ++ digits
      else
        let k := Z.to_nat (e + 1) in
        sign ++ firstn k digits ++ zeros (k - length digits) ++ str "."
        ++ (match skipn k digits with [] => str "0" | f => f end)
  end.

(** A number at the head of [s]: optional minus, integer part without a
    leading zero, optional fraction, optional exponent. *)
Definition scan_number (s : pystr) : option (pyval * pystr) :=
  let (neg, s1) :=
    match s with
    | c :: r => if (c =? 45)%N then (true, r) else (false, s)
    | [] => (false, s)
    end in
  let (ds, r0) := span_digits s1 in
  let int_split :=
    match ds with
    | [] => None
    | c :: ds' => if (c =? 48)%N then Some ([c], ds' ++ r0) else Some (ds, r0)
    end in
  match int_split with
  | None => None
  | Some (int_part, r1) =>
      let (frac, r2) :=
        match r1 with
        | c :: r =>
            if (c =? 46)%N then
              match span_digits r with
              | ([], _) => (None, r1)
              | (f, r') => (Some f, r')
              end
            else (None, r1)
        | [] => (None, r1)
        end in
      let (exp, r3) :=
        match r2 with
        | c :: r =>
            if ((c =? 101) || (c =? 69))%N then
              let (eneg, r') :=
                match r with
                | x :: r'' =>
                    if (x =? 45)%N then (true, r'')
                    else if (x =? 43)%N then (false, r'')
                    else (false, r)
                | [] => (false, r)
                end in
              match span_digits r' with
              | ([], _) => (None, r2)
              | (e, r'') =>
                  (Some (if eneg : bool then (- digits_value e)%Z
                         else digits_value e), r'')
              end
            else (None, r2)
        | [] => (None, r2)
        end in
      match frac, exp with
      | None, None =>
          let n := digits_value int_part in
          Some (JInt (if neg then (- n)%Z else n), r3)
      | _, _ =>
          Some (JFloat (float_repr neg int_part
                          (match frac with Some f => f | None => [] end)
                          (match exp with Some e => e | None => 0%Z end)),
                r3)
      end
  end.

(** The scanner.  [parse_value] reads one value at the head of [s];
    [parse_members] and [parse_elements] read the rest of an object or an
    array once its first item is known to be there. *)
Fixpoint parse_value (fuel : nat) (s : pystr) {struct fuel}
  : option (pyval * pystr) :=
  match fuel with
  | O => None
  | S f =>
      match s with
      | [] => None
      | c :: r =>
          if (c =? 34)%N then
            match scanstring (S (length r)) r with
            | Some (t, rest) => Some (JStr t, rest)
            | None => None
            end
          else if (c =? 123)%N then
            match skip_ws r with
            | x :: r' =>
                if (x =? 125)%N then Some (JDict [], r')
                else if (x =? 34)%N then parse_members f [] r'
                else None
            | [] => None
            end
          else if (c =? 91)%N then
            match skip_ws r with
            | x :: r' =>
                if (x =? 93)%N then Some (JList [], r')
                else parse_elements f [] (x :: r')
            | [] => None
            end
          else if startswith s (str "null") then Some (JNull, skipn 4 s)
          else if startswith s (str "true") then Some (JBool true, skipn 4 s)
          else if startswith s (str "false") then Some (JBool false, skipn 5 s)
          else if startswith s (str "NaN") then Some (JFloat (str "nan"), skipn 3 s)
          else if startswith s (str "Infinity")
          then Some (JFloat (str "inf"), skipn 8 s)
          else if startswith s (str "-Infinity")
          then Some (JFloat (str "-inf"), skipn 9 s)
          else scan_number s
      end
  end

(** [s] starts just after the opening quote of a key. *)
with parse_members (fuel : nat) (acc : list (pystr * pyval)) (s : pystr)
  {struct fuel} : option (pyval * pystr) :=
  match fuel with
  | O => None
  | S f =>
      match scanstring (S (length s)) s with
      | None => None
      | Some (key, r) =>
          match skip_ws r with
          | c :: r1 =>
              if (c =? 58)%N then
                match parse_value f (skip_ws r1) with
                | None => None
                | Some (v, r2) =>
                    let acc' := dict_set acc key v in
                    match skip_ws r2 with
                    | x :: r3 =>
                        if (x =? 125)%N then Some (JDict acc', r3)
                        else if (x =? 44)%N then
                          match skip_ws r3 with
                          | q :: r4 =>
                              if (q =? 34)%N then parse_members f acc' r4
                              else None
                          | [] => None
                          end
                        else None
                    | [] => None
                    end
                end
              else None
          | [] => None
          end
      end
  end

(** [s] starts at an element. *)
with parse_elements (fuel : nat) (acc : list pyval) (s : pystr)
  {struct fuel} : option (pyval * pystr) :=
  match fuel with
  | O => None
  | S f =>
      match parse_value f s with
      | None => None
      | Some (v, r) =>
          match skip_ws r with
          | x :: r1 =>
              if (x =? 93)%N then Some (JList (acc ++ [v]), r1)
              else if (x =? 44)%N then parse_elements f (acc ++ [v]) (skip_ws r1)
              else None
          | [] => None
          end
      end
  end.

(** [json.loads(s)] *)
Definition loads (s : pystr) : py pyval :=
  match parse_value (2 * length s + 2) (skip_ws s) with
  | Some (v, r) =>
      match skip_ws r with
      | [] => Ok v
      | _ :: _ => Raise JSONDecodeError
      end
  | None => Raise JSONDecodeError
  end.

Definition hex_digit (n : N) : char :=
  if (n <? 10)%N then (48 + n)%N else (87 + n)%N.

(** The encoder's escapes when [ensure_ascii] is off. *)
Definition escape_char (c : char) : pystr :=
  if (c =? 34)%N then [92; 34]%N
  else if (c =? 92)%N then [92; 92]%N
  else if (c =? 10)%N then [92; 110]%N
  else if (c =? 13)%N then [92; 114]%N
  else if (c =? 9)%N then [92; 116]%N
  else if (c =? 8)%N then [92; 98]%N
  else if (c =? 12)%N then [92; 102]%N
  else if (c <? 32)%N then
    [92; 117; 48; 48]%N ++ [hex_digit (c / 16); hex_digit (c mod 16)]
  else [c].

Definition encode_string (s : pystr) : pystr :=
  [34%N] ++ flat_map escape_char s ++ [34%N].

(** [json.dumps(v, ensure_ascii=False)]: separators are a comma and a
    colon, each followed by a blank. *)
Fixpoint dumps (v : pyval) : pystr :=
  match v with
  | JNull => str "null"
  | JBool true => str "true"
  | JBool false => str "false"
  | JInt n => decimal n
  | JFloat r =>
      if eqb r (str "nan") then str "NaN"
      else if eqb r (str "inf") then str "Infinity"
      else if eqb r (str "-inf") then str "-Infinity"
      else r
  | JStr s => encode_string s
  | JList l =>
      str "["
      ++ (fix items (l : list pyval) : pystr :=
            match l with
            | [] => []
            | [x] => dumps x
            | x :: l' => dumps x ++ str ", " ++ items l'
            end) l
      ++ str "]"
  | JDict d =>
      str "{"
      ++ (fix items (d : list (pystr * pyval)) : pystr :=
            match d with
            | [] => []
            | [(k, x)] => encode_string k ++ str ": " ++ dumps x
            | (k, x) :: d' =>
                encode_string k ++ str ": " ++ dumps x ++ str ", " ++ items d'
            end) d
      ++ str "}"
  end.

Definition is_ascii_word (c : char) : bool :=
  (is_digit c || (65 <=? c) && (c <=? 90) || (97 <=? c) && (c <=? 122)
   || (c =? 95))%N.

(** The Unicode property White_Space. *)
Definition is_white_space (c : char) : bool :=
  (isspace c && negb ((28 <=? c) && (c <=? 31)))%N.

Definition runtime : Runtime := {|
  json_loads := loads;
  json_dumps := dumps;
  regex_word := is_ascii_word;
  regex_space := is_white_space
|}.

End PyJson.

#[global] Existing Instance PyJson.runtime.

(* ------------------------------------------------------------------ *)
(** * The host loop

    The serving layer calls the streaming method once per delta.  [run]
    feeds it arbitrary argument triples; [feed] follows the protocol, where
    the current text is the previous text plus the delta. *)

Record step : Type := {
  previous_text : pystr;
  current_text : pystr;
  delta_text : pystr
}.

(** Number of tool calls in what one call returned. *)
Definition emitted_calls (r : py (option DeltaMessage)) : nat :=
  match r with
  | Ok (Some m) => length (delta_tool_calls m)
  | _ => 0
  end.

(** The narration in what one call returned. *)
Definition emitted_content (r : py (option DeltaMessage)) : pystr :=
  match r with
  | Ok (Some m) =>
      match delta_content m with
      | Some c => c
      | None => []
      end
  | _ => []
  end.

Definition total_emitted (rs : list (py (option DeltaMessage))) : nat :=
  fold_right (fun r n => emitted_calls r + n) 0 rs.

Definition total_content (rs : list (py (option DeltaMessage))) : pystr :=
  flat_map emitted_content rs.

Section Host.

Context {R : Runtime}.

Definition call (x : step) (st : ParserState) : py (option DeltaMessage) * ParserState :=
  extract_tool_calls_streaming (previous_text x) (current_text x)
                               (delta_text x) st.

Fixpoint run (inputs : list step) (st : ParserState)
  : list (py (option DeltaMessage)) * ParserState :=
  match inputs with
  | [] => ([], st)
  | x :: rest =>
      let (r, st') := call x st in
      let (rs, st'') := run rest st' in
      (r :: rs, st'')
  end.

Fixpoint feed (previous : pystr) (deltas : list pystr) (st : ParserState)
  : list (py (option DeltaMessage)) * ParserState :=
  match deltas with
  | [] => ([], st)
  | d :: rest =>
      let (r, st') :=
        extract_tool_calls_streaming previous (previous ++ d) d st in
      let (rs, st'') := feed (previous ++ d) rest st' in
      (r :: rs, st'')
  end.

(** Which extractor the batch entry point hands the text to. *)
Inductive format : Type :=
| Hermes
| ToolsTag
| DirectJson
| RooXml
| Narration.

(** The priority order as the specification words it: tagged JSON, then
    mis-tagged JSON, then bare JSON, then tag-per-call, first match wins. *)
Definition spec_format_priority (text : pystr) : format :=
  if _has_hermes_format text then Hermes
  else if _has_tools_tag_format text then ToolsTag
  else if _has_direct_json_format text then DirectJson
  else if _has_roo_xml_format text then RooXml
  else Narration.

Definition run_extractor (f : format) (text : pystr)
  : py ExtractedToolCallInformation :=
  match f with
  | Hermes => _extract_hermes_tool_calls text
  | ToolsTag => _extract_tools_tag_format text
  | DirectJson => _extract_direct_json text
  | RooXml => _extract_roo_xml_tool_calls text
  | Narration => Ok (make_extraction_result false [] (Some text))
  end.

(** The [try] block of the extractor that handles [text]. *)
Definition selected_try (text : pystr) : py ExtractedToolCallInformation :=
  match spec_format_priority text with
  | Hermes => hermes_try text
  | ToolsTag => tools_tag_try text
  | DirectJson => direct_json_try text
  | RooXml => roo_xml_try text
  | Narration => Ok (make_extraction_result false [] (Some text))
  end.

End Host.

(* ------------------------------------------------------------------ *)
(** * Bookkeeping of one streaming call

    What one call of the streaming method can do to the three bookkeeping
    fields: leave them alone; bump the counter and then raise; or bump the
    counter and append one entry to each list, with at most one call in the
    message.  The last two need the guard [may_emit] to hold before. *)

Inductive bk_step (st st' : ParserState) (r : py (option DeltaMessage)) : Prop :=
| bk_same :
    current_tool_id st' = current_tool_id st ->
    prev_tool_call_arr st' = prev_tool_call_arr st ->
    streamed_args_for_tool st' = streamed_args_for_tool st ->
    emitted_calls r = 0 ->
    bk_step st st' r
| bk_bump :
    may_emit st = true ->
    current_tool_id st' = (current_tool_id st + 1)%Z ->
    prev_tool_call_arr st' = prev_tool_call_arr st ->
    streamed_args_for_tool st' = streamed_args_for_tool st ->
    (exists e, r = Raise e) ->
    bk_step st st' r
| bk_append (d : pyval) (a : pystr) :
    may_emit st = true ->
    current_tool_id st' = (current_tool_id st + 1)%Z ->
    prev_tool_call_arr st' = prev_tool_call_arr st ++ [d] ->
    streamed_args_for_tool st' = streamed_args_for_tool st ++ [a] ->
    emitted_calls r <= 1 ->
    bk_step st st' r.

Definition bk_ok (m : method (option DeltaMessage)) : Prop :=
  forall st, bk_step st (snd (m st)) (fst (m st)).

(** What holds of the state of a stream in which [n] calls were emitted. *)
Definition once_inv (st : ParserState) (n : nat) : Prop :=
  (-1 <= current_tool_id st)%Z
  /\ n <= length (prev_tool_call_arr st)
  /\ length (prev_tool_call_arr st) <= 1
  /\ (prev_tool_call_arr st <> [] -> (0 <= current_tool_id st)%Z).

(** The invariant of an extraction result: calls were found exactly when
    the list of calls is not empty. *)
Definition calls_found_inv (r : ExtractedToolCallInformation) : Prop :=
  tools_called r = Nat.ltb 0 (length (tool_calls r)).

(** The three bookkeeping fields agree. *)
Definition bookkeeping_inv (st : ParserState) : Prop :=
  (current_tool_id st + 1)%Z = Z.of_nat (length (prev_tool_call_arr st))
  /\ length (prev_tool_call_arr st) = length (streamed_args_for_tool st).

Definition raised (r : py (option DeltaMessage)) : bool :=
  match r with
  | Raise _ => true
  | Ok _ => false
  end.

(** A tag name: no angle bracket and no slash inside. *)
Definition plain_name (n : pystr) : bool :=
  forallb (fun c => negb (N.eqb c 60) && negb (N.eqb c 62)
                    && negb (N.eqb c 47)) n.

Definition clean_name (n : pystr) : Prop :=
  ~ In 60%N n /\ ~ In 62%N n /\ ~ In 47%N n.

(** The names the partial-tag recognizer knows. *)
Definition recognized_names : list pystr :=
  ROO_TOOLS ++ [str "tool_call"; str "tools"].

(** A name between an opening and a closing character. *)
Definition bracket (o c : char) (n : pystr) : pystr := o :: n ++ [c].

(** A complete tag pair of the tool [t] around [body]. *)
Definition span (t body : pystr) : pystr := start_tag t ++ body ++ end_tag t.

(** [body] holds no opening tag of a recognized name. *)
Definition no_known_tag (body : pystr) : bool :=
  forallb (fun n => negb (str_in (start_tag n) body)) recognized_names.

(* ------------------------------------------------------------------ *)
(** * Sample inputs *)

Definition nl : pystr := [10%N].

(** The state of a parser built on a tokenizer for which each of the two
    Hermes tokens is a single token. *)
Definition qwen_state : ParserState :=
  init_state [str "<tool_call>"] [str "</tool_call>"].

Definition scenario_1_input : pystr :=
  str "Hello<tool_call>" ++ nl
  ++ strq "{'name': 'read_file', 'arguments': {'path': 'a.txt'}}" ++ nl
  ++ str "</tool_call>".

Definition scenario_2_input : pystr :=
  str "<write_to_file><path>a.txt</path><content>hi</content></write_to_file>".

Definition scenario_3_deltas : list pystr :=
  [ str "{"; strq "'na"; strq "me': 'x'"; strq ", 'arguments': {}}" ].

Definition scenario_4_input : pystr := strq "{'foo': 1}".

Definition tools_call_text : pystr :=
  strq "<tools>{'name': 'list_files', 'arguments': {}}</tools>".

Definition envelope_and_tag : pystr :=
  strq "<read_file><path>a.txt</path></read_file><tool_call>{'name': 'list_files', 'arguments': {}}</tool_call>".

Definition missing_name_call : pystr :=
  strq "<tool_call>{'arguments': 1}</tool_call>".

Definition unparsable_call : pystr := str "<tool_call>oops</tool_call>".

Definition nested_tag_text : pystr := str "<read_<tools>file>".

Definition tools_without_name : pystr :=
  strq "<tools>{'x': 'name arguments'}</tools>".

(* ------------------------------------------------------------------ *)
(** * Reasoning extraction

    [extract_thinking_from_content] uses the [re] module of the standard
    library.  Its [\s] is the whitespace of [str.strip]; its [\d] is the
    table of Unicode decimal digits, left abstract. *)

Class ReModule : Type := {
  re_digit : char -> bool
}.

(** [^<think>(.*?)</think>\s*] at the start of [s]: group 1 and the text
    after the match. *)
Definition match_think_inner (s : pystr) : option (pystr * pystr) :=
  if startswith s (str "<think>") then
    let body := skipn 7 s in
    match find_nat body (str "</think>") with
    | Some q => Some (firstn q body, lstrip (skipn (q + 8) body))
    | None => None
    end
  else None.

(** One position of a pattern without repetition: a literal character or
    [\d]. *)
Inductive atom : Type :=
| Lit (c : char)
| Digit.

Definition atoms (s : pystr) : list atom := map Lit s.

(** [- \d{4}-\d{2}-\d{2}] *)
Definition date_pattern : list atom :=
  atoms (str "- ") ++ [Digit; Digit; Digit; Digit] ++ atoms (str "-")
  ++ [Digit; Digit] ++ atoms (str "-") ++ [Digit; Digit].

(** [[^\n]*\n] at the start of [s]: the text after the match. *)
Fixpoint after_line (s : pystr) : option pystr :=
  match s with
  | [] => None
  | c :: s' => if (c =? 10)%N then Some s' else after_line s'
  end.

Section Thinking.

Context {D : ReModule}.

Definition atom_matches (a : atom) (c : char) : bool :=
  match a with
  | Lit x => (c =? x)%N
  | Digit => re_digit c
  end.

(** The pattern [p] at the start of [s]: the text after the match. *)
Fixpoint match_atoms (p : list atom) (s : pystr) : option pystr :=
  match p with
  | [] => Some s
  | a :: p' =>
      match s with
      | [] => None
      | c :: s' => if atom_matches a c then match_atoms p' s' else None
      end
  end.

(** One round of [(?:\s*- (?:Result|Next|Step)[^\n]*\n)]: the text after
    it.  The three words start with different letters, and a dash is no
    whitespace, so there is one way to match at most. *)
Definition match_entry (s : pystr) : option pystr :=
  let s1 := lstrip s in
  if startswith s1 (str "- ") then
    let s2 := skipn 2 s1 in
    if startswith s2 (str "Result") then after_line (skipn 6 s2)
    else if startswith s2 (str "Next") then after_line (skipn 4 s2)
    else if startswith s2 (str "Step") then after_line (skipn 4 s2)
    else None
  else None.

(** The greedy repetition of that round: the text after the last round
    that matches.  A round takes at least one character, so [fuel] rounds
    are enough for a text of [fuel] characters. *)
Fixpoint match_entries (fuel : nat) (s : pystr) : pystr :=
  match fuel with
  | O => s
  | S k =>
      match match_entry s with
      | Some r => match_entries k r
      | None => s
      end
  end.

(** [log_pattern.match]: group 1, which is the whole match, and the text
    after it. *)
Definition match_log (s : pystr) : option (pystr * pystr) :=
  match match_atoms date_pattern s with
  | None => None
  | Some r0 =>
      match after_line r0 with
      | None => None
      | Some r1 =>
          let rest := match_entries (length r1) r1 in
          Some (firstn (length s - length rest) s, rest)
      end
  end.

Definition extract_thinking_from_content (content : pystr)
  : option pystr * option pystr :=
  if negb (nonempty content) then (None, None)
  else
    match match_think_inner content with
    | Some (group1, rest) =>
        let thinking := strip group1 in
        let clean_content := strip rest in
        (Some thinking,
         if nonempty clean_content then Some clean_content else None)
    | None =>
        match match_log content with
        | Some (group1, rest) =>
            let thinking := strip group1 in
            let clean_content := strip rest in
            (Some thinking,
             if nonempty clean_content then Some clean_content else None)
        | None => (None, Some content)
        end
    end.

End Thinking.

(* ------------------------------------------------------------------ *)
(** * Predicates on texts, results and messages *)

(** [s] is [t] with some characters deleted. *)
Inductive subseq : pystr -> pystr -> Prop :=
| subseq_nil : subseq [] []
| subseq_drop (c : char) (s t : pystr) : subseq s t -> subseq s (c :: t)
| subseq_keep (c : char) (s t : pystr) : subseq s t -> subseq (c :: s) (c :: t).

(** A string without surrounding whitespace. *)
Definition trimmed (s : pystr) : Prop := strip s = s.

(** What accompanies extracted calls: nothing, or a non-empty text without
    surrounding whitespace whose characters come, in order, from [text]. *)
Definition cleaned_from (text : pystr) (c : option pystr) : Prop :=
  match c with
  | None => True
  | Some c => c <> [] /\ trimmed c /\ subseq c text
  end.

(** The two shapes of an extraction result: the fallback, or calls found
    with cleaned content. *)
Definition result_shape (text : pystr) (r : ExtractedToolCallInformation)
  : Prop :=
  (tools_called r = false /\ tool_calls r = [] /\ content r = Some text)
  \/ (tools_called r = true /\ cleaned_from text (content r)).


(** The JSON value a delta name stands for. *)
Definition name_value (n : option pystr) : pyval :=
  match n with
  | Some s => JStr s
  | None => JNull
  end.

(** What a returned message with a call says about the state change. *)
Definition records_emission (st st' : ParserState)
  (r : py (option DeltaMessage)) : Prop :=
  match r with
  | Ok (Some m) =>
      match delta_tool_calls m with
      | [] => True
      | d :: rest =>
          rest = []
          /\ may_emit st = true
          /\ index d = current_tool_id st'
          /\ current_tool_id st' = (current_tool_id st + 1)%Z
          /\ delta_type d = str "function"
          /\ streamed_args_for_tool st' =
               streamed_args_for_tool st ++ [delta_arguments (delta_function d)]
          /\ exists a,
               prev_tool_call_arr st' =
                 prev_tool_call_arr st
                 ++ [tool_call_dict (name_value (delta_name (delta_function d))) a]
      end
  | _ => True
  end.

(** A returned message that is one call and nothing else. *)
Definition call_only (r : py (option DeltaMessage)) : Prop :=
  match r with
  | Ok (Some m) => delta_content m = None /\ length (delta_tool_calls m) = 1
  | _ => True
  end.

(** A returned message that is one call together with some content. *)
Definition call_with_content (r : py (option DeltaMessage)) : Prop :=
  match r with
  | Ok (Some m) =>
      (exists c, delta_content m = Some c) /\ length (delta_tool_calls m) = 1
  | _ => True
  end.

(** The texts on which the streaming method reaches its last branch and
    hands the delta on. *)
Definition passes_through (cur : pystr) : Prop :=
  startswith (strip cur) (str "<think>") = false
  /\ startswith (strip cur) (str "{") = false
  /\ (str_in (str "<") cur = false
      \/ (_has_roo_xml_format cur = false
          /\ fst (_is_accumulating_xml_tag cur) = false
          /\ search_tag_initial cur = false)).


(** [tool_call_delta_buffer] over a sequence of deltas, the state threaded
    through. *)
Fixpoint buffer_deltas (deltas : list pystr) (st : ParserState)
  : list (py pystr) * ParserState :=
  match deltas with
  | [] => ([], st)
  | d :: rest =>
      let (r, st') := tool_call_delta_buffer d st in
      let (rs, st'') := buffer_deltas rest st' in
      (r :: rs, st'')
  end.

(** The text one call of the buffer hands on. *)
Definition released (r : py pystr) : pystr :=
  match r with
  | Ok s => s
  | Raise _ => []
  end.

Definition is_ok {A : Type} (r : py A) : bool :=
  match r with
  | Ok _ => true
  | Raise _ => false
  end.

(** [json.loads] accepts the text. *)
Definition decodes {R : Runtime} (s : pystr) : bool := is_ok (json_loads s).

(** The call [tc] is the one the JSON text [s] describes: [s] decodes to a
    value whose [name] is the name of the call and whose [arguments],
    rendered by [json.dumps], are its arguments string. *)
Definition call_of_json {R : Runtime} (s : pystr) (tc : ToolCall) : Prop :=
  exists v a,
    json_loads s = Ok v
    /\ getitem v (str "name") = Ok (JStr (name (function tc)))
    /\ getitem v (str "arguments") = Ok a
    /\ arguments (function tc) = json_dumps a
    /\ type tc = str "function".

(** The streamed call [d] is the one the JSON text [s] describes: [s]
    decodes to a value whose [name] is the name sent and whose [arguments]
    (an empty dict when the key is missing), rendered by [json.dumps], are
    the arguments string sent. *)
Definition delta_of_json {R : Runtime} (s : pystr) (d : DeltaToolCall) : Prop :=
  exists v a,
    json_loads s = Ok v
    /\ getitem v (str "name")
       = Ok (name_value (delta_name (delta_function d)))
    /\ get_method v (str "arguments") (JDict []) = Ok a
    /\ delta_arguments (delta_function d) = json_dumps a.

(** What a message of the two JSON streaming paths says about [text], the
    stripped current text. *)
Definition splits_json {R : Runtime} (text : pystr)
  (r : py (option DeltaMessage)) : Prop :=
  match r with
  | Ok (Some m) =>
      exists block tail d,
        text = block ++ tail
        /\ (block = []
            \/ exists inner, block = str "<think>" ++ inner ++ str "</think>")
        /\ delta_content m = (if nonempty block then Some block else None)
        /\ delta_tool_calls m = [d]
        /\ delta_of_json (lstrip tail) d
  | _ => True
  end.

(** The message carries exactly the call [tc], with arguments other than
    the empty object. *)
Definition streams_call (m : DeltaMessage) (tc : ToolCall) : Prop :=
  exists d,
    delta_tool_calls m = [d]
    /\ delta_content m = None
    /\ delta_name (delta_function d) = Some (name (function tc))
    /\ delta_arguments (delta_function d) = arguments (function tc)
    /\ eqb (arguments (function tc)) (str "{}") = false.

(** The text of an optional string. *)
Definition text_of (c : option pystr) : pystr :=
  match c with
  | Some s => s
  | None => []
  end.

(** [r] is what is left of [s] after a prefix. *)
Definition suffix_of (r s : pystr) : Prop := exists p, s = p ++ r.

(* ------------------------------------------------------------------ *)
(** * Further sample inputs *)

(** The message the streaming method returns for [tools_call_text]. *)
Definition list_files_delta : DeltaToolCall :=
  {| index := 0;
     delta_type := str "function";
     delta_function := {| delta_name := Some (str "list_files");
                          delta_arguments := str "{}" |} |}.

Definition list_files_message : DeltaMessage :=
  {| delta_content := None; delta_tool_calls := [list_files_delta] |}.

Definition narration_message : DeltaMessage :=
  {| delta_content := Some (str "hi"); delta_tool_calls := [] |}.

(** Two Roo tags, the one later in [ROO_TOOLS] first in the text. *)
Definition two_tags_text : pystr :=
  str "<write_to_file><path>b</path></write_to_file><read_file><path>a</path></read_file>".

Definition unclosed_tag_text : pystr := str "<read_file><path>a.txt".

Definition padded_text : pystr := str "  Hello <tool_call> ".

Definition two_envelopes : pystr :=
  strq "<tool_call>{'name': 'list_files', 'arguments': {}}</tool_call><tool_call>{'arguments': 1}</tool_call>".

(** Two well-formed envelopes around one that does not decode. *)
Definition three_envelopes : pystr :=
  strq "<tool_call>{'name': 'list_files', 'arguments': {}}</tool_call><tool_call>oops</tool_call><tool_call>{'name': 'read_file', 'arguments': {'path': 'a'}}</tool_call>".

Definition think_json_text : pystr :=
  strq "<think>plan</think> {'name': 'read_file', 'arguments': {'path': 'a'}}".

(** The digits of ASCII, for texts that hold no other digit. *)
Definition ascii_digit (c : char) : bool := (48 <=? c)%N && (c <=? 57)%N.

Definition ascii_re : ReModule := {| re_digit := ascii_digit |}.

Definition log_sample : pystr :=
  str "- 2024-05-01 start" ++ nl ++ str "  - Step one" ++ nl
  ++ str " answer ".

(* ------------------------------------------------------------------ *)
(** * Facts about strings *)

Section StrFacts.

Lemma eqb_eq (s t : pystr) : eqb s t = true <-> s = t.
Proof.
  revert t; induction s as [|a s IH]; intros [|b t]; simpl; split;
    try congruence; try reflexivity.
  - rewrite andb_true_iff, N.eqb_eq, IH. intros [-> ->]; reflexivity.
  - intros E; injection E as -> ->.
    rewrite N.eqb_refl; simpl. apply IH; reflexivity.
Qed.

Lemma eqb_refl (s : pystr) : eqb s s = true.
Proof. apply eqb_eq; reflexivity. Qed.

Lemma existsb_In (x : pystr) (l : list pystr) :
  existsb (eqb x) l = true -> In x l.
Proof.
  intros H. apply existsb_exists in H as (y & Hy & E).
  apply eqb_eq in E; subst y; exact Hy.
Qed.

Lemma startswith_app (p b : pystr) : startswith (p ++ b) p = true.
Proof.
  induction p as [|a p IH]; simpl; [reflexivity|].
  rewrite N.eqb_refl; exact IH.
Qed.

Lemma startswith_inv (s p : pystr) :
  startswith s p = true -> exists b, s = p ++ b.
Proof.
  revert s; induction p as [|a p IH]; intros s H; simpl in *.
  - exists s; reflexivity.
  - destruct s as [|c s]; [discriminate|].
    apply andb_true_iff in H as [E H]. apply N.eqb_eq in E; subst c.
    destruct (IH _ H) as [b ->]. exists b; reflexivity.
Qed.

Lemma startswith_iff (s p : pystr) :
  startswith s p = true <-> exists b, s = p ++ b.
Proof.
  split; [apply startswith_inv|]. intros [b ->]; apply startswith_app.
Qed.

Lemma find_nat_Some (s p : pystr) (i : nat) :
  find_nat s p = Some i ->
  exists a b, s = a ++ p ++ b /\ length a = i.
Proof.
  revert i; induction s as [|c s IH]; intros i; simpl.
  - destruct p; simpl; [|discriminate]. intros E; injection E as <-.
    exists [], []; split; reflexivity.
  - destruct (startswith (c :: s) p) eqn:Hs.
    + intros E; injection E as <-.
      apply startswith_inv in Hs as [b Hb].
      exists [], b; split; [exact Hb|reflexivity].
    + destruct (find_nat s p) as [j|] eqn:Hf; simpl; [|discriminate].
      intros E; injection E as <-.
      destruct (IH j eq_refl) as (a & b & -> & Hl).
      exists (c :: a), b; split; [reflexivity|simpl; congruence].
Qed.

Lemma find_nat_occurs (a p b : pystr) :
  exists i, find_nat (a ++ p ++ b) p = Some i /\ i <= length a.
Proof.
  induction a as [|c a IH]; simpl.
  - destruct (p ++ b) as [|x r] eqn:E.
    + apply app_eq_nil in E as [-> _]. exists 0; split; [reflexivity|lia].
    + simpl. rewrite <- E, startswith_app. exists 0; split; [reflexivity|lia].
  - destruct (startswith (c :: a ++ p ++ b) p).
    + exists 0; split; [reflexivity|lia].
    + destruct IH as (i & -> & Hi). exists (S i); split; [reflexivity|lia].
Qed.

Lemma str_in_iff (p s : pystr) :
  str_in p s = true <-> exists a b, s = a ++ p ++ b.
Proof.
  unfold str_in; split.
  - destruct (find_nat s p) as [i|] eqn:E; [|discriminate].
    intros _. destruct (find_nat_Some _ _ _ E) as (a & b & H & _).
    exists a, b; exact H.
  - intros (a & b & ->).
    destruct (find_nat_occurs a p b) as (i & -> & _); reflexivity.
Qed.

Lemma str_in_In (p s : pystr) (c : char) :
  str_in p s = true -> In c p -> In c s.
Proof.
  intros H Hc. apply str_in_iff in H as (a & b & ->).
  apply in_or_app; right; apply in_or_app; left; exact Hc.
Qed.

Lemma str_in_absent (p s : pystr) (c : char) :
  In c p -> ~ In c s -> str_in p s = false.
Proof.
  intros Hc Hn. destruct (str_in p s) eqn:E; [|reflexivity].
  exfalso; apply Hn; eapply str_in_In; eassumption.
Qed.

Lemma lstrip_by_suffix (f : char -> bool) (s : pystr) :
  exists a, s = a ++ lstrip_by f s /\ forallb f a = true.
Proof.
  induction s as [|c s (a & IH & Ha)]; simpl.
  - exists []; split; reflexivity.
  - destruct (f c) eqn:E.
    + exists (c :: a); simpl; rewrite E; split; [congruence|exact Ha].
    + exists []; split; reflexivity.
Qed.

Lemma lstrip_by_head (f : char -> bool) (s : pystr) (c : char) (r : pystr) :
  lstrip_by f s = c :: r -> f c = false.
Proof.
  induction s as [|x s IH]; simpl; [discriminate|].
  destruct (f x) eqn:E; [exact IH|]. intros H; injection H as <- _; exact E.
Qed.

Lemma lstrip_by_fixed (f : char -> bool) (c : char) (r : pystr) :
  f c = false -> lstrip_by f (c :: r) = c :: r.
Proof. intros E; simpl; rewrite E; reflexivity. Qed.

Lemma lstrip_by_app (f : char -> bool) (s t : pystr) (c : char) (r : pystr) :
  lstrip_by f s = c :: r -> lstrip_by f (s ++ t) = c :: r ++ t.
Proof.
  induction s as [|x s IH]; simpl; [discriminate|].
  destruct (f x); [exact IH|]. intros H; injection H as -> ->; reflexivity.
Qed.

Lemma lstrip_by_last (f : char -> bool) (s : pystr) (c : char) :
  f c = false -> exists y, lstrip_by f (s ++ [c]) = y ++ [c].
Proof.
  intros E; induction s as [|x s (y & IH)]; simpl.
  - rewrite E; exists []; reflexivity.
  - destruct (f x); [exists y; exact IH|]. exists (x :: s); reflexivity.
Qed.

Lemma rstrip_by_prefix (f : char -> bool) (s : pystr) :
  exists b, s = rstrip_by f s ++ b.
Proof.
  unfold rstrip_by. destruct (lstrip_by_suffix f (rev s)) as (a & H & _).
  exists (rev a). rewrite <- rev_app_distr, <- H, rev_involutive; reflexivity.
Qed.

Lemma strip_In (s : pystr) (c : char) : In c (strip s) -> In c s.
Proof.
  unfold strip, rstrip, lstrip. intros H.
  destruct (rstrip_by_prefix isspace (lstrip_by isspace s)) as (b & Hb).
  destruct (lstrip_by_suffix isspace s) as (a & Ha & _).
  rewrite Ha. apply in_or_app; right. rewrite Hb.
  apply in_or_app; left; exact H.
Qed.

(** The first character that [strip] keeps is the one [lstrip] keeps. *)
Lemma strip_head (s : pystr) (c : char) :
  (exists r, strip s = c :: r) <-> (exists r, lstrip s = c :: r).
Proof.
  unfold strip, rstrip; split; intros (r & H).
  - destruct (rstrip_by_prefix isspace (lstrip s)) as (b & Hb).
    rewrite H in Hb. exists (r ++ b); exact Hb.
  - rewrite H. unfold rstrip_by.
    assert (Hc : isspace c = false) by (eapply lstrip_by_head; exact H).
    simpl rev.
    destruct (lstrip_by_last isspace (rev r) c Hc) as (y & ->).
    rewrite rev_app_distr; simpl. exists (rev y); reflexivity.
Qed.

End StrFacts.

(* ------------------------------------------------------------------ *)
(** * Facts about the batch path *)

Section BatchFacts.

Context {R : Runtime}.

Lemma str_in_char (c : char) (s : pystr) :
  str_in [c] s = false <-> ~ In c s.
Proof.
  split.
  - intros H Hin. apply in_split in Hin as (a & b & ->).
    assert (E : str_in [c] (a ++ [c] ++ b) = true)
      by (apply str_in_iff; exists a, b; reflexivity).
    simpl in E; congruence.
  - intros H. apply (str_in_absent _ _ c); [left; reflexivity|exact H].
Qed.

Lemma startswith_In (s p : pystr) (c : char) :
  startswith s p = true -> In c p -> In c s.
Proof.
  intros H Hc. apply startswith_inv in H as [b ->].
  apply in_or_app; left; exact Hc.
Qed.

Lemma no_lt_no_hermes (text : pystr) :
  ~ In 60%N text -> _has_hermes_format text = false.
Proof.
  intros H. unfold _has_hermes_format.
  apply (str_in_absent _ _ 60%N); [|exact H]. simpl; auto.
Qed.

Lemma no_lt_no_tools (text : pystr) :
  ~ In 60%N text -> _has_tools_tag_format text = false.
Proof.
  intros H. unfold _has_tools_tag_format.
  rewrite (str_in_absent (str "<tools>") text 60%N); [reflexivity| |exact H].
  simpl; auto.
Qed.

Lemma start_tag_has_lt (tool_name : pystr) : In 60%N (start_tag tool_name).
Proof. unfold start_tag; simpl; auto. Qed.

Lemma no_lt_no_roo (text : pystr) :
  ~ In 60%N text -> _has_roo_xml_format text = false.
Proof.
  intros H. unfold _has_roo_xml_format.
  induction ROO_TOOLS as [|t ts IH]; simpl; [reflexivity|].
  rewrite IH, (str_in_absent _ text 60%N (start_tag_has_lt t) H); reflexivity.
Qed.

Lemma match_think_json_lt (s : pystr) (r : pystr * pystr) :
  match_think_json s = Some r -> In 60%N s.
Proof.
  unfold match_think_json.
  destruct (startswith s (str "<think>")) eqn:E; [|discriminate].
  intros _. apply (startswith_In _ _ _ E). simpl; auto.
Qed.

Lemma no_lt_no_brace_no_json (text : pystr) :
  ~ In 60%N text -> ~ In 123%N text -> _has_direct_json_format text = false.
Proof.
  intros Hlt Hbr. unfold _has_direct_json_format.
  destruct (startswith (strip text) (str "{")) eqn:E.
  - exfalso; apply Hbr, strip_In.
    apply (startswith_In _ _ _ E); simpl; auto.
  - simpl. destruct (match_think_json (strip text)) eqn:M; [|reflexivity].
    exfalso; apply Hlt, strip_In. eapply match_think_json_lt; exact M.
Qed.

Lemma dispatch_by_priority (text : pystr) :
  extract_tool_calls text = run_extractor (spec_format_priority text) text.
Proof.
  unfold extract_tool_calls, spec_format_priority.
  destruct (_has_hermes_format text); [reflexivity|].
  destruct (_has_tools_tag_format text); [reflexivity|].
  destruct (_has_direct_json_format text); [reflexivity|].
  destruct (_has_roo_xml_format text); reflexivity.
Qed.

Lemma try_except_total {A : Type} (body : py A) (a : A) :
  exists r, try_except body (fun _ => Ok a) = Ok r.
Proof. destruct body as [x|e]; simpl; eauto. Qed.

Lemma try_except_fallback {A : Type} (body : py A) (a : A) (e : exn) :
  body = Raise e -> try_except body (fun _ => Ok a) = Ok a.
Proof. intros ->; reflexivity. Qed.

End BatchFacts.

(** C6. Pure-narration identity: a text with no [<] and no opening brace
    is returned unchanged as content, with [tools_called] false and no
    tool call. *)
Theorem pure_narration_identity {R : Runtime} (text : pystr) :
  str_in (str "<") text = false ->
  str_in (str "{") text = false ->
  extract_tool_calls text =
    Ok {| tools_called := false; tool_calls := []; content := Some text |}.
Proof.
  intros Hlt Hbr.
  apply str_in_char in Hlt. apply str_in_char in Hbr.
  unfold extract_tool_calls.
  rewrite (no_lt_no_hermes _ Hlt), (no_lt_no_tools _ Hlt),
    (no_lt_no_roo _ Hlt), (no_lt_no_brace_no_json _ Hlt Hbr).
  reflexivity.
Qed.

Lemma pure_narration_identity_witness :
  str_in (str "<") (str "All done, 2 files kept.") = false
  /\ str_in (str "{") (str "All done, 2 files kept.") = false
  /\ extract_tool_calls (str "All done, 2 files kept.") =
       Ok {| tools_called := false; tool_calls := [];
             content := Some (str "All done, 2 files kept.") |}.
Proof.
  split; [reflexivity|]. split; [reflexivity|].
  apply (@pure_narration_identity PyJson.runtime); reflexivity.
Defined.

(** C3. Detection priority: a text that holds the [<tool_call>] start
    token goes to the Hermes extractor even when it also holds the opening
    tag of a Roo tool; and for every text the extractor is chosen in the
    order Hermes, [<tools>], direct JSON, Roo XML, first match winning. *)
Theorem hermes_has_priority {R : Runtime} (text tool_name : pystr) :
  In tool_name ROO_TOOLS ->
  str_in tool_call_start_token text = true ->
  str_in (start_tag tool_name) text = true ->
  spec_format_priority text = Hermes
  /\ extract_tool_calls text = _extract_hermes_tool_calls text
  /\ (forall t : pystr,
        extract_tool_calls t = run_extractor (spec_format_priority t) t).
Proof.
  intros _ Hh _.
  assert (E : spec_format_priority text = Hermes).
  { unfold spec_format_priority, _has_hermes_format. rewrite Hh; reflexivity. }
  split; [exact E|]. split.
  - rewrite dispatch_by_priority, E; reflexivity.
  - apply dispatch_by_priority.
Qed.

Lemma hermes_has_priority_witness :
  In (str "read_file") ROO_TOOLS
  /\ str_in tool_call_start_token envelope_and_tag = true
  /\ str_in (start_tag (str "read_file")) envelope_and_tag = true
  /\ spec_format_priority envelope_and_tag = Hermes
  /\ extract_tool_calls envelope_and_tag
     = _extract_hermes_tool_calls envelope_and_tag.
Proof.
  assert (Hin : In (str "read_file") ROO_TOOLS)
    by (apply existsb_In; reflexivity).
  split; [exact Hin|]. split; [reflexivity|]. split; [reflexivity|].
  pose proof (@hermes_has_priority PyJson.runtime envelope_and_tag
                (str "read_file") Hin eq_refl eq_refl) as (H1 & H2 & _).
  split; [exact H1|exact H2].
Defined.

(* ------------------------------------------------------------------ *)
(** * Facts about the streaming path *)

Lemma getitem_exn v k e :
  getitem v k = Raise e -> e = KeyError \/ e = TypeError.
Proof.
  destruct v; simpl; try (intros H; injection H as <-; auto).
  destruct (dict_get d k); [discriminate|]. intros H; injection H as <-; auto.
Qed.

Lemma get_method_exn v k d e :
  get_method v k d = Raise e -> e = AttributeError.
Proof.
  destruct v; simpl; try (intros H; injection H as <-; auto).
  destruct (dict_get d0 k); discriminate.
Qed.

Lemma new_DeltaFunctionCall_exn v a e :
  new_DeltaFunctionCall v a = Raise e -> e = ValidationError.
Proof. destruct v; simpl; intros H; try discriminate; injection H as <-; auto. Qed.

Ltac no_json_error :=
  match goal with
  | H : getitem _ _ = Raise JSONDecodeError |- _ =>
      apply getitem_exn in H; destruct H; discriminate
  | H : get_method _ _ _ = Raise JSONDecodeError |- _ =>
      apply get_method_exn in H; discriminate
  | H : new_DeltaFunctionCall _ _ = Raise JSONDecodeError |- _ =>
      apply new_DeltaFunctionCall_exn in H; discriminate
  end.

Ltac bk_leaf :=
  first
    [ solve [subst; no_json_error]
    | solve [apply bk_same; simpl; auto]
    | solve [apply bk_bump; simpl; eauto]
    | solve [eapply bk_append; simpl; eauto] ].

(** Case analysis on a scrutinee that holds no other case analysis. *)
Ltac holds_match t :=
  match t with
  | context [match _ with _ => _ end] => idtac
  end.

Ltac case_scrutinee :=
  match goal with
  | |- context [match ?scrut with _ => _ end] =>
      tryif holds_match scrut then fail else destruct scrut eqn:?
  end.

Ltac bk_split := repeat (simpl; case_scrutinee); simpl.

Section StreamFacts.
Context {R : Runtime}.

Lemma bk_ret_none : bk_ok (ret None).
Proof. intros st; bk_leaf. Qed.

Ltac unfold_method :=
  unfold emit_json_call, emit_extracted_call, mtry_except, mtry_except_json,
    mbind, lift, get, ret, increment_tool_id, append_prev_tool_call,
    append_streamed_args, modify, new_call_message, bind.

Lemma bk_direct_json cur del : bk_ok (_streaming_extract_direct_json cur del).
Proof.
  intros st. unfold _streaming_extract_direct_json; unfold_method.
  bk_split; bk_leaf.
Qed.

Lemma bk_think_json cur del : bk_ok (_streaming_extract_think_json cur del).
Proof.
  intros st. unfold _streaming_extract_think_json; unfold_method.
  bk_split; bk_leaf.
Qed.

Lemma bk_tools_format cur del : bk_ok (_streaming_extract_tools_format cur del).
Proof.
  intros st. unfold _streaming_extract_tools_format; unfold_method.
  bk_split; bk_leaf.
Qed.

Lemma bk_hermes prev cur del : bk_ok (_streaming_extract_hermes prev cur del).
Proof.
  intros st.
  unfold _streaming_extract_hermes, tool_call_delta_buffer; unfold_method.
  bk_split; bk_leaf.
Qed.

Lemma bk_roo_loop tools cur : bk_ok (streaming_roo_xml_loop tools cur).
Proof.
  induction tools as [|t ts IH]; intros st; simpl.
  - bk_leaf.
  - unfold_method.
    bk_split; try bk_leaf; apply IH.
Qed.

Lemma bk_streaming prev cur del :
  bk_ok (extract_tool_calls_streaming prev cur del).
Proof.
  intros st. unfold extract_tool_calls_streaming, _streaming_extract_roo_xml.
  repeat match goal with
         | |- context [if ?c then _ else _] => destruct c
         | |- context [match ?x with _ => _ end] => destruct x
         end;
    first [ apply bk_think_json | apply bk_direct_json | apply bk_roo_loop
          | apply bk_hermes | apply bk_tools_format | bk_leaf ].
Qed.


Lemma run_app inputs1 inputs2 st :
  run (inputs1 ++ inputs2) st =
    (fst (run inputs1 st) ++ fst (run inputs2 (snd (run inputs1 st))),
     snd (run inputs2 (snd (run inputs1 st)))).
Proof.
  revert st; induction inputs1 as [|x xs IH]; intros st; simpl.
  - destruct (run inputs2 st); reflexivity.
  - destruct (call x st) as [r st1]. rewrite IH.
    destruct (run xs st1) as [rs st2]; simpl.
    destruct (run inputs2 st2); reflexivity.
Qed.

Lemma total_emitted_app rs1 rs2 :
  total_emitted (rs1 ++ rs2) = total_emitted rs1 + total_emitted rs2.
Proof.
  induction rs1 as [|r rs IH]; simpl; [reflexivity|]. rewrite IH; lia.
Qed.

Lemma may_emit_empty st :
  once_inv st 0 -> may_emit st = true -> prev_tool_call_arr st = [].
Proof.
  intros (_ & _ & _ & Hc). unfold may_emit.
  destruct (prev_tool_call_arr st) as [|d l] eqn:E; [reflexivity|].
  rewrite orb_false_r. intros Hm. apply Z.ltb_lt in Hm.
  assert (0 <= current_tool_id st)%Z by (apply Hc; discriminate). lia.
Qed.

Lemma once_inv_weaken st n : once_inv st n -> once_inv st 0.
Proof. unfold once_inv; intuition lia. Qed.

Lemma once_inv_step st st' r n :
  once_inv st n -> bk_step st st' r ->
  once_inv st' (n + emitted_calls r)
  /\ (0 < emitted_calls r -> n = 0 /\ prev_tool_call_arr st = []).
Proof.
  intros Hinv Hstep.
  pose proof (may_emit_empty _ (once_inv_weaken _ _ Hinv)) as Hempty.
  destruct Hinv as (Hc & Hn & Hl & Hp).
  destruct Hstep as [Ec Ep _ Er | _ Ec Ep _ (e & ->) | d a Hm Ec Ep _ Er].
  - rewrite Er, Nat.add_0_r. split.
    + unfold once_inv. rewrite Ec, Ep. repeat split; assumption.
    + intros H; inversion H.
  - simpl. rewrite Nat.add_0_r. split.
    + unfold once_inv. rewrite Ec, Ep.
      repeat split; try assumption; try lia;
        intros H; specialize (Hp H); lia.
    + intros H; inversion H.
  - specialize (Hempty Hm). rewrite Hempty in Hn, Ep. simpl in Hn, Ep.
    assert (n = 0) by lia; subst n. split.
    + unfold once_inv. rewrite Ec, Ep; simpl.
      repeat split; try lia.
    + intros _; split; [reflexivity|exact Hempty].
Qed.

Lemma run_once_inv inputs st n :
  once_inv st n ->
  once_inv (snd (run inputs st)) (n + total_emitted (fst (run inputs st))).
Proof.
  revert st n; induction inputs as [|x xs IH]; intros st n Hinv; simpl.
  - rewrite Nat.add_0_r; exact Hinv.
  - pose proof (bk_streaming (previous_text x) (current_text x)
                             (delta_text x) st) as Hstep.
    fold (call x st) in Hstep. destruct (call x st) as [r st1]; simpl in *.
    destruct (once_inv_step _ _ _ _ Hinv Hstep) as [H1 _].
    specialize (IH st1 _ H1).
    destruct (run xs st1) as [rs st2]; simpl in *.
    rewrite Nat.add_assoc; exact IH.
Qed.

Lemma init_once_inv sa ea : once_inv (init_state sa ea) 0.
Proof. unfold once_inv; simpl. repeat split; try lia. congruence. Qed.

Lemma once_inv_bound st n : once_inv st n -> n <= 1.
Proof. unfold once_inv; intuition lia. Qed.

(** C1. Exactly-once emission: from the initial state, over any sequence
    of calls of the streaming method, at most one tool call is emitted in
    total; a call is emitted only when none was emitted before (the list
    of previous calls is still empty); and once a call was emitted, neither
    the same arguments fed again nor any later input emits another. *)
Theorem streaming_exactly_once (start_array end_array : list pystr)
  (inputs : list step) :
  let st0 := init_state start_array end_array in
  total_emitted (fst (run inputs st0)) <= 1
  /\ (forall before x after,
        inputs = before ++ x :: after ->
        let st := snd (run before st0) in
        0 < emitted_calls (fst (call x st)) ->
        total_emitted (fst (run before st0)) = 0
        /\ prev_tool_call_arr st = []
        /\ emitted_calls (fst (call x (snd (call x st)))) = 0
        /\ total_emitted (fst (run after (snd (call x st)))) = 0).
Proof.
  intros st0. split.
  - apply (once_inv_bound (snd (run inputs st0))).
    apply (run_once_inv inputs st0 0), init_once_inv.
  - intros before x after _ st Hem.
    pose proof (run_once_inv before st0 0 (init_once_inv _ _)) as Hb.
    simpl in Hb. fold st in Hb. clearbody st.
    pose proof (bk_streaming (previous_text x) (current_text x)
                             (delta_text x) st) as Hstep.
    fold (call x st) in Hstep.
    destruct (once_inv_step _ _ _ _ Hb Hstep) as [H1 H2].
    destruct (H2 Hem) as [Hz Hp].
    rewrite Hz, Nat.add_0_l in H1.
    split; [exact Hz|]. split; [exact Hp|].
    assert (He : emitted_calls (fst (call x st)) = 1).
    { pose proof (once_inv_bound _ _ H1). lia. }
    rewrite He in H1. split.
    + pose proof (bk_streaming (previous_text x) (current_text x)
                               (delta_text x) (snd (call x st))) as Hstep2.
      fold (call x (snd (call x st))) in Hstep2.
      destruct (once_inv_step _ _ _ _ H1 Hstep2) as [H3 _].
      pose proof (once_inv_bound _ _ H3). lia.
    + pose proof (once_inv_bound _ _ (run_once_inv after _ _ H1)). lia.
Qed.

Lemma bookkeeping_inv_step st st' r :
  bookkeeping_inv st -> bk_step st st' r -> raised r = false ->
  bookkeeping_inv st'.
Proof.
  intros [H1 H2] Hstep Hr. unfold bookkeeping_inv.
  destruct Hstep as [Ec Ep Es _ | _ _ _ _ (e & ->) | d a _ Ec Ep Es _].
  - rewrite Ec, Ep, Es; split; assumption.
  - discriminate.
  - rewrite Ec, Ep, Es, !length_app; simpl. split; lia.
Qed.

(** X2. Short of a call that raises, the three bookkeeping fields stay in
    step: from a state where [current_tool_id + 1], the length of
    [prev_tool_call_arr] and the length of [streamed_args_for_tool] agree,
    they still agree after any run in which no call raised. *)
Lemma run_bookkeeping_inv (inputs : list step) (st : ParserState) :
  bookkeeping_inv st ->
  forallb (fun r => negb (raised r)) (fst (run inputs st)) = true ->
  bookkeeping_inv (snd (run inputs st)).
Proof.
  revert st; induction inputs as [|x xs IH]; intros st Hinv Hr; simpl in *.
  - exact Hinv.
  - pose proof (bk_streaming (previous_text x) (current_text x)
                             (delta_text x) st) as Hstep.
    fold (call x st) in Hstep. destruct (call x st) as [r st1]; simpl in *.
    specialize (IH st1).
    destruct (run xs st1) as [rs st2]; simpl in *.
    apply andb_true_iff in Hr as [Hr1 Hr2].
    apply IH; [|exact Hr2].
    apply (bookkeeping_inv_step st st1 r Hinv Hstep).
    destruct (raised r); [discriminate|reflexivity].
Qed.

End StreamFacts.

Lemma run_bookkeeping_inv_witness :
  let inputs :=
    [ {| previous_text := []; current_text := tools_call_text;
         delta_text := tools_call_text |};
      {| previous_text := tools_call_text;
         current_text := tools_call_text ++ nl; delta_text := nl |} ] in
  bookkeeping_inv qwen_state
  /\ forallb (fun r => negb (raised r)) (fst (run inputs qwen_state)) = true
  /\ total_emitted (fst (run inputs qwen_state)) = 1
  /\ bookkeeping_inv (snd (run inputs qwen_state)).
Proof.
  cbv zeta.
  assert (H0 : bookkeeping_inv qwen_state) by (split; reflexivity).
  split; [exact H0|]. split; [vm_compute; reflexivity|].
  split; [vm_compute; reflexivity|].
  apply (@run_bookkeeping_inv PyJson.runtime _ qwen_state H0).
  vm_compute; reflexivity.
Defined.

(** C8. Total extraction with full-text fallback: [extract_tool_calls]
    returns a result for every text, and whenever the [try] block of an
    extractor raises, that extractor (and so the entry point, when the
    extractor is the selected one) returns [tools_called] false, no tool
    call, and the whole text as content. *)
Theorem extraction_total_with_fallback {R : Runtime} (text : pystr) :
  (exists r, extract_tool_calls text = Ok r)
  /\ (forall e, hermes_try text = Raise e ->
        _extract_hermes_tool_calls text = Ok (fallback text))
  /\ (forall e, tools_tag_try text = Raise e ->
        _extract_tools_tag_format text = Ok (fallback text))
  /\ (forall e, direct_json_try text = Raise e ->
        _extract_direct_json text = Ok (fallback text))
  /\ (forall e, roo_xml_try text = Raise e ->
        _extract_roo_xml_tool_calls text = Ok (fallback text))
  /\ (forall e, selected_try text = Raise e ->
        extract_tool_calls text =
          Ok {| tools_called := false; tool_calls := [];
                content := Some text |}).
Proof.
  split.
  { rewrite dispatch_by_priority.
    destruct (spec_format_priority text); simpl;
      try apply try_except_total. eauto. }
  split; [intros e; apply try_except_fallback|].
  split; [intros e; apply try_except_fallback|].
  split; [intros e; apply try_except_fallback|].
  split; [intros e; apply try_except_fallback|].
  intros e. rewrite dispatch_by_priority. unfold selected_try.
  destruct (spec_format_priority text); simpl; intros H;
    try (eapply try_except_fallback; exact H). discriminate.
Qed.

Lemma extraction_total_with_fallback_witness :
  selected_try missing_name_call = Raise KeyError
  /\ extract_tool_calls missing_name_call =
       Ok {| tools_called := false; tool_calls := [];
             content := Some missing_name_call |}.
Proof.
  split; [reflexivity|].
  exact (proj2 (proj2 (proj2 (proj2 (proj2
           (@extraction_total_with_fallback PyJson.runtime missing_name_call)))))
           KeyError eq_refl).
Defined.

Section NarrationFacts.
Context {R : Runtime}.

Lemma brace_prefix (cur rest : pystr) :
  startswith (strip (cur ++ rest)) (str "{") = false ->
  startswith (strip cur) (str "{") = false.
Proof.
  intros H. destruct (startswith (strip cur) (str "{")) eqn:E; [|reflexivity].
  apply startswith_inv in E as [b E]. simpl in E.
  destruct (proj1 (strip_head cur 123%N) (ex_intro _ b E)) as [r Hr].
  assert (Hl : lstrip (cur ++ rest) = 123%N :: r ++ rest)
    by (apply lstrip_by_app; exact Hr).
  destruct (proj2 (strip_head (cur ++ rest) 123%N) (ex_intro _ _ Hl)) as [r' Hr'].
  rewrite Hr' in H. simpl in H. discriminate.
Qed.

Lemma lt_prefix (cur rest : pystr) :
  str_in (str "<") (cur ++ rest) = false -> str_in (str "<") cur = false.
Proof.
  intros H. apply str_in_char in H. apply str_in_char.
  intros Hin; apply H, in_or_app; left; exact Hin.
Qed.

Lemma plain_step (prev cur del : pystr) (st : ParserState) :
  str_in (str "<") cur = false ->
  startswith (strip cur) (str "{") = false ->
  extract_tool_calls_streaming prev cur del st =
    (Ok (Some {| delta_content := Some del; delta_tool_calls := [] |}), st).
Proof.
  intros Hlt Hbr. unfold extract_tool_calls_streaming.
  destruct (startswith (strip cur) (str "<think>")) eqn:E.
  - exfalso. apply str_in_char in Hlt. apply Hlt, strip_In.
    apply (startswith_In _ _ _ E). simpl; auto.
  - rewrite Hbr, Hlt. reflexivity.
Qed.

Lemma feed_plain (deltas : list pystr) (prev : pystr) (st : ParserState) :
  str_in (str "<") (prev ++ concat deltas) = false ->
  startswith (strip (prev ++ concat deltas)) (str "{") = false ->
  total_content (fst (feed prev deltas st)) = concat deltas
  /\ total_emitted (fst (feed prev deltas st)) = 0
  /\ snd (feed prev deltas st) = st.
Proof.
  revert prev; induction deltas as [|d ds IH]; intros prev Hlt Hbr; simpl.
  - repeat split.
  - simpl in Hlt, Hbr. rewrite app_assoc in Hlt, Hbr.
    rewrite (plain_step prev (prev ++ d) d st
               (lt_prefix _ _ Hlt) (brace_prefix _ _ Hbr)).
    destruct (IH (prev ++ d) Hlt Hbr) as (H1 & H2 & H3).
    destruct (feed (prev ++ d) ds st) as [rs st']; simpl in *.
    rewrite H1, H2, H3. repeat split.
Qed.

End NarrationFacts.

(** C4 (amended). Streaming narration: when the final text of a stream has
    no [<] and, stripped, does not start with an opening brace, every delta
    is passed through, so the contents returned over the whole sequence
    concatenate to the final text; no call is emitted and the state is left
    as it was. *)
Theorem narration_stream_complete {R : Runtime} (deltas : list pystr)
  (st : ParserState) :
  str_in (str "<") (concat deltas) = false ->
  startswith (strip (concat deltas)) (str "{") = false ->
  total_content (fst (feed [] deltas st)) = concat deltas
  /\ total_emitted (fst (feed [] deltas st)) = 0
  /\ snd (feed [] deltas st) = st.
Proof. intros Hlt Hbr. apply feed_plain; assumption. Qed.

Lemma narration_stream_complete_witness :
  let deltas := [str "Reading "; str "the file"; str " now."] in
  str_in (str "<") (concat deltas) = false
  /\ startswith (strip (concat deltas)) (str "{") = false
  /\ total_content (fst (feed [] deltas qwen_state)) = concat deltas.
Proof.
  split; [reflexivity|]. split; [reflexivity|].
  apply (@narration_stream_complete PyJson.runtime); reflexivity.
Defined.

(** C4 as stated fails: the text [a < b] matches none of the four formats
    and is returned whole by the batch path, yet the stream that delivers
    it as [a <] then [ b] surfaces only [ b]. *)
Lemma narration_stream_loses_fragment :
  let deltas := [str "a <"; str " b"] in
  spec_format_priority (concat deltas) = Narration
  /\ extract_tool_calls (concat deltas) =
       Ok {| tools_called := false; tool_calls := [];
             content := Some (str "a < b") |}
  /\ total_content (fst (feed [] deltas qwen_state)) = str " b"
  /\ total_content (fst (feed [] deltas qwen_state)) <> concat deltas.
Proof.
  cbv zeta. split; [reflexivity|]. split; [reflexivity|].
  split; [reflexivity|]. vm_compute. discriminate.
Qed.

(* ------------------------------------------------------------------ *)
(** * The result invariant

    The [<tools>], direct JSON and Roo XML extractors, and the fall-through
    of the entry point, all keep [calls_found_inv]; only the Hermes extractor
    can break it. *)

Section InvariantFacts.
Context {R : Runtime}.

Lemma fallback_inv (text : pystr) : calls_found_inv (fallback text).
Proof. reflexivity. Qed.

Lemma tools_tag_inv (text : pystr) (r : ExtractedToolCallInformation) :
  _extract_tools_tag_format text = Ok r -> calls_found_inv r.
Proof.
  unfold _extract_tools_tag_format, tools_tag_try, try_except, bind.
  destruct (findall_envelope _ _ 0 text) as [|m ms].
  - intros H; injection H as <-; apply fallback_inv.
  - destruct (tools_tag_loop (m :: ms) []) as [[|tc tcs]|e];
      intros H; injection H as <-; reflexivity.
Qed.

Lemma direct_json_inv (text : pystr) (r : ExtractedToolCallInformation) :
  _extract_direct_json text = Ok r -> calls_found_inv r.
Proof.
  unfold _extract_direct_json, direct_json_try, try_except, bind, new_ToolCall,
    bind.
  destruct (match_think text) as [[g rest]|];
    repeat match goal with
           | |- context [match ?x with _ => _ end] =>
               tryif holds_match x then fail else destruct x
           end;
    intros H; injection H as <-; reflexivity.
Qed.

Lemma roo_xml_inv (text : pystr) (r : ExtractedToolCallInformation) :
  _extract_roo_xml_tool_calls text = Ok r -> calls_found_inv r.
Proof.
  unfold _extract_roo_xml_tool_calls, roo_xml_try, try_except, bind.
  destruct (roo_xml_loop ROO_TOOLS text) as [[[|tc tcs] c]|e]; simpl;
    intros H; injection H as <-; reflexivity.
Qed.

(** X1. Away from the Hermes extractor the result invariant holds: for a
    text without the [<tool_call>] start token, [tools_called] is true
    exactly when the list of calls is not empty. *)
Lemma invariant_outside_hermes (text : pystr)
  (r : ExtractedToolCallInformation) :
  _has_hermes_format text = false ->
  extract_tool_calls text = Ok r -> calls_found_inv r.
Proof.
  intros Hh. unfold extract_tool_calls. rewrite Hh.
  destruct (_has_tools_tag_format text); [apply tools_tag_inv|].
  destruct (_has_direct_json_format text); [apply direct_json_inv|].
  destruct (_has_roo_xml_format text); [apply roo_xml_inv|].
  intros H; injection H as <-; reflexivity.
Qed.
End InvariantFacts.

Lemma invariant_outside_hermes_witness :
  _has_hermes_format tools_call_text = false
  /\ extract_tool_calls tools_call_text =
       Ok {| tools_called := true;
             tool_calls :=
               [ {| type := str "function";
                    function := {| name := str "list_files";
                                   arguments := str "{}" |} |} ];
             content := None |}
  /\ calls_found_inv
       {| tools_called := true;
          tool_calls :=
            [ {| type := str "function";
                 function := {| name := str "list_files";
                                arguments := str "{}" |} |} ];
          content := None |}.
Proof.
  assert (H1 : _has_hermes_format tools_call_text = false)
    by (vm_compute; reflexivity).
  assert (H2 : extract_tool_calls tools_call_text =
                 Ok {| tools_called := true;
                       tool_calls :=
                         [ {| type := str "function";
                              function := {| name := str "list_files";
                                             arguments := str "{}" |} |} ];
                       content := None |})
    by (vm_compute; reflexivity).
  split; [exact H1|]. split; [exact H2|].
  exact (@invariant_outside_hermes PyJson.runtime _ _ H1 H2).
Defined.

(* ------------------------------------------------------------------ *)
(** * The parser on concrete inputs *)

(** C5 as stated fails: the arguments string of scenario 1 is not the
    compact [{"path":"a.txt"}]. *)
Lemma scenario_1_arguments_not_compact :
  exists r tc,
    extract_tool_calls scenario_1_input = Ok r
    /\ tool_calls r = [tc]
    /\ eqb (arguments (function tc)) (strq "{'path':'a.txt'}") = false.
Proof.
  eexists; eexists. split; [vm_compute; reflexivity|].
  split; reflexivity.
Qed.

(** C5 (amended). Scenario 1: the text [Hello], a [<tool_call>] envelope
    around the call to [read_file] gives exactly one call, named
    [read_file], whose arguments string is the [json.dumps] rendering with a
    blank after the colon, and the content [Hello]. *)
Theorem scenario_1 :
  extract_tool_calls scenario_1_input =
    Ok {| tools_called := true;
          tool_calls :=
            [ {| type := str "function";
                 function := {| name := str "read_file";
                                arguments := strq "{'path': 'a.txt'}" |} |} ];
          content := Some (str "Hello") |}.
Proof. vm_compute. reflexivity. Qed.

(** Scenario 2 of the specification: a [write_to_file] tag pair with
    two parameters gives one call whose arguments are the rendering of
    the two-key object, and no content. *)
Theorem scenario_2 :
  extract_tool_calls scenario_2_input =
    Ok {| tools_called := true;
          tool_calls :=
            [ {| type := str "function";
                 function :=
                   {| name := str "write_to_file";
                      arguments := strq "{'path': 'a.txt', 'content': 'hi'}" |} |} ];
          content := None |}.
Proof. vm_compute. reflexivity. Qed.

(** Scenario 3 of the specification: the four deltas of a bare JSON
    call are suppressed until the last one, which emits the single call
    [x] with arguments [{}] and no content. *)
Theorem scenario_3 :
  fst (feed [] scenario_3_deltas qwen_state) =
    [ Ok None; Ok None; Ok None;
      Ok (Some {| delta_content := None;
                  delta_tool_calls :=
                    [ {| index := 0; delta_type := str "function";
                         delta_function :=
                           {| delta_name := Some (str "x");
                              delta_arguments := str "{}" |} |} ] |}) ].
Proof. vm_compute. reflexivity. Qed.

(** Scenario 4 of the specification: a JSON object without [name] and
    [arguments] is not a call; the text comes back as content. *)
Theorem scenario_4 :
  extract_tool_calls scenario_4_input =
    Ok {| tools_called := false; tool_calls := [];
          content := Some scenario_4_input |}.
Proof. vm_compute. reflexivity. Qed.

(** C2 fails on the code: when the only [<tool_call>] envelope does not
    hold valid JSON, the Hermes extractor reports [tools_called] true with
    an empty list of calls. *)
Theorem hermes_reports_calls_without_any :
  extract_tool_calls unparsable_call =
    Ok {| tools_called := true; tool_calls := []; content := None |}.
Proof. vm_compute. reflexivity. Qed.

(** C7 fails on the code: removing [<tools>] from the sample text builds
    the tag [<read_file>], which is returned; sanitizing that result once
    more removes it and returns [None]. *)
Theorem sanitizer_second_pass_differs :
  clean_content_from_xml_tags nested_tag_text (str "tool_call")
    = Some (str "<read_file>")
  /\ clean_content_from_xml_tags (str "<read_file>") (str "tool_call")
       = None.
Proof. split; vm_compute; reflexivity. Qed.

(** C10 fails on the code: on a complete [<tools>] envelope whose object
    has no [name] key, the streaming method bumps [current_tool_id] and
    then raises [KeyError], leaving the counter at 0 with both lists
    empty. *)
Theorem tools_stream_breaks_bookkeeping :
  fst (extract_tool_calls_streaming [] tools_without_name tools_without_name
                                    qwen_state) = Raise KeyError
  /\ current_tool_id
       (snd (extract_tool_calls_streaming [] tools_without_name
                                          tools_without_name qwen_state))
     = 0%Z
  /\ prev_tool_call_arr
       (snd (extract_tool_calls_streaming [] tools_without_name
                                          tools_without_name qwen_state))
     = []
  /\ streamed_args_for_tool
       (snd (extract_tool_calls_streaming [] tools_without_name
                                          tools_without_name qwen_state))
     = [].
Proof. repeat split; vm_compute; reflexivity. Qed.

(* ------------------------------------------------------------------ *)
(** * Tag pairs without parameters *)

Section TagFacts.

Lemma app_sep_unique (c : char) (n m b rest : pystr) :
  ~ In c n -> ~ In c m -> n ++ c :: b = m ++ c :: rest -> n = m /\ b = rest.
Proof.
  revert m; induction n as [|x n IH]; intros [|y m] Hn Hm E; simpl in *.
  - injection E as ->; split; reflexivity.
  - injection E as <- _. exfalso; apply Hm; left; reflexivity.
  - injection E as -> _. exfalso; apply Hn; left; reflexivity.
  - injection E as -> E.
    destruct (IH m) as [-> ->]; try exact E; try split; try reflexivity;
      intros H; [apply Hn|apply Hm]; right; exact H.
Qed.

Lemma sep_before (o c : char) (m a x rest : pystr) :
  o <> c -> ~ In o m ->
  a ++ o :: x = m ++ c :: rest ->
  exists a', a = m ++ c :: a' /\ rest = a' ++ o :: x.
Proof.
  intros Hoc. revert a; induction m as [|y m IH]; intros a Hm E; simpl in *.
  - destruct a as [|z a]; simpl in E.
    + injection E as E _; contradiction.
    + injection E as -> E. exists a; split; [reflexivity|symmetry; exact E].
  - destruct a as [|z a]; simpl in E.
    + injection E as E _. exfalso; apply Hm; left; symmetry; exact E.
    + injection E as -> E.
      destruct (IH a) as (a' & -> & ->); [tauto|exact E|].
      exists a'; split; reflexivity.
Qed.

Lemma bracket_front (o c : char) (n m a b rest : pystr) :
  o <> c -> ~ In c n -> ~ In o m -> ~ In c m ->
  a ++ bracket o c n ++ b = bracket o c m ++ rest ->
  (a = [] /\ n = m /\ b = rest)
  \/ (exists a', a = bracket o c m ++ a' /\ rest = a' ++ bracket o c n ++ b).
Proof.
  intros Hoc Hcn Hom Hcm E. unfold bracket in *.
  destruct a as [|z a]; simpl in E.
  - left. injection E as E. rewrite <- !app_assoc in E; simpl in E.
    destruct (app_sep_unique c n m b rest Hcn Hcm E) as [-> ->].
    repeat split.
  - right. injection E as -> E. rewrite <- !app_assoc in E; simpl in E.
    destruct (sep_before o c m a (n ++ c :: b) rest Hoc Hom E) as (a' & -> & ->).
    exists a'. simpl. rewrite <- !app_assoc; simpl. split; reflexivity.
Qed.

Lemma bracket_rev (o c : char) (n : pystr) :
  rev (bracket o c n) = bracket c o (rev n).
Proof. unfold bracket. simpl. rewrite rev_app_distr; reflexivity. Qed.

Lemma bracket_back (o c : char) (n m a b body : pystr) :
  o <> c -> ~ In o n -> ~ In o m -> ~ In c m ->
  a ++ bracket o c n ++ b = body ++ bracket o c m ->
  (b = [] /\ n = m /\ a = body)
  \/ (exists b', b = b' ++ bracket o c m /\ body = a ++ bracket o c n ++ b').
Proof.
  intros Hoc Hon Hom Hcm E.
  apply (f_equal (@rev char)) in E.
  rewrite !rev_app_distr, !bracket_rev, <- app_assoc in E.
  assert (Hr : forall (x : char) (l : pystr), ~ In x l -> ~ In x (rev l))
    by (intros x l H H'; apply H, in_rev; exact H').
  destruct (bracket_front c o (rev n) (rev m) (rev b) (rev a) (rev body))
    as [(Hb & Hn & Ha) | (b' & Hb & Hbody)]; auto.
  - left. repeat split.
    + destruct b; [reflexivity|]. simpl in Hb.
      destruct (rev b); discriminate.
    + rewrite <- (rev_involutive n), Hn, rev_involutive; reflexivity.
    + rewrite <- (rev_involutive a), Ha, rev_involutive; reflexivity.
  - right. exists (rev b'). split.
    + rewrite <- (rev_involutive b), Hb, rev_app_distr, bracket_rev,
        rev_involutive. reflexivity.
    + rewrite <- (rev_involutive body), Hbody, !rev_app_distr, bracket_rev,
        !rev_involutive, <- app_assoc. reflexivity.
Qed.

Lemma start_tag_bracket (n : pystr) : start_tag n = bracket 60%N 62%N n.
Proof. reflexivity. Qed.

Lemma end_tag_bracket (n : pystr) :
  end_tag n = bracket 60%N 62%N (47%N :: n).
Proof. reflexivity. Qed.

End TagFacts.

Section SpanFacts.

Lemma lt_neq_gt : 60%N <> 62%N.
Proof. discriminate. Qed.

Lemma start_tag_in_span (t n body : pystr) :
  clean_name t -> clean_name n -> n <> t ->
  str_in (start_tag n) (span t body) = true ->
  str_in (start_tag n) body = true.
Proof.
  intros (Ht1 & Ht2 & Ht3) (Hn1 & Hn2 & Hn3) Hne H.
  apply str_in_iff in H as (a & b & E). unfold span in E.
  change (start_tag t) with (bracket 60%N 62%N t) in E.
  change (start_tag n) with (bracket 60%N 62%N n) in E.
  change (end_tag t) with (bracket 60%N 62%N (47%N :: t)) in E.
  symmetry in E.
  destruct (bracket_front 60%N 62%N n t a b _ lt_neq_gt Hn2 Ht1 Ht2 E)
    as [(_ & Hnt & _) | (a' & -> & E')]; [contradiction|].
  symmetry in E'.
  destruct (bracket_back 60%N 62%N n (47%N :: t) a' b body lt_neq_gt Hn1)
    as [(_ & Hnt & _) | (b' & _ & Hb)]; try exact E'.
  - intros [H|H]; [discriminate|contradiction].
  - intros [H|H]; [discriminate|contradiction].
  - exfalso; apply Hn3; rewrite Hnt; left; reflexivity.
  - apply str_in_iff. exists a', b'. exact Hb.
Qed.

Lemma end_tag_in_span (t body a b : pystr) :
  clean_name t ->
  span t body = a ++ end_tag t ++ b ->
  exists a' c, a = start_tag t ++ a' /\ body = a' ++ c.
Proof.
  intros (Ht1 & Ht2 & Ht3) E. unfold span in E.
  change (start_tag t) with (bracket 60%N 62%N t) in E.
  change (end_tag t) with (bracket 60%N 62%N (47%N :: t)) in E.
  symmetry in E.
  assert (H60 : ~ In 60%N (47%N :: t))
    by (intros [H|H]; [discriminate|contradiction]).
  assert (H62 : ~ In 62%N (47%N :: t))
    by (intros [H|H]; [discriminate|contradiction]).
  destruct (bracket_front 60%N 62%N (47%N :: t) t a b _ lt_neq_gt H62 Ht1 Ht2 E)
    as [(_ & Hnt & _) | (a' & -> & E')].
  - apply (f_equal (@length char)) in Hnt. simpl in Hnt. lia.
  - symmetry in E'.
    destruct (bracket_back 60%N 62%N (47%N :: t) (47%N :: t) a' b body
                lt_neq_gt H60 H60 H62 E')
      as [(_ & _ & ->) | (b' & _ & Hb)].
    + exists body, []. rewrite app_nil_r; split; reflexivity.
    + exists a', (bracket 60%N 62%N (47%N :: t) ++ b'); split;
        [reflexivity|exact Hb].
Qed.

Lemma find_end_tag_span (t body : pystr) :
  clean_name t ->
  exists a' c,
    body = a' ++ c
    /\ find_nat (span t body) (end_tag t)
       = Some (length (start_tag t) + length a').
Proof.
  intros Ht.
  destruct (find_nat_occurs (start_tag t ++ body) (end_tag t) [])
    as (i & Hi & _).
  rewrite app_nil_r, <- app_assoc in Hi. fold (span t body) in Hi.
  destruct (find_nat_Some _ _ _ Hi) as (a & b & E & Hl).
  destruct (end_tag_in_span t body a b Ht E) as (a' & c & -> & Hb).
  exists a', c. split; [exact Hb|].
  rewrite Hi, <- Hl, length_app; reflexivity.
Qed.

Lemma find_nat_prefix (s p : pystr) :
  startswith s p = true -> s <> [] -> find_nat s p = Some 0.
Proof.
  destruct s as [|c s]; [congruence|]. intros H _. simpl find_nat.
  rewrite H; reflexivity.
Qed.

Lemma slice_middle (x y z : pystr) :
  slice (x ++ y ++ z) (Some (Z.of_nat (length x)))
        (Some (Z.of_nat (length x + length y))) = y.
Proof.
  unfold slice, clamp_index. rewrite !length_app.
  destruct (Z.ltb_spec (Z.of_nat (length x)) 0); [lia|].
  destruct (Z.ltb_spec (Z.of_nat (length x + length y)) 0); [lia|].
  rewrite !Z.min_l by lia.
  replace (Z.to_nat (Z.of_nat (length x + length y) - Z.of_nat (length x)))
    with (length y) by lia.
  rewrite Nat2Z.id, skipn_app, skipn_all, Nat.sub_diag; simpl.
  rewrite firstn_app, firstn_all, Nat.sub_diag; simpl.
  apply app_nil_r.
Qed.

Lemma strip_fixed (c d : char) (r : pystr) :
  isspace c = false -> isspace d = false ->
  strip (c :: r ++ [d]) = c :: r ++ [d].
Proof.
  intros Hc Hd. unfold strip, lstrip, rstrip, rstrip_by.
  rewrite (lstrip_by_fixed isspace c _ Hc).
  change (c :: r ++ [d]) with ((c :: r) ++ [d]).
  rewrite rev_unit, (lstrip_by_fixed isspace d _ Hd).
  rewrite <- rev_unit, rev_involutive. reflexivity.
Qed.

End SpanFacts.

Section FindallFacts.
Context {R : Runtime}.

Lemma span_word_app (r c w r' : pystr) (d : char) :
  span_word r = (w, d :: r') -> span_word (r ++ c) = (w, d :: r' ++ c).
Proof.
  revert w; induction r as [|x r IH]; intros w; simpl; [discriminate|].
  destruct (regex_word x).
  - destruct (span_word r) as [w0 r0] eqn:E. intros H; injection H as <- ->.
    rewrite (IH w0 eq_refl). reflexivity.
  - intros H; injection H as <- <- <-. reflexivity.
Qed.

Lemma match_inner_tag_app (s c : pystr) (m : pystr * pystr * nat) :
  match_inner_tag s = Some m -> exists m', match_inner_tag (s ++ c) = Some m'.
Proof.
  unfold match_inner_tag. destruct s as [|x r]; [discriminate|]. simpl app.
  cbv beta iota.
  destruct (N.eqb x 60); [|discriminate].
  destruct (span_word r) as [w r'] eqn:E.
  destruct w as [|w0 w]; [discriminate|].
  destruct r' as [|d body]; [discriminate|].
  rewrite (span_word_app r c _ _ _ E).
  destruct (N.eqb d 62); [|discriminate].
  destruct (find_nat body (end_tag (w0 :: w))) as [q|] eqn:F; [|discriminate].
  intros _.
  destruct (find_nat_Some _ _ _ F) as (a & b & -> & _).
  destruct (find_nat_occurs a (end_tag (w0 :: w)) (b ++ c)) as (i & Hi & _).
  rewrite <- !app_assoc. rewrite Hi. eauto.
Qed.

Lemma findall_tags_cons (x : char) (s : pystr) :
  findall_tags 0 (x :: s) =
    match match_inner_tag (x :: s) with
    | Some (w, between, len) => (w, between) :: findall_tags (len - 1) s
    | None => findall_tags 0 s
    end.
Proof. reflexivity. Qed.

Lemma findall_tags_prefix (a c : pystr) :
  findall_tags 0 (a ++ c) = [] -> findall_tags 0 a = [].
Proof.
  induction a as [|x a IH]; [reflexivity|].
  change ((x :: a) ++ c) with (x :: (a ++ c)).
  rewrite !findall_tags_cons.
  destruct (match_inner_tag (x :: a)) as [m|] eqn:E.
  - destruct (match_inner_tag_app (x :: a) c m E) as (m' & Hm').
    change ((x :: a) ++ c) with (x :: (a ++ c)) in Hm'. rewrite Hm'.
    destruct m' as [[w b] l]. discriminate.
  - destruct (match_inner_tag (x :: a ++ c)) as [[[w b] l]|];
      [discriminate|exact IH].
Qed.

End FindallFacts.

Section SpanExtraction.
Context {R : Runtime}.

Lemma plain_name_clean (n : pystr) : plain_name n = true -> clean_name n.
Proof.
  unfold plain_name, clean_name. rewrite forallb_forall. intros H.
  repeat split; intros Hin; specialize (H _ Hin); simpl in H; discriminate.
Qed.

Lemma recognized_plain (n : pystr) : In n recognized_names -> clean_name n.
Proof.
  intros H. apply plain_name_clean.
  assert (E : forallb plain_name recognized_names = true) by reflexivity.
  rewrite forallb_forall in E. apply E; exact H.
Qed.

Lemma tool_recognized (t : pystr) : In t ROO_TOOLS -> In t recognized_names.
Proof. intros H; apply in_or_app; left; exact H. Qed.

Lemma In_existsb (x : pystr) (l : list pystr) :
  In x l -> existsb (eqb x) l = true.
Proof.
  intros H. apply existsb_exists. exists x; split; [exact H|apply eqb_refl].
Qed.

Lemma tool_not (t n : pystr) :
  In t ROO_TOOLS -> existsb (eqb n) ROO_TOOLS = false -> n <> t.
Proof.
  intros Ht Hn ->. apply In_existsb in Ht. congruence.
Qed.

Variables (t body : pystr).
Hypothesis Ht : In t ROO_TOOLS.
Hypothesis Hinner : inner_tag_findall body = [].
Hypothesis Hno : no_known_tag body = true.

Lemma other_tag_absent (n : pystr) :
  In n recognized_names -> n <> t -> str_in (start_tag n) (span t body) = false.
Proof.
  intros Hn Hne.
  destruct (str_in (start_tag n) (span t body)) eqn:E; [|reflexivity].
  apply start_tag_in_span in E;
    [|apply recognized_plain, tool_recognized; exact Ht
     |apply recognized_plain; exact Hn|exact Hne].
  unfold no_known_tag in Hno. rewrite forallb_forall in Hno.
  specialize (Hno _ Hn). rewrite E in Hno. discriminate.
Qed.

Lemma span_no_hermes : _has_hermes_format (span t body) = false.
Proof.
  unfold _has_hermes_format.
  apply (other_tag_absent (str "tool_call")).
  - apply in_or_app; right; simpl; auto.
  - apply tool_not; [exact Ht|reflexivity].
Qed.

Lemma span_no_tools : _has_tools_tag_format (span t body) = false.
Proof.
  unfold _has_tools_tag_format.
  change (str "<tools>") with (start_tag (str "tools")).
  rewrite (other_tag_absent (str "tools")); [reflexivity| |].
  - apply in_or_app; right; simpl; auto.
  - apply tool_not; [exact Ht|reflexivity].
Qed.

Lemma span_shape :
  span t body = 60%N :: (t ++ 62%N :: body ++ 60%N :: 47%N :: t) ++ [62%N].
Proof.
  unfold span, start_tag, end_tag. simpl.
  rewrite <- !app_assoc. simpl. rewrite <- !app_assoc. reflexivity.
Qed.

Lemma span_strip : strip (span t body) = span t body.
Proof. rewrite span_shape. apply strip_fixed; reflexivity. Qed.

Lemma span_not_think : startswith (span t body) (str "<think>") = false.
Proof.
  destruct (startswith (span t body) (str "<think>")) eqn:E; [|reflexivity].
  apply startswith_inv in E as [b E]. unfold span in E.
  change (str "<think>") with (bracket 60%N 62%N (str "think")) in E.
  change (start_tag t) with (bracket 60%N 62%N t) in E.
  destruct (recognized_plain t (tool_recognized t Ht)) as (H1 & H2 & _).
  assert (Hk : ~ In 62%N (str "think"))
    by (intros H; simpl in H; intuition discriminate).
  destruct (bracket_front 60%N 62%N (str "think") t [] b _ lt_neq_gt
              Hk H1 H2 (eq_sym E)) as [(_ & Hnt & _) | (a' & Ha & _)].
  - exfalso. exact (tool_not t (str "think") Ht eq_refl Hnt).
  - discriminate.
Qed.

Lemma span_no_json : _has_direct_json_format (span t body) = false.
Proof.
  unfold _has_direct_json_format, match_think_json.
  rewrite span_strip, span_not_think.
  rewrite span_shape. reflexivity.
Qed.

Lemma span_has_start : str_in (start_tag t) (span t body) = true.
Proof. apply str_in_iff. exists [], (body ++ end_tag t). reflexivity. Qed.

Lemma span_has_end : str_in (end_tag t) (span t body) = true.
Proof.
  apply str_in_iff. exists (start_tag t ++ body), [].
  unfold span. rewrite app_nil_r, <- app_assoc. reflexivity.
Qed.

Lemma span_has_roo : _has_roo_xml_format (span t body) = true.
Proof.
  unfold _has_roo_xml_format. apply existsb_exists.
  exists t; split; [exact Ht|apply span_has_start].
Qed.

Lemma span_has_lt : str_in (str "<") (span t body) = true.
Proof. apply str_in_iff. exists [], (t ++ str ">" ++ body ++ end_tag t).
  unfold span, start_tag. rewrite <- !app_assoc. reflexivity. Qed.

Lemma body_no_tags : findall_tags 0 body = [].
Proof.
  unfold inner_tag_findall in Hinner. apply map_eq_nil in Hinner. exact Hinner.
Qed.

Lemma span_find_start : find (span t body) (start_tag t) = 0%Z.
Proof.
  unfold find. rewrite find_nat_prefix; [reflexivity| |].
  - unfold span. apply startswith_app.
  - rewrite span_shape; discriminate.
Qed.

(** The text between the tags, as both paths cut it out. *)
Lemma span_xml_content :
  exists a' c,
    body = a' ++ c
    /\ find (span t body) (end_tag t)
       = Z.of_nat (length (start_tag t) + length a')
    /\ slice (span t body)
             (Some (0 + Z.of_nat (length (start_tag t)))%Z)
             (Some (Z.of_nat (length (start_tag t) + length a'))) = a'.
Proof.
  destruct (find_end_tag_span t body
              (recognized_plain t (tool_recognized t Ht)))
    as (a' & c & Hb & Hf).
  exists a', c. split; [exact Hb|]. split.
  - unfold find. rewrite Hf. reflexivity.
  - unfold span. rewrite Hb, <- app_assoc. simpl Z.add.
    apply slice_middle.
Qed.

Lemma span_roo_xml_content :
  exists a' c, body = a' ++ c /\ roo_xml_content (span t body) t = a'.
Proof.
  destruct span_xml_content as (a' & c & Hb & Hf & Hs).
  exists a', c. split; [exact Hb|].
  unfold roo_xml_content. rewrite span_find_start, Hf.
  destruct (Z.eqb_spec (Z.of_nat (length (start_tag t) + length a')) (-1));
    [lia|exact Hs].
Qed.

Lemma roo_loop_on_span (tools : list pystr) :
  (forall x, In x tools -> In x recognized_names) ->
  In t tools ->
  roo_xml_loop tools (span t body) =
    Ok ([ {| type := str "function";
             function := {| name := t;
                            arguments := json_dumps (JDict []) |} |} ],
        None).
Proof.
  induction tools as [|x xs IH]; intros Hrec Hin; [destruct Hin|].
  cbn [roo_xml_loop].
  destruct (list_eq_dec N.eq_dec x t) as [->|Hne].
  - rewrite span_has_start. simpl negb. cbv iota.
    destruct span_roo_xml_content as (a' & c & Hb & ->).
    unfold param_findall.
    rewrite (findall_tags_prefix a' c) by (rewrite <- Hb; apply body_no_tags).
    simpl. rewrite span_find_start. reflexivity.
  - rewrite (other_tag_absent x); [| apply Hrec; left; reflexivity | exact Hne].
    simpl negb. cbv iota. apply IH.
    + intros y Hy; apply Hrec; right; exact Hy.
    + destruct Hin as [E|Hin]; [contradiction|exact Hin].
Qed.

Lemma streaming_loop_on_span (tools : list pystr) (st : ParserState) :
  (forall x, In x tools -> In x recognized_names) ->
  In t tools ->
  streaming_roo_xml_loop tools (span t body) st = (Ok None, st).
Proof.
  induction tools as [|x xs IH]; intros Hrec Hin; [destruct Hin|].
  cbn [streaming_roo_xml_loop].
  destruct (list_eq_dec N.eq_dec x t) as [->|Hne].
  - rewrite span_has_start, span_has_end. simpl negb. simpl orb. cbv iota.
    destruct span_xml_content as (a' & c & Hb & Hf & Hs).
    rewrite span_find_start, Hf, Hs.
    unfold inner_tag_findall.
    rewrite (findall_tags_prefix a' c) by (rewrite <- Hb; apply body_no_tags).
    reflexivity.
  - rewrite (other_tag_absent x); [| apply Hrec; left; reflexivity | exact Hne].
    simpl negb. simpl orb. cbv iota. apply IH.
    + intros y Hy; apply Hrec; right; exact Hy.
    + destruct Hin as [E|Hin]; [contradiction|exact Hin].
Qed.

End SpanExtraction.

(** C9 (amended). A complete tag pair of a Roo tool whose body holds no
    complete inner tag and no opening tag of a recognized name (Roo tools,
    [tool_call], [tools]): the batch path returns one call, of that tool,
    with arguments [{}] (the rendering of the empty dict) and no content,
    while the streaming method, whatever the state and the delta, returns
    [None] on that text and leaves the state as it was. *)
Theorem parameterless_span {R : Runtime} (t body previous delta : pystr)
  (st : ParserState) :
  In t ROO_TOOLS ->
  inner_tag_findall body = [] ->
  no_known_tag body = true ->
  json_dumps (JDict []) = str "{}" ->
  extract_tool_calls (span t body) =
    Ok {| tools_called := true;
          tool_calls :=
            [ {| type := str "function";
                 function := {| name := t; arguments := str "{}" |} |} ];
          content := None |}
  /\ extract_tool_calls_streaming previous (span t body) delta st
     = (Ok None, st).
Proof.
  intros Ht Hinner Hno Hd. split.
  - unfold extract_tool_calls.
    rewrite (span_no_hermes t body Ht Hno), (span_no_tools t body Ht Hno),
      (span_no_json t body Ht), (span_has_roo t body Ht).
    unfold _extract_roo_xml_tool_calls, roo_xml_try.
    rewrite (roo_loop_on_span t body Ht Hinner Hno ROO_TOOLS
               (tool_recognized) Ht).
    simpl. rewrite Hd. reflexivity.
  - unfold extract_tool_calls_streaming.
    rewrite (span_strip t body), (span_not_think t body Ht).
    replace (startswith (span t body) (str "{")) with false
      by (rewrite span_shape; reflexivity).
    rewrite (span_has_lt t body), (span_has_roo t body Ht).
    unfold _streaming_extract_roo_xml.
    apply (streaming_loop_on_span t body Ht Hinner Hno ROO_TOOLS st
             tool_recognized Ht).
Qed.

Lemma parameterless_span_witness :
  In (str "attempt_completion") ROO_TOOLS
  /\ inner_tag_findall [] = []
  /\ no_known_tag [] = true
  /\ json_dumps (JDict []) = str "{}"
  /\ extract_tool_calls (str "<attempt_completion></attempt_completion>") =
       Ok {| tools_called := true;
             tool_calls :=
               [ {| type := str "function";
                    function := {| name := str "attempt_completion";
                                   arguments := str "{}" |} |} ];
             content := None |}
  /\ extract_tool_calls_streaming
       [] (str "<attempt_completion></attempt_completion>")
       (str "<attempt_completion></attempt_completion>") qwen_state
     = (Ok None, qwen_state).
Proof.
  assert (Hin : In (str "attempt_completion") ROO_TOOLS)
    by (apply existsb_In; reflexivity).
  split; [exact Hin|]. split; [reflexivity|]. split; [reflexivity|].
  split; [reflexivity|].
  exact (@parameterless_span PyJson.runtime (str "attempt_completion") []
           [] (str "<attempt_completion></attempt_completion>") qwen_state
           Hin eq_refl eq_refl eq_refl).
Defined.

(** C9 as stated fails: the tag pair of [attempt_completion] around the
    text [<tool_call>] has no complete inner tag, yet the batch path takes
    the Hermes extractor and returns no call at all. *)
Lemma parameterless_span_with_envelope :
  In (str "attempt_completion") ROO_TOOLS
  /\ inner_tag_findall (str "<tool_call>") = []
  /\ extract_tool_calls (span (str "attempt_completion") (str "<tool_call>"))
     = Ok {| tools_called := true; tool_calls := []; content := None |}.
Proof.
  split; [apply existsb_In; reflexivity|].
  split; vm_compute; reflexivity.
Qed.

(* ------------------------------------------------------------------ *)
(** * What one streaming call returns *)

Ltac unfold_methods :=
  unfold emit_json_call, emit_extracted_call, mtry_except, mtry_except_json,
    mbind, lift, get, ret, increment_tool_id, append_prev_tool_call,
    append_streamed_args, modify, new_call_message, bind.

Ltac emission_leaf :=
  first
    [ exact I
    | solve [simpl; repeat split; eauto]
    | solve [simpl; repeat split; eauto;
             match goal with
             | H : new_DeltaFunctionCall ?v _ = Ok _ |- _ =>
                 destruct v; simpl in H; try discriminate;
                 injection H as <-; simpl; eauto
             end] ].

Ltac shape_leaf :=
  first [ exact I | solve [simpl; split; eauto] ].

Section EmissionFacts.
Context {R : Runtime}.

Lemma emission_direct_json cur del st :
  records_emission st (snd (_streaming_extract_direct_json cur del st))
                   (fst (_streaming_extract_direct_json cur del st)).
Proof.
  unfold _streaming_extract_direct_json; unfold_methods.
  bk_split; unfold records_emission; simpl; emission_leaf.
Qed.

Lemma emission_think_json cur del st :
  records_emission st (snd (_streaming_extract_think_json cur del st))
                   (fst (_streaming_extract_think_json cur del st)).
Proof.
  unfold _streaming_extract_think_json; unfold_methods.
  bk_split; unfold records_emission; simpl; emission_leaf.
Qed.

Lemma emission_tools_format cur del st :
  records_emission st (snd (_streaming_extract_tools_format cur del st))
                   (fst (_streaming_extract_tools_format cur del st)).
Proof.
  unfold _streaming_extract_tools_format; unfold_methods.
  bk_split; unfold records_emission; simpl; emission_leaf.
Qed.

Lemma emission_hermes prev cur del st :
  records_emission st (snd (_streaming_extract_hermes prev cur del st))
                   (fst (_streaming_extract_hermes prev cur del st)).
Proof.
  unfold _streaming_extract_hermes, tool_call_delta_buffer; unfold_methods.
  bk_split; unfold records_emission; simpl; emission_leaf.
Qed.

Lemma emission_roo_loop tools cur st :
  records_emission st (snd (streaming_roo_xml_loop tools cur st))
                   (fst (streaming_roo_xml_loop tools cur st)).
Proof.
  induction tools as [|t ts IH]; simpl; [exact I|].
  unfold_methods.
  bk_split; try apply IH; unfold records_emission; simpl; emission_leaf.
Qed.

Lemma emission_streaming prev cur del st :
  records_emission st (snd (extract_tool_calls_streaming prev cur del st))
                   (fst (extract_tool_calls_streaming prev cur del st)).
Proof.
  unfold extract_tool_calls_streaming, _streaming_extract_roo_xml.
  repeat match goal with
         | |- context [if ?c then _ else _] => destruct c
         | |- context [match ?x with _ => _ end] => destruct x
         end;
    first [ apply emission_think_json | apply emission_direct_json
          | apply emission_roo_loop | apply emission_hermes
          | apply emission_tools_format | exact I ].
Qed.

(** X3. A streamed call is recorded as it is sent: when the streaming
    method returns a message with a call, that call is the only one in the
    message, the guard held before, the counter went up by one and is the
    index of the call, its type is [function], the arguments string sent
    is the one appended to [streamed_args_for_tool], and the entry appended
    to [prev_tool_call_arr] carries the name sent. *)
Theorem emission_is_recorded (prev cur del : pystr) (st st' : ParserState)
  (m : DeltaMessage) (d : DeltaToolCall) (rest : list DeltaToolCall) :
  extract_tool_calls_streaming prev cur del st = (Ok (Some m), st') ->
  delta_tool_calls m = d :: rest ->
  rest = []
  /\ may_emit st = true
  /\ index d = current_tool_id st'
  /\ current_tool_id st' = (current_tool_id st + 1)%Z
  /\ delta_type d = str "function"
  /\ streamed_args_for_tool st' =
       streamed_args_for_tool st ++ [delta_arguments (delta_function d)]
  /\ exists a,
       prev_tool_call_arr st' =
         prev_tool_call_arr st
         ++ [tool_call_dict (name_value (delta_name (delta_function d))) a].
Proof.
  intros E Hd. pose proof (emission_streaming prev cur del st) as H.
  rewrite E in H. cbn [fst snd records_emission] in H. rewrite Hd in H.
  exact H.
Qed.

End EmissionFacts.

Section ShapeFacts.
Context {R : Runtime}.

Lemma shape_direct_json cur del st :
  call_only (fst (_streaming_extract_direct_json cur del st)).
Proof.
  unfold _streaming_extract_direct_json; unfold_methods.
  bk_split; unfold call_only; shape_leaf.
Qed.

Lemma shape_think_json cur del st :
  call_with_content (fst (_streaming_extract_think_json cur del st)).
Proof.
  unfold _streaming_extract_think_json; unfold_methods.
  bk_split; unfold call_with_content; shape_leaf.
Qed.

Lemma shape_tools_format cur del st :
  call_only (fst (_streaming_extract_tools_format cur del st)).
Proof.
  unfold _streaming_extract_tools_format; unfold_methods.
  bk_split; unfold call_only; shape_leaf.
Qed.

Lemma shape_hermes prev cur del st :
  call_only (fst (_streaming_extract_hermes prev cur del st)).
Proof.
  unfold _streaming_extract_hermes, tool_call_delta_buffer; unfold_methods.
  bk_split; unfold call_only; shape_leaf.
Qed.

Lemma shape_roo_loop tools cur st :
  call_only (fst (streaming_roo_xml_loop tools cur st)).
Proof.
  revert st; induction tools as [|t ts IH]; intros st; simpl; [exact I|].
  unfold_methods.
  bk_split; try apply IH; unfold call_only; shape_leaf.
Qed.

Lemma call_only_shape r m :
  call_only r -> r = Ok (Some m) ->
  delta_content m = None /\ length (delta_tool_calls m) = 1.
Proof. intros H ->; exact H. Qed.

Lemma streaming_message_cases prev cur del st st' m :
  extract_tool_calls_streaming prev cur del st = (Ok (Some m), st') ->
  (delta_content m = Some del /\ delta_tool_calls m = [] /\ st' = st
   /\ passes_through cur)
  \/ (delta_content m = None /\ length (delta_tool_calls m) = 1)
  \/ ((exists c, delta_content m = Some c)
      /\ length (delta_tool_calls m) = 1
      /\ startswith (strip cur) (str "<think>") = true).
Proof.
  unfold extract_tool_calls_streaming, _streaming_extract_roo_xml,
    passes_through.
  destruct (startswith (strip cur) (str "<think>")) eqn:Ethink.
  - intros H. right; right.
    assert (S : call_with_content (Ok (Some m))).
    { repeat match type of H with
             | context [if ?c then _ else _] => destruct c
             | context [match ?x with _ => _ end] => destruct x
             end; try discriminate.
      pose proof (shape_think_json cur del st) as S.
      rewrite H in S. exact S. }
    destruct S as [S1 S2]. repeat split; assumption.
  - destruct (startswith (strip cur) (str "{")) eqn:Ebrace.
    + intros H. right; left.
      apply (call_only_shape (Ok (Some m)) m); [|reflexivity].
      repeat match type of H with
             | context [if ?c then _ else _] => destruct c
             end; try discriminate.
      pose proof (shape_direct_json cur del st) as S.
      rewrite H in S. exact S.
    + destruct (str_in (str "<") cur) eqn:Elt.
      * cbv zeta.
        destruct (_has_roo_xml_format cur) eqn:Eroo.
        { intros H. right; left.
          pose proof (shape_roo_loop ROO_TOOLS cur st) as S.
          rewrite H in S. exact S. }
        destruct (_has_hermes_format cur && str_in (str "</tool_call>") cur).
        { intros H. right; left.
          pose proof (shape_hermes prev cur del st) as S.
          rewrite H in S. exact S. }
        destruct (_has_tools_tag_format cur && str_in (str "</tools>") cur).
        { intros H. right; left.
          pose proof (shape_tools_format cur del st) as S.
          rewrite H in S. exact S. }
        destruct (fst (_is_accumulating_xml_tag cur)) eqn:Eacc;
          [discriminate|].
        destruct (search_tag_initial cur) eqn:Esearch; [discriminate|].
        intros H; injection H as <- <-. left. simpl. intuition.
      * cbv zeta. intros H; injection H as <- <-. left. simpl. intuition.
Qed.

(** X4. The three shapes of a streamed message: the delta itself as
    content with no call and the state untouched, which happens only on a
    text that starts neither with [<think>] nor with a brace and holds no
    [<] (or no Roo tag, no tag being accumulated and no [<] followed by a
    letter); or exactly one call and no content; or exactly one call with
    content, only on a text that starts with [<think>]. *)
Theorem message_shapes (prev cur del : pystr) (st st' : ParserState)
  (m : DeltaMessage) :
  extract_tool_calls_streaming prev cur del st = (Ok (Some m), st') ->
  (delta_content m = Some del /\ delta_tool_calls m = [] /\ st' = st
   /\ passes_through cur)
  \/ (delta_content m = None /\ length (delta_tool_calls m) = 1)
  \/ ((exists c, delta_content m = Some c)
      /\ length (delta_tool_calls m) = 1
      /\ startswith (strip cur) (str "<think>") = true).
Proof. apply streaming_message_cases. Qed.

End ShapeFacts.

(* ------------------------------------------------------------------ *)
(** * Suppression is permanent *)

Section SuppressionFacts.
Context {R : Runtime}.



Lemma brace_start_app (s t : pystr) :
  startswith (strip s) (str "{") = true ->
  startswith (strip (s ++ t)) (str "{") = true.
Proof.
  intros H. apply startswith_inv in H as [b E]. simpl in E.
  destruct (proj1 (strip_head s 123%N) (ex_intro _ b E)) as [r Hr].
  assert (Hl : lstrip (s ++ t) = 123%N :: r ++ t)
    by (apply lstrip_by_app; exact Hr).
  destruct (proj2 (strip_head (s ++ t) 123%N) (ex_intro _ _ Hl)) as [r' Hr'].
  rewrite Hr'. reflexivity.
Qed.

Lemma brace_start_not_think (s : pystr) :
  startswith s (str "{") = true -> startswith s (str "<think>") = false.
Proof.
  intros H. apply startswith_inv in H as [b ->]. reflexivity.
Qed.



Lemma step_after_brace (prev cur del : pystr) (st : ParserState) :
  startswith (strip cur) (str "{") = true ->
  emitted_content (fst (extract_tool_calls_streaming prev cur del st)) = [].
Proof.
  intros Hb.
  destruct (extract_tool_calls_streaming prev cur del st) as [r st'] eqn:E.
  simpl. destruct r as [[m|]|e]; try reflexivity.
  destruct (streaming_message_cases prev cur del st st' m E)
    as [(_ & _ & _ & _ & Hbrace & _) | [(Hc & _) | (_ & _ & Hthink)]].
  - congruence.
  - simpl. rewrite Hc. reflexivity.
  - rewrite (brace_start_not_think _ Hb) in Hthink. discriminate.
Qed.

(** X6. A stream that opens with a brace never surfaces content: if the
    stripped text so far starts with [{], then over any further deltas the
    streaming method returns no content at all. *)
Theorem no_narration_after_brace (prev : pystr) (deltas : list pystr)
  (st : ParserState) :
  startswith (strip prev) (str "{") = true ->
  total_content (fst (feed prev deltas st)) = [].
Proof.
  revert prev st; induction deltas as [|d ds IH]; intros prev st H; simpl;
    [reflexivity|].
  pose proof (step_after_brace prev (prev ++ d) d st
                (brace_start_app prev d H)) as Hstep.
  destruct (extract_tool_calls_streaming prev (prev ++ d) d st) as [r st1].
  specialize (IH (prev ++ d) st1 (brace_start_app prev d H)).
  destruct (feed (prev ++ d) ds st1) as [rs st2]. simpl in *.
  unfold total_content in *. simpl. rewrite Hstep, IH. reflexivity.
Qed.

End SuppressionFacts.

(* ------------------------------------------------------------------ *)
(** * The sentinel buffer *)

Section BufferFacts.

Lemma last_item_nonempty (l : list pystr) :
  l <> [] -> exists x, last_item l = Ok x.
Proof.
  intros H. unfold last_item. destruct (rev l) as [|x r] eqn:E.
  - exfalso; apply H. rewrite <- (rev_involutive l), E. reflexivity.
  - exists x; reflexivity.
Qed.

Lemma buffer_step (d : pystr) (st : ParserState) :
  tool_call_start_token_array st <> [] ->
  tool_call_end_token_array st <> [] ->
  exists out st',
    tool_call_delta_buffer d st = (Ok out, st')
    /\ out ++ buffered_delta_text st' = buffered_delta_text st ++ d
    /\ tool_call_start_token_array st' = tool_call_start_token_array st
    /\ tool_call_end_token_array st' = tool_call_end_token_array st
    /\ (out = []
        -> list_in d (tool_call_start_token_array st)
           || list_in d (tool_call_end_token_array st) = true
           \/ d = []).
Proof.
  intros Hs He.
  destruct (last_item_nonempty _ Hs) as [ls Hls].
  destruct (last_item_nonempty _ He) as [le Hle].
  unfold tool_call_delta_buffer, mbind, get, lift, ret, modify.
  rewrite Hls, Hle.
  destruct (list_in d (tool_call_start_token_array st)
            || list_in d (tool_call_end_token_array st)) eqn:Ein.
  - destruct (eqb d ls) eqn:E1; simpl.
    + eexists; eexists; split; [reflexivity|]. simpl.
      rewrite app_nil_r. repeat split; auto.
    + destruct (eqb d le) eqn:E2; simpl.
      * eexists; eexists; split; [reflexivity|]. simpl.
        rewrite app_nil_r. repeat split; auto.
      * eexists; eexists; split; [reflexivity|]. simpl.
        repeat split; auto.
  - destruct (nonempty (buffered_delta_text st)) eqn:En; simpl.
    + eexists; eexists; split; [reflexivity|]. simpl.
      rewrite app_nil_r. repeat split; auto.
      intros H. apply app_eq_nil in H as [H _]. rewrite H in En. discriminate.
    + eexists; eexists; split; [reflexivity|].
      destruct (buffered_delta_text st); [|discriminate]. simpl.
      rewrite app_nil_r. repeat split; auto.
Qed.

(** X7. The sentinel buffer loses no text: with both token arrays
    non-empty, [tool_call_delta_buffer] never raises, and over any sequence
    of deltas the texts it hands on, followed by what is still buffered,
    are the text buffered at the start followed by all the deltas. *)
Theorem buffer_conserves_text (deltas : list pystr) (st : ParserState) :
  tool_call_start_token_array st <> [] ->
  tool_call_end_token_array st <> [] ->
  forallb is_ok (fst (buffer_deltas deltas st)) = true
  /\ flat_map released (fst (buffer_deltas deltas st))
     ++ buffered_delta_text (snd (buffer_deltas deltas st))
     = buffered_delta_text st ++ concat deltas.
Proof.
  revert st; induction deltas as [|d ds IH]; intros st Hs He; simpl.
  - rewrite app_nil_r. split; reflexivity.
  - destruct (buffer_step d st Hs He) as (out & st' & E & Hc & Hs' & He' & _).
    rewrite E.
    destruct (IH st') as [H1 H2]; [congruence|congruence|].
    destruct (buffer_deltas ds st') as [rs st'']. simpl in *.
    split; [exact H1|].
    rewrite <- app_assoc, H2, app_assoc, Hc, <- app_assoc. reflexivity.
Qed.

End BufferFacts.

(* ------------------------------------------------------------------ *)
(** * The partial-tag recognizer *)

Section RecognizerFacts.
Context {R : Runtime}.

Lemma rfind_nat_Some (s p : pystr) (i : nat) :
  rfind_nat s p = Some i -> exists a b, s = a ++ p ++ b.
Proof.
  revert i; induction s as [|c s IH]; intros i; simpl.
  - destruct p; simpl; [|discriminate]. intros _. exists [], []; reflexivity.
  - destruct (rfind_nat s p) as [j|] eqn:E.
    + intros _. destruct (IH j eq_refl) as (a & b & ->).
      exists (c :: a), b; reflexivity.
    + destruct (startswith (c :: s) p) eqn:Hs; [|discriminate].
      intros _. apply startswith_inv in Hs as [b Hb].
      exists [], b; exact Hb.
Qed.

Lemma rfind_absent (s p : pystr) :
  str_in p s = false -> rfind s p = (-1)%Z.
Proof.
  intros H. unfold rfind. destruct (rfind_nat s p) as [i|] eqn:E;
    [|reflexivity].
  destruct (rfind_nat_Some s p i E) as (a & b & Hs).
  assert (str_in p s = true) by (apply str_in_iff; eauto). congruence.
Qed.

Lemma rstrip_In (s : pystr) (c : char) : In c (rstrip s) -> In c s.
Proof.
  intros H. destruct (rstrip_by_prefix isspace s) as (b & Hb).
  rewrite Hb. apply in_or_app; left; exact H.
Qed.

Lemma endswith_In (s p : pystr) (c : char) :
  endswith s p = true -> In c p -> In c s.
Proof.
  unfold endswith. intros H Hc. apply in_rev.
  apply (startswith_In _ _ _ H). apply in_rev in Hc. exact Hc.
Qed.

Lemma find_none_absent (text : pystr) (l : list pystr) :
  ~ In 60%N text -> List.find (unclosed_tag text) l = None.
Proof.
  intros H. induction l as [|t l IH]; simpl; [reflexivity|].
  unfold unclosed_tag at 1.
  rewrite (str_in_absent _ text 60%N (start_tag_has_lt t) H). exact IH.
Qed.

(** X8. Without a [<] nothing is being accumulated: on a text that holds
    no [<], the partial-tag recognizer answers [(False, None)]. *)
Theorem no_lt_not_accumulating (text : pystr) :
  str_in (str "<") text = false ->
  _is_accumulating_xml_tag text = (false, None).
Proof.
  intros Hlt. unfold _is_accumulating_xml_tag.
  pose proof (proj1 (str_in_char 60%N text) Hlt) as Hn.
  destruct (endswith (rstrip text) (str "<")) eqn:E.
  - exfalso. apply Hn, rstrip_In. apply (endswith_In _ _ _ E). left; reflexivity.
  - rewrite (rfind_absent text (str "<") Hlt).
    change (0 <=? -1)%Z with false. cbv beta zeta iota.
    rewrite (find_none_absent text ROO_TOOLS Hn).
    rewrite (str_in_absent (str "<tool_call>") text 60%N) by (simpl; auto).
    rewrite (str_in_absent (str "<tools") text 60%N) by (simpl; auto).
    reflexivity.
Qed.

(** X9. The name the partial-tag recognizer reports is always one it
    knows: a Roo tool, [tool_call] or [tools]; and a name is reported only
    together with the answer [True]. *)
Theorem accumulating_name_recognized (text n : pystr) :
  snd (_is_accumulating_xml_tag text) = Some n ->
  fst (_is_accumulating_xml_tag text) = true /\ In n recognized_names.
Proof.
  unfold _is_accumulating_xml_tag.
  destruct (endswith (rstrip text) (str "<")); [discriminate|].
  match goal with
  | |- context [match ?p with Some _ => _ | None => _ end] =>
      destruct p as [t|] eqn:Ep
  end.
  - cbn [fst snd]. intros H; injection H as <-. split; [reflexivity|].
    destruct (0 <=? rfind text (str "<"))%Z; [|discriminate].
    destruct (negb (str_in (str ">") (slice text (Some (rfind text (str "<"))) None)));
      [|discriminate].
    apply find_some in Ep as [Ep _]. exact Ep.
  - destruct (List.find (unclosed_tag text) ROO_TOOLS) as [t|] eqn:Ef.
    + cbn [fst snd]. intros H; injection H as <-. split; [reflexivity|].
      apply find_some in Ef as [Ef _]. apply in_or_app; left; exact Ef.
    + destruct (str_in (str "<tool_call>") text
                && negb (str_in (str "</tool_call>") text)).
      * cbn [fst snd]. intros H; injection H as <-. split; [reflexivity|].
        unfold recognized_names. apply in_or_app; right; simpl; auto.
      * destruct (str_in (str "<tools") text
                  && negb (str_in (str "</tools>") text)); cbn [fst snd];
          [|discriminate].
        intros H; injection H as <-. split; [reflexivity|].
        unfold recognized_names. apply in_or_app; right; simpl; auto.
Qed.

(** X10. An opened tag that is not closed is always seen: if the opening
    tag of a recognized name occurs in the text and its closing tag does
    not, the partial-tag recognizer answers [True]. *)
Theorem unclosed_tag_accumulates (text t : pystr) :
  In t recognized_names ->
  str_in (start_tag t) text = true ->
  str_in (end_tag t) text = false ->
  fst (_is_accumulating_xml_tag text) = true.
Proof.
  intros Hin Hs He. unfold _is_accumulating_xml_tag.
  destruct (endswith (rstrip text) (str "<")); [reflexivity|].
  match goal with
  | |- context [match ?p with Some _ => _ | None => _ end] =>
      destruct p as [x|]
  end; [reflexivity|].
  destruct (List.find (unclosed_tag text) ROO_TOOLS) as [x|] eqn:Ef;
    [reflexivity|].
  apply in_app_or in Hin as [Hin|Hin].
  - exfalso. apply (find_none _ _ Ef) in Hin.
    unfold unclosed_tag in Hin. rewrite Hs, He in Hin. discriminate.
  - destruct Hin as [<-|[<-|[]]].
    + change (str "<tool_call>") with (start_tag (str "tool_call")).
      change (str "</tool_call>") with (end_tag (str "tool_call")).
      rewrite Hs, He. reflexivity.
    + change (str "</tool_call>") with (end_tag (str "tool_call")).
      change (str "</tools>") with (end_tag (str "tools")).
      destruct (str_in (str "<tool_call>") text
                && negb (str_in (end_tag (str "tool_call")) text));
        [reflexivity|].
      assert (Hp : str_in (str "<tools") text = true).
      { apply str_in_iff in Hs as (a & b & ->). apply str_in_iff.
        exists a, (str ">" ++ b). unfold start_tag.
        rewrite <- !app_assoc. reflexivity. }
      rewrite Hp, He. reflexivity.
Qed.

End RecognizerFacts.

(* ------------------------------------------------------------------ *)
(** * The sanitizer *)

Section SanitizerFacts.

Lemma subseq_refl (s : pystr) : subseq s s.
Proof. induction s; constructor; assumption. Qed.

Lemma subseq_trans (a b c : pystr) : subseq a b -> subseq b c -> subseq a c.
Proof.
  intros Hab Hbc. revert a Hab.
  induction Hbc as [|x b c Hbc IH|x b c Hbc IH]; intros a Hab.
  - exact Hab.
  - constructor. apply IH; exact Hab.
  - inversion Hab; subst.
    + constructor. apply IH; assumption.
    + apply subseq_keep. apply IH; assumption.
Qed.

Lemma subseq_app_r (a s t : pystr) : subseq s t -> subseq s (a ++ t).
Proof. induction a; simpl; [auto|]. intros H; constructor; auto. Qed.

Lemma subseq_app (a b c d : pystr) :
  subseq a b -> subseq c d -> subseq (a ++ c) (b ++ d).
Proof.
  intros H; induction H; simpl; intros Hc.
  - exact Hc.
  - apply subseq_drop; auto.
  - apply subseq_keep; auto.
Qed.

Lemma subseq_rev (s t : pystr) : subseq s t -> subseq (rev s) (rev t).
Proof.
  intros H; induction H; simpl.
  - constructor.
  - rewrite <- (app_nil_r (rev s)). apply subseq_app; [assumption|].
    constructor; constructor.
  - apply subseq_app; [assumption|apply subseq_refl].
Qed.

Lemma subseq_In (s t : pystr) (c : char) : subseq s t -> In c s -> In c t.
Proof.
  intros H; induction H; simpl; intros Hin; auto.
  destruct Hin as [->|Hin]; auto.
Qed.

Lemma replace_go_subseq (old : pystr) (skip : nat) (s : pystr) :
  subseq (replace_go old [] skip s) s.
Proof.
  revert skip; induction s as [|c s IH]; intros skip; simpl.
  - constructor.
  - destruct skip as [|k].
    + destruct (startswith (c :: s) old); simpl.
      * constructor; apply IH.
      * apply subseq_keep; apply IH.
    + constructor; apply IH.
Qed.

Lemma remove_pattern_subseq (s p : pystr) : subseq (remove_pattern s p) s.
Proof.
  unfold remove_pattern. destruct (str_in p s); [|apply subseq_refl].
  unfold replace. destruct p as [|x p].
  - simpl. induction s as [|c s IH]; simpl; constructor; exact IH.
  - apply replace_go_subseq.
Qed.

Lemma fold_remove_subseq (ps : list pystr) (s : pystr) :
  subseq (fold_left remove_pattern ps s) s.
Proof.
  revert s; induction ps as [|p ps IH]; intros s; simpl;
    [apply subseq_refl|].
  eapply subseq_trans; [apply IH|apply remove_pattern_subseq].
Qed.

Lemma lstrip_by_subseq (f : char -> bool) (s : pystr) :
  subseq (lstrip_by f s) s.
Proof.
  induction s as [|c s IH]; simpl; [constructor|].
  destruct (f c); [constructor; exact IH|apply subseq_refl].
Qed.

Lemma strip_subseq (s : pystr) : subseq (strip s) s.
Proof.
  unfold strip, rstrip, rstrip_by, lstrip.
  eapply subseq_trans; [|apply lstrip_by_subseq].
  rewrite <- (rev_involutive (lstrip_by isspace s)) at 2.
  apply subseq_rev, lstrip_by_subseq.
Qed.

Lemma lstrip_by_idem (f : char -> bool) (s : pystr) :
  lstrip_by f (lstrip_by f s) = lstrip_by f s.
Proof.
  destruct (lstrip_by f s) as [|c r] eqn:E; [reflexivity|].
  apply lstrip_by_fixed. eapply lstrip_by_head; exact E.
Qed.

Lemma strip_idem (s : pystr) : strip (strip s) = strip s.
Proof.
  unfold strip, rstrip, rstrip_by, lstrip.
  destruct (lstrip_by isspace s) as [|c L] eqn:EL; [reflexivity|].
  assert (Hc : isspace c = false) by (eapply lstrip_by_head; exact EL).
  set (Y := lstrip_by isspace (rev (c :: L))).
  assert (HY : exists y, Y = y ++ [c])
    by (subst Y; simpl rev; apply lstrip_by_last; exact Hc).
  destruct HY as (y & Ey).
  assert (H1 : lstrip_by isspace (rev Y) = rev Y).
  { rewrite Ey, rev_app_distr. simpl. rewrite Hc. reflexivity. }
  rewrite H1, rev_involutive. subst Y. rewrite lstrip_by_idem. reflexivity.
Qed.

Lemma clean_unfold (content tool_name : pystr) :
  clean_content_from_xml_tags content tool_name =
    if negb (nonempty content) then None
    else
      let cleaned :=
        strip
          (fold_left remove_pattern hermes_patterns
             (fold_left
                (fun acc roo_tool =>
                   fold_left remove_pattern (tag_patterns roo_tool) acc)
                ROO_TOOLS
                (fold_left remove_pattern (tag_patterns tool_name) content))) in
      if nonempty cleaned then Some cleaned else None.
Proof. reflexivity. Qed.

Lemma fold_tools_subseq (tools : list pystr) (s : pystr) :
  subseq
    (fold_left
       (fun acc roo_tool => fold_left remove_pattern (tag_patterns roo_tool) acc)
       tools s) s.
Proof.
  revert s; induction tools as [|t ts IH]; intros s; cbn [fold_left];
    [apply subseq_refl|].
  eapply subseq_trans; [apply IH|].
  apply (fold_remove_subseq (tag_patterns t) s).
Qed.

Lemma clean_subseq_trimmed (content tool_name c : pystr) :
  clean_content_from_xml_tags content tool_name = Some c ->
  subseq c content /\ c <> [] /\ trimmed c.
Proof.
  rewrite clean_unfold.
  destruct (negb (nonempty content)); [discriminate|]. cbv zeta.
  match goal with
  | |- context [strip ?x] => set (y := x)
  end.
  destruct (nonempty (strip y)) eqn:En; [|discriminate].
  intros H; injection H as <-. split; [|split].
  - eapply subseq_trans; [apply strip_subseq|]. subst y.
    eapply subseq_trans; [apply fold_remove_subseq|].
    eapply subseq_trans; [apply fold_tools_subseq|].
    apply fold_remove_subseq.
  - intros E. rewrite E in En. discriminate.
  - apply strip_idem.
Qed.

(** X11. The sanitizer only deletes: a text it returns is the content
    with some characters removed, the rest in their order; it is never
    empty and has no whitespace at either end. *)
Theorem sanitizer_only_deletes (content tool_name c : pystr) :
  clean_content_from_xml_tags content tool_name = Some c ->
  subseq c content /\ c <> [] /\ trimmed c.
Proof. apply clean_subseq_trimmed. Qed.

End SanitizerFacts.

Section TrimFacts.

Lemma remove_pattern_absent (s p : pystr) :
  ~ In 60%N s -> In 60%N p -> remove_pattern s p = s.
Proof.
  intros Hs Hp. unfold remove_pattern.
  rewrite (str_in_absent p s 60%N Hp Hs). reflexivity.
Qed.

Lemma fold_remove_absent (ps : list pystr) (s : pystr) :
  ~ In 60%N s -> Forall (In 60%N) ps -> fold_left remove_pattern ps s = s.
Proof.
  intros Hs Hps. induction Hps as [|p ps Hp _ IH]; simpl; [reflexivity|].
  rewrite (remove_pattern_absent s p Hs Hp). exact IH.
Qed.

Lemma tag_patterns_lt (t : pystr) : Forall (In 60%N) (tag_patterns t).
Proof. unfold tag_patterns. repeat constructor; simpl; auto. Qed.

Lemma hermes_patterns_lt : Forall (In 60%N) hermes_patterns.
Proof. unfold hermes_patterns. repeat constructor; simpl; auto. Qed.

Lemma fold_tools_absent (tools : list pystr) (s : pystr) :
  ~ In 60%N s ->
  fold_left
    (fun acc roo_tool => fold_left remove_pattern (tag_patterns roo_tool) acc)
    tools s = s.
Proof.
  intros Hs. induction tools as [|t ts IH]; cbn [fold_left]; [reflexivity|].
  rewrite (fold_remove_absent (tag_patterns t) s Hs (tag_patterns_lt t)).
  exact IH.
Qed.

(** X12. On a content without [<] the sanitizer is [strip]: it returns
    the stripped content, or [None] when nothing is left; and applied
    again to its own result it returns that result. *)
Theorem sanitizer_trims_plain_text (content tool_name : pystr) :
  str_in (str "<") content = false ->
  clean_content_from_xml_tags content tool_name =
    (if nonempty (strip content) then Some (strip content) else None)
  /\ (forall c,
        clean_content_from_xml_tags content tool_name = Some c ->
        clean_content_from_xml_tags c tool_name = Some c).
Proof.
  intros Hlt. apply str_in_char in Hlt.
  assert (E : forall s, ~ In 60%N s ->
                clean_content_from_xml_tags s tool_name =
                  (if nonempty (strip s) then Some (strip s) else None)).
  { intros s Hs. rewrite clean_unfold.
    rewrite (fold_remove_absent (tag_patterns tool_name) s Hs
               (tag_patterns_lt tool_name)).
    rewrite (fold_tools_absent ROO_TOOLS s Hs).
    rewrite (fold_remove_absent hermes_patterns s Hs hermes_patterns_lt).
    destruct s; reflexivity. }
  split; [apply E; exact Hlt|].
  intros c. rewrite (E content Hlt).
  destruct (nonempty (strip content)) eqn:En; [|discriminate].
  intros H; injection H as <-.
  rewrite E, strip_idem, En; [reflexivity|].
  intros Hin; apply Hlt, strip_In; exact Hin.
Qed.

End TrimFacts.

(* ------------------------------------------------------------------ *)
(** * The Roo XML extractor *)

Section RooFacts.
Context {R : Runtime}.

Lemma roo_loop_choice (tools : list pystr) (text : pystr)
  (tcs : list ToolCall) (c : option pystr) :
  roo_xml_loop tools text = Ok (tcs, c) ->
  (tcs = [] /\ c = None
   /\ forall x, In x tools -> str_in (start_tag x) text = false)
  \/ exists pre t post a,
       tools = pre ++ t :: post
       /\ (forall x, In x pre -> str_in (start_tag x) text = false)
       /\ str_in (start_tag t) text = true
       /\ roo_params (param_findall (roo_xml_content text t)) [] = Ok a
       /\ tcs = [ {| type := str "function";
                     function := {| name := t;
                                    arguments := json_dumps (JDict a) |} |} ]
       /\ c = clean_content_from_xml_tags
                (text_before text (find text (start_tag t))) t.
Proof.
  induction tools as [|t ts IH]; cbn [roo_xml_loop].
  - intros H; injection H as <- <-. left. repeat split. intros x [].
  - destruct (str_in (start_tag t) text) eqn:E; cbn [negb].
    + unfold bind.
      destruct (roo_params (param_findall (roo_xml_content text t)) [])
        as [a|e] eqn:Ep; [|discriminate].
      simpl. intros H; injection H as <- <-. right.
      exists [], t, ts, a. repeat split; auto. intros x [].
    + intros H. destruct (IH H) as [(-> & -> & Hall)
                                   | (pre & t' & post & a & -> & Hpre & Hrest)].
      * left. repeat split. intros x [<-|Hx]; auto.
      * right. exists (t :: pre), t', post, a. split; [reflexivity|].
        split; [|exact Hrest]. intros x [<-|Hx]; auto.
Qed.

(** X13. The Roo XML extractor finds at most one call, by list order:
    when it reports calls, there is exactly one, it is named by the first
    name of [ROO_TOOLS] whose opening tag occurs in the text (wherever the
    tags stand in the text), and the content is the sanitized text before
    the first occurrence of that tag. *)
Theorem roo_extractor_first_listed (text : pystr)
  (r : ExtractedToolCallInformation) :
  _extract_roo_xml_tool_calls text = Ok r ->
  tools_called r = true ->
  exists pre t post args,
    ROO_TOOLS = pre ++ t :: post
    /\ (forall x, In x pre -> str_in (start_tag x) text = false)
    /\ str_in (start_tag t) text = true
    /\ tool_calls r =
         [ {| type := str "function";
              function := {| name := t; arguments := args |} |} ]
    /\ content r = clean_content_from_xml_tags
                     (text_before text (find text (start_tag t))) t.
Proof.
  unfold _extract_roo_xml_tool_calls, roo_xml_try, try_except, bind.
  destruct (roo_xml_loop ROO_TOOLS text) as [[tcs c]|e] eqn:E.
  - destruct (roo_loop_choice ROO_TOOLS text tcs c E)
      as [(-> & -> & _) | (pre & t & post & a & Ht & Hpre & Hin & _ & -> & ->)].
    + simpl. intros H; injection H as <-. discriminate.
    + simpl. intros H; injection H as <-. intros _.
      exists pre, t, post, (json_dumps (JDict a)). repeat split; auto.
  - intros H; injection H as <-. discriminate.
Qed.




End RooFacts.

(* ------------------------------------------------------------------ *)
(** * The Hermes extractor *)

Section HermesFacts.
Context {R : Runtime}.

Lemma hermes_parse_keeps (ms : list (pystr * pystr)) (acc raw : list pyval)
  (x : pyval) :
  hermes_parse_matches ms acc = Ok raw -> In x acc -> In x raw.
Proof.
  revert acc; induction ms as [|m ms IH]; intros acc; cbn [hermes_parse_matches].
  - intros H; injection H as <-; auto.
  - unfold bind, try_except_json.
    destruct (json_loads (match_json_str m)) as [v|e].
    + destruct (get_method v (str "name") (JStr (str "UNKNOWN"))) as [n|e].
      * intros H Hin. apply (IH _ H). apply in_or_app; left; exact Hin.
      * destruct e; try discriminate.
        intros H Hin. apply (IH _ H). exact Hin.
    + destruct e; try discriminate. intros H Hin. apply (IH _ H). exact Hin.
Qed.

Lemma hermes_parse_has (ms : list (pystr * pystr)) (acc raw : list pyval)
  (m : pystr * pystr) (v : pyval) :
  hermes_parse_matches ms acc = Ok raw ->
  In m ms -> json_loads (match_json_str m) = Ok v -> In v raw.
Proof.
  revert acc; induction ms as [|m0 ms IH]; intros acc H Hin Hv; [destruct Hin|].
  cbn [hermes_parse_matches] in H. unfold bind, try_except_json in H.
  destruct Hin as [->|Hin].
  - rewrite Hv in H.
    destruct (get_method v (str "name") (JStr (str "UNKNOWN"))) as [n|e] eqn:Eg.
    + apply (hermes_parse_keeps _ _ _ _ H). apply in_or_app; right.
      left; reflexivity.
    + exfalso. apply get_method_exn in Eg. subst e. discriminate.
  - destruct (json_loads (match_json_str m0)) as [v0|e].
    + destruct (get_method v0 (str "name") (JStr (str "UNKNOWN"))) as [n|e].
      * apply (IH _ H Hin Hv).
      * destruct e; try discriminate. apply (IH _ H Hin Hv).
    + destruct e; try discriminate. apply (IH _ H Hin Hv).
Qed.

Lemma hermes_build_needs_keys (raw : list pyval) (v : pyval) (e : exn) :
  In v raw ->
  getitem v (str "name") = Raise e \/ getitem v (str "arguments") = Raise e ->
  exists e', hermes_build_calls raw = Raise e'.
Proof.
  induction raw as [|x raw IH]; intros Hin Hg; [destruct Hin|].
  cbn [hermes_build_calls]. unfold bind.
  destruct Hin as [->|Hin].
  - destruct Hg as [Hg|Hg].
    + rewrite Hg. eauto.
    + destruct (getitem v (str "name")); [|eauto]. rewrite Hg. eauto.
  - destruct (getitem x (str "name")); [|eauto].
    destruct (getitem x (str "arguments")); [|eauto].
    destruct (new_ToolCall a (json_dumps a0)); [|eauto].
    destruct (IH Hin Hg) as [e' ->]. eauto.
Qed.

(** X15. One malformed call spoils them all: if any [<tool_call>]
    envelope of the text decodes to a value from which [name] or
    [arguments] cannot be read, the Hermes extractor returns the fallback
    (no call, the whole text as content) whatever the other envelopes
    hold. *)
Theorem hermes_missing_key_aborts (text : pystr) (m : pystr * pystr)
  (v : pyval) (e : exn) :
  In m (findall_envelope tool_call_start_token tool_call_end_token 0 text) ->
  json_loads (match_json_str m) = Ok v ->
  getitem v (str "name") = Raise e \/ getitem v (str "arguments") = Raise e ->
  _extract_hermes_tool_calls text = Ok (fallback text).
Proof.
  intros Hin Hv Hg. unfold _extract_hermes_tool_calls, hermes_try.
  cbv zeta. unfold bind at 1.
  destruct (hermes_parse_matches _ []) as [raw|e0] eqn:Ep; [|reflexivity].
  pose proof (hermes_parse_has _ _ _ _ _ Ep Hin Hv) as Hraw.
  destruct (hermes_build_needs_keys raw v e Hraw Hg) as [e' Hb].
  unfold bind. rewrite Hb. reflexivity.
Qed.

End HermesFacts.

(* ------------------------------------------------------------------ *)
(** * The shape of a batch result *)

Section ResultFacts.
Context {R : Runtime}.

Lemma subseq_empty (s : pystr) : subseq [] s.
Proof. induction s; constructor; assumption. Qed.

Lemma firstn_subseq (n : nat) (s : pystr) : subseq (firstn n s) s.
Proof.
  revert n; induction s as [|c s IH]; intros [|n]; simpl.
  - constructor.
  - constructor.
  - apply subseq_empty.
  - apply subseq_keep, IH.
Qed.

Lemma text_before_subseq (s : pystr) (i : Z) : subseq (text_before s i) s.
Proof.
  unfold text_before. destruct (0 <? i)%Z.
  - unfold slice. cbv zeta. rewrite Z.sub_0_r. simpl skipn.
    apply firstn_subseq.
  - apply subseq_empty.
Qed.

Lemma clean_cleaned_from (text : pystr) (i : Z) (t : pystr) :
  cleaned_from text (clean_content_from_xml_tags (text_before text i) t).
Proof.
  unfold cleaned_from.
  destruct (clean_content_from_xml_tags (text_before text i) t) as [c|] eqn:E;
    [|exact I].
  destruct (clean_subseq_trimmed _ _ _ E) as (Hs & Hn & Ht).
  repeat split; auto.
  eapply subseq_trans; [exact Hs|apply text_before_subseq].
Qed.

Lemma match_think_prefix (s g rest : pystr) :
  match_think s = Some (g, rest) ->
  exists inner tail,
    g = str "<think>" ++ inner ++ str "</think>" /\ s = g ++ tail.
Proof.
  unfold match_think.
  destruct (startswith s (str "<think>")) eqn:Es; [|discriminate].
  apply startswith_inv in Es. destruct Es as [body ->].
  change (skipn 7 (str "<think>" ++ body)) with body.
  destruct (find_nat body (str "</think>")) as [q|] eqn:Eq; [|discriminate].
  intros H; injection H as <- _.
  destruct (find_nat_Some _ _ _ Eq) as (a & b & -> & <-).
  rewrite firstn_app, firstn_all, Nat.sub_diag.
  change (firstn 0 (str "</think>" ++ b)) with (@nil char).
  rewrite app_nil_r.
  exists a, b. split; [reflexivity|].
  change (str "<think>" ++ (a ++ (str "</think>" ++ b))
          = str "<think>" ++ ((a ++ str "</think>") ++ b)).
  rewrite <- app_assoc. reflexivity.
Qed.

Lemma think_cleaned_from (s g rest : pystr) :
  match_think s = Some (g, rest) -> cleaned_from s (Some g).
Proof.
  intros H. destruct (match_think_prefix _ _ _ H) as (inner & tail & -> & ->).
  cbn [cleaned_from]. split; [discriminate|]. split.
  - assert (E : str "<think>" ++ inner ++ str "</think>"
                 = 60%N :: (str "think>" ++ inner ++ str "</think") ++ [62%N]).
    { change (str "<think>") with (60%N :: str "think>").
      rewrite <- !app_assoc. reflexivity. }
    unfold trimmed. rewrite E. apply strip_fixed; reflexivity.
  - rewrite <- (app_nil_r (str "<think>" ++ inner ++ str "</think>")) at 1.
    apply subseq_app; [apply subseq_refl|].
    apply subseq_empty.
Qed.

Lemma fallback_shape (text : pystr) : result_shape text (fallback text).
Proof. left. repeat split. Qed.

Lemma shape_hermes_batch (text : pystr) (r : ExtractedToolCallInformation) :
  _extract_hermes_tool_calls text = Ok r -> result_shape text r.
Proof.
  unfold _extract_hermes_tool_calls, hermes_try, try_except, bind. cbv zeta.
  destruct (hermes_parse_matches _ _) as [raw|e];
    [|intros H; injection H as <-; apply fallback_shape].
  destruct (hermes_build_calls raw) as [tcs|e];
    intros H; injection H as <-; [|apply fallback_shape].
  right. split; [reflexivity|]. apply clean_cleaned_from.
Qed.

Lemma shape_tools_batch (text : pystr) (r : ExtractedToolCallInformation) :
  _extract_tools_tag_format text = Ok r -> result_shape text r.
Proof.
  unfold _extract_tools_tag_format, tools_tag_try, try_except, bind. cbv zeta.
  destruct (findall_envelope _ _ _ _) as [|m ms];
    [intros H; injection H as <-; apply fallback_shape|].
  destruct (tools_tag_loop _ _) as [[|tc tcs]|e];
    intros H; injection H as <-; try apply fallback_shape.
  right. split; [reflexivity|]. apply clean_cleaned_from.
Qed.

Lemma shape_json_batch (text : pystr) (r : ExtractedToolCallInformation) :
  _extract_direct_json text = Ok r -> result_shape text r.
Proof.
  unfold _extract_direct_json, direct_json_try, try_except.
  destruct (match_think text) as [[g rest]|] eqn:Em.
  - unfold bind.
    repeat case_scrutinee;
      intros H; injection H as <-; try apply fallback_shape.
    right. split; [reflexivity|]. eapply think_cleaned_from; exact Em.
  - unfold bind.
    repeat case_scrutinee;
      intros H; injection H as <-; try apply fallback_shape.
    right. split; [reflexivity|]. exact I.
Qed.

Lemma shape_roo_batch (text : pystr) (r : ExtractedToolCallInformation) :
  _extract_roo_xml_tool_calls text = Ok r -> result_shape text r.
Proof.
  unfold _extract_roo_xml_tool_calls, roo_xml_try, try_except, bind.
  destruct (roo_xml_loop ROO_TOOLS text) as [[tcs c]|e] eqn:E;
    [|intros H; injection H as <-; apply fallback_shape].
  destruct tcs as [|tc tcs]; cbn [fst snd];
    intros H; injection H as <-; [apply fallback_shape|].
  right. split; [reflexivity|]. cbn [content make_extraction_result].
  clear -E. revert E. generalize ROO_TOOLS as tools.
  induction tools as [|t ts IH]; cbn [roo_xml_loop]; [discriminate|].
  destruct (negb (str_in (start_tag t) text)); [exact IH|].
  unfold bind. destruct (roo_params _ _); [|discriminate].
  simpl. intros H; injection H as _ _ <-. apply clean_cleaned_from.
Qed.

(** X16. What the batch entry point can return: either the fallback
    (no call, and the whole text as content), or [tools_called] true with
    a content that is [None] or a non-empty text without surrounding
    whitespace whose characters come, in order, from the model output.  An
    empty or padded content never accompanies calls. *)
Theorem batch_result_shape (text : pystr)
  (r : ExtractedToolCallInformation) :
  extract_tool_calls text = Ok r ->
  (tools_called r = false /\ tool_calls r = [] /\ content r = Some text)
  \/ (tools_called r = true /\ cleaned_from text (content r)).
Proof.
  unfold extract_tool_calls. cbv zeta.
  destruct (_has_hermes_format text); [apply shape_hermes_batch|].
  destruct (_has_tools_tag_format text); [apply shape_tools_batch|].
  destruct (_has_direct_json_format text); [apply shape_json_batch|].
  destruct (_has_roo_xml_format text); [apply shape_roo_batch|].
  intros H; injection H as <-. left. repeat split.
Qed.

End ResultFacts.

(* ------------------------------------------------------------------ *)
(** * Calls and the JSON they come from *)

Section EnvelopeFacts.
Context {R : Runtime}.

Lemma hermes_parse_decoded (ms : list (pystr * pystr)) (acc raw : list pyval) :
  hermes_parse_matches ms acc = Ok raw ->
  exists vs,
    raw = acc ++ vs
    /\ Forall2 (fun s v => json_loads s = Ok v)
               (filter decodes (map match_json_str ms)) vs.
Proof.
  revert acc; induction ms as [|m ms IH]; intros acc; cbn [hermes_parse_matches].
  - intros H; injection H as <-. exists []. rewrite app_nil_r.
    split; [reflexivity|constructor].
  - unfold bind, try_except_json. cbn [map filter]. unfold decodes at 1.
    destruct (json_loads (match_json_str m)) as [v|e] eqn:Ev; cbn [is_ok].
    + destruct (get_method v (str "name") (JStr (str "UNKNOWN"))) as [n|e] eqn:Eg.
      * intros H. destruct (IH _ H) as (vs & -> & Hvs).
        exists (v :: vs). rewrite <- app_assoc. split; [reflexivity|].
        constructor; assumption.
      * apply get_method_exn in Eg. subst e. discriminate.
    + destruct e; try discriminate. apply IH.
Qed.

Lemma hermes_build_each (raw : list pyval) (tcs : list ToolCall) :
  hermes_build_calls raw = Ok tcs ->
  Forall2 (fun v tc =>
             exists a,
               getitem v (str "name") = Ok (JStr (name (function tc)))
               /\ getitem v (str "arguments") = Ok a
               /\ arguments (function tc) = json_dumps a
               /\ type tc = str "function") raw tcs.
Proof.
  revert tcs; induction raw as [|v raw IH]; intros tcs; cbn [hermes_build_calls].
  - intros H; injection H as <-. constructor.
  - unfold bind.
    destruct (getitem v (str "name")) as [n|e] eqn:En; [|discriminate].
    destruct (getitem v (str "arguments")) as [a|e] eqn:Ea; [|discriminate].
    unfold new_ToolCall, new_FunctionCall, bind.
    destruct n; try discriminate.
    destruct (hermes_build_calls raw) as [tcs'|e]; [|discriminate].
    intros H; injection H as <-. constructor; [|apply IH; reflexivity].
    exists a. cbn [name function arguments type]. auto.
Qed.

Lemma Forall2_chain {A B C : Type} (P : A -> B -> Prop) (Q : B -> C -> Prop)
  (la : list A) (lb : list B) (lc : list C) :
  Forall2 P la lb -> Forall2 Q lb lc ->
  Forall2 (fun a c => exists b, P a b /\ Q b c) la lc.
Proof.
  intros H; revert lc; induction H; intros lc HQ; inversion HQ; subst;
    constructor; eauto.
Qed.

(** X17. The Hermes extractor, when it reports calls, returns one call
    for each envelope whose text [json.loads] accepts, in the order of the
    text: the name of the call is the [name] of the decoded value, its
    arguments string is [json.dumps] of the decoded [arguments].  Envelopes
    that do not decode are passed over, and the content is the sanitized
    text before the first start token. *)
Theorem hermes_one_call_per_decoded_envelope (text : pystr)
  (r : ExtractedToolCallInformation) :
  _extract_hermes_tool_calls text = Ok r ->
  tools_called r = true ->
  Forall2 call_of_json
    (filter decodes
       (map match_json_str
          (findall_envelope tool_call_start_token tool_call_end_token 0 text)))
    (tool_calls r)
  /\ content r = clean_content_from_xml_tags
                   (text_before text (find text tool_call_start_token))
                   (str "tool_call").
Proof.
  unfold _extract_hermes_tool_calls, hermes_try, try_except. cbv zeta.
  unfold bind at 1.
  destruct (hermes_parse_matches _ []) as [raw|e] eqn:Ep;
    [|intros H; injection H as <-; discriminate].
  unfold bind.
  destruct (hermes_build_calls raw) as [tcs|e] eqn:Eb;
    [|intros H; injection H as <-; discriminate].
  intros H; injection H as <-. intros _. split; [|reflexivity].
  cbn [tool_calls make_extraction_result].
  destruct (hermes_parse_decoded _ _ _ Ep) as (vs & -> & Hvs).
  cbn [app] in Eb.
  pose proof (Forall2_chain _ _ _ _ _ Hvs (hermes_build_each _ _ Eb)) as HF.
  eapply Forall2_impl; [|exact HF].
  intros m tc (v & Hv & a & H1 & H2 & H3 & H4). exists v, a. auto.
Qed.

Lemma tools_loop_decoded (ms : list (pystr * pystr)) (acc tcs : list ToolCall) :
  tools_tag_loop ms acc = Ok tcs ->
  exists new,
    tcs = acc ++ new
    /\ Forall2 call_of_json
         (filter decodes (map (fun m => strip (match_json_str m)) ms)) new.
Proof.
  revert acc; induction ms as [|m ms IH]; intros acc; cbn [tools_tag_loop].
  - intros H; injection H as <-. exists []. rewrite app_nil_r.
    split; [reflexivity|constructor].
  - cbv zeta. unfold bind at 1. unfold try_except_json. cbn [map filter].
    unfold decodes at 1. unfold bind at 1.
    destruct (json_loads (strip (match_json_str m))) as [v|e] eqn:Ev;
      cbn [is_ok].
    + unfold bind.
      destruct (getitem v (str "name")) as [n|e] eqn:En.
      * destruct (getitem v (str "arguments")) as [a|e] eqn:Ea.
        -- unfold new_ToolCall, new_FunctionCall, bind.
           destruct n; try discriminate.
           intros H. destruct (IH _ H) as (new & -> & Hnew).
           eexists. rewrite <- app_assoc. split; [reflexivity|].
           constructor; [|exact Hnew].
           exists v, a. cbn [name function arguments type]. auto.
        -- apply getitem_exn in Ea. destruct Ea; subst e; discriminate.
      * apply getitem_exn in En. destruct En; subst e; discriminate.
    + destruct e; try discriminate. apply IH.
Qed.

(** X18. The [<tools>] extractor, when it reports calls, returns at
    least one, and one for each envelope whose stripped text [json.loads]
    accepts, in the order of the text, each built from the [name] and the
    [arguments] of the decoded value; the content is the sanitized text
    before the first [<tools>]. *)
Theorem tools_one_call_per_decoded_envelope (text : pystr)
  (r : ExtractedToolCallInformation) :
  _extract_tools_tag_format text = Ok r ->
  tools_called r = true ->
  tool_calls r <> []
  /\ Forall2 call_of_json
       (filter decodes
          (map (fun m => strip (match_json_str m))
             (findall_envelope (str "<tools>") (str "</tools>") 0 text)))
       (tool_calls r)
  /\ content r = clean_content_from_xml_tags
                   (text_before text (find text (str "<tools>")))
                   (str "tools").
Proof.
  unfold _extract_tools_tag_format, tools_tag_try, try_except. cbv zeta.
  destruct (findall_envelope _ _ 0 text) as [|m ms];
    [intros H; injection H as <-; discriminate|].
  unfold bind.
  destruct (tools_tag_loop (m :: ms) []) as [[|tc tcs]|e] eqn:El;
    intros H; injection H as <-; try discriminate.
  intros _. split; [discriminate|]. split; [|reflexivity].
  destruct (tools_loop_decoded _ _ _ El) as (new & E & Hnew).
  cbn [app] in E. subst new. exact Hnew.
Qed.

Lemma strip_lstrip (s : pystr) : strip (lstrip s) = strip s.
Proof. unfold strip, lstrip. rewrite lstrip_by_idem. reflexivity. Qed.

Lemma match_think_split (s g rest : pystr) :
  match_think s = Some (g, rest) ->
  exists inner tail,
    g = str "<think>" ++ inner ++ str "</think>"
    /\ s = g ++ tail
    /\ rest = lstrip tail.
Proof.
  unfold match_think.
  destruct (startswith s (str "<think>")) eqn:Es; [|discriminate].
  apply startswith_inv in Es. destruct Es as [body ->].
  change (skipn 7 (str "<think>" ++ body)) with body. cbv zeta.
  destruct (find_nat body (str "</think>")) as [q|] eqn:Eq; [|discriminate].
  intros H; injection H as <- <-.
  destruct (find_nat_Some _ _ _ Eq) as (a & b & -> & <-).
  rewrite firstn_app, firstn_all, Nat.sub_diag.
  change (firstn 0 (str "</think>" ++ b)) with (@nil char).
  rewrite app_nil_r.
  exists a, b. split; [reflexivity|]. split.
  - change (str "<think>" ++ (a ++ (str "</think>" ++ b))
            = str "<think>" ++ ((a ++ str "</think>") ++ b)).
    rewrite <- app_assoc. reflexivity.
  - replace (length a + 8) with (length (a ++ str "</think>"))
      by (rewrite length_app; reflexivity).
    rewrite app_assoc, skipn_app, skipn_all, Nat.sub_diag. reflexivity.
Qed.

(** X19. The direct JSON extractor splits the output in two: when it
    reports a call, the output is a block followed by a tail, the block
    being empty or a reasoning block from [<think>] to [</think>]; the
    content is the block, tags included ([None] when empty), and the one
    call is the one the stripped tail describes. *)
Theorem direct_json_splits_output (text : pystr)
  (r : ExtractedToolCallInformation) :
  _extract_direct_json text = Ok r ->
  tools_called r = true ->
  exists block tail tc,
    text = block ++ tail
    /\ (block = []
        \/ exists inner, block = str "<think>" ++ inner ++ str "</think>")
    /\ content r = (if nonempty block then Some block else None)
    /\ tool_calls r = [tc]
    /\ call_of_json (strip tail) tc.
Proof.
  unfold _extract_direct_json, direct_json_try, try_except.
  destruct (match_think text) as [[g rest]|] eqn:Em.
  - destruct (match_think_split _ _ _ Em) as (inner & tail & Hg & Ht & Hr).
    assert (Hrest : strip (strip rest) = strip tail)
      by (rewrite Hr, strip_idem, strip_lstrip; reflexivity).
    unfold bind.
    destruct (json_loads (strip (strip rest))) as [v|e] eqn:Ev;
      [|intros H; injection H as <-; discriminate].
    destruct (contains (str "name") v) as [[|]|e];
      try (intros H; injection H as <-; discriminate).
    destruct (contains (str "arguments") v) as [[|]|e];
      try (intros H; injection H as <-; discriminate).
    destruct (getitem v (str "name")) as [n|e] eqn:En;
      [|intros H; injection H as <-; discriminate].
    destruct (getitem v (str "arguments")) as [a|e] eqn:Ea;
      [|intros H; injection H as <-; discriminate].
    unfold new_ToolCall, new_FunctionCall, bind.
    destruct n; try (intros H; injection H as <-; discriminate).
    intros H; injection H as <-. intros _.
    eexists g, tail, _. split; [exact Ht|]. split; [right; eauto|].
    split; [rewrite Hg; reflexivity|]. split; [reflexivity|].
    exists v, a. rewrite <- Hrest. cbn [name function arguments type]. auto.
  - unfold bind.
    destruct (json_loads (strip text)) as [v|e] eqn:Ev;
      [|intros H; injection H as <-; discriminate].
    destruct (contains (str "name") v) as [[|]|e];
      try (intros H; injection H as <-; discriminate).
    destruct (contains (str "arguments") v) as [[|]|e];
      try (intros H; injection H as <-; discriminate).
    destruct (getitem v (str "name")) as [n|e] eqn:En;
      [|intros H; injection H as <-; discriminate].
    destruct (getitem v (str "arguments")) as [a|e] eqn:Ea;
      [|intros H; injection H as <-; discriminate].
    unfold new_ToolCall, new_FunctionCall, bind.
    destruct n; try (intros H; injection H as <-; discriminate).
    intros H; injection H as <-. intros _.
    eexists [], text, _. split; [reflexivity|]. split; [left; reflexivity|].
    split; [reflexivity|]. split; [reflexivity|].
    exists v, a. cbn [name function arguments type]. auto.
Qed.

End EnvelopeFacts.

Section StreamedJson.
Context {R : Runtime}.

Lemma think_json_scan_split (acc s inner json : pystr) :
  think_json_scan acc s = Some (inner, json) ->
  exists a tail,
    s = a ++ str "</think>" ++ tail
    /\ inner = rev acc ++ a ++ str "</think>"
    /\ json = lstrip tail.
Proof.
  revert acc; induction s as [|c s IH]; intros acc; [discriminate|].
  cbn [think_json_scan].
  destruct (startswith (c :: s) (str "</think>")
            && startswith (lstrip (skipn 8 (c :: s))) (str "{")) eqn:E.
  - apply andb_true_iff in E as [E _].
    apply startswith_inv in E as [tail E]. rewrite E.
    change (skipn 8 (str "</think>" ++ tail)) with tail.
    intros H; injection H as <- <-.
    exists [], tail. split; [reflexivity|]. split; reflexivity.
  - intros H. destruct (IH _ H) as (a & tail & -> & -> & ->).
    exists (c :: a), tail. split; [reflexivity|]. split; [|reflexivity].
    cbn [rev]. rewrite <- app_assoc. reflexivity.
Qed.

Lemma match_think_json_split (s block json : pystr) :
  match_think_json s = Some (block, json) ->
  exists inner tail,
    block = str "<think>" ++ inner ++ str "</think>"
    /\ s = block ++ tail
    /\ json = lstrip tail.
Proof.
  unfold match_think_json.
  destruct (startswith s (str "<think>")) eqn:Es; [|discriminate].
  apply startswith_inv in Es as [body ->].
  change (skipn 7 (str "<think>" ++ body)) with body.
  destruct (think_json_scan [] body) as [[inner json']|] eqn:E; [|discriminate].
  intros H; injection H as <- <-.
  destruct (think_json_scan_split _ _ _ _ E) as (a & tail & -> & -> & ->).
  exists a, tail. cbn [rev app]. split; [reflexivity|]. split; [|reflexivity].
  change (str "<think>" ++ (a ++ (str "</think>" ++ tail))
          = str "<think>" ++ ((a ++ str "</think>") ++ tail)).
  rewrite <- app_assoc. reflexivity.
Qed.

Lemma lstrip_strip (s : pystr) : lstrip (strip s) = strip s.
Proof.
  destruct (strip s) as [|c r] eqn:E; [reflexivity|].
  destruct (proj1 (strip_head s c) (ex_intro _ r E)) as [r' Hr].
  apply lstrip_by_fixed. eapply lstrip_by_head; exact Hr.
Qed.

Lemma delta_call_fields (n : pyval) (args : pystr) (f : DeltaFunctionCall) :
  new_DeltaFunctionCall n args = Ok f ->
  name_value (delta_name f) = n /\ delta_arguments f = args.
Proof.
  destruct n; simpl; intros H; try discriminate; injection H as <-;
    split; reflexivity.
Qed.

Lemma splits_think_json (cur del : pystr) (st : ParserState) :
  splits_json (strip cur) (fst (_streaming_extract_think_json cur del st)).
Proof.
  unfold _streaming_extract_think_json, mtry_except.
  destruct (match_think_json (strip cur)) as [[block json]|] eqn:Em;
    [|exact I].
  destruct (match_think_json_split _ _ _ Em) as (inner & tail & Hb & Hs & Hj).
  unfold_methods.
  bk_split; try exact I.
  match goal with
  | H : new_DeltaFunctionCall _ _ = Ok _ |- _ =>
      apply delta_call_fields in H; destruct H as [Hn Ha]
  end.
  exists block, tail. eexists. split; [exact Hs|].
  split; [right; exists inner; exact Hb|].
  split; [rewrite Hb; reflexivity|]. split; [reflexivity|].
  do 2 eexists. rewrite <- Hj. cbn [delta_function]. rewrite Hn, Ha. eauto.
Qed.

Lemma splits_direct_json (cur del : pystr) (st : ParserState) :
  splits_json (strip cur) (fst (_streaming_extract_direct_json cur del st)).
Proof.
  unfold _streaming_extract_direct_json, mtry_except.
  unfold_methods.
  bk_split; try exact I.
  match goal with
  | H : new_DeltaFunctionCall _ _ = Ok _ |- _ =>
      apply delta_call_fields in H; destruct H as [Hn Ha]
  end.
  exists [], (strip cur). eexists. split; [reflexivity|].
  split; [left; reflexivity|]. split; [reflexivity|]. split; [reflexivity|].
  do 2 eexists. rewrite lstrip_strip. cbn [delta_function]. rewrite Hn, Ha.
  eauto.
Qed.

(** X20. The two JSON streaming paths split the stripped text in two:
    a message returned on a text that starts with [<think>] or with a
    brace holds exactly one call; the stripped text is a block followed by
    a tail, the block being empty or a reasoning block from [<think>] to
    [</think>]; the content of the message is the block ([None] when
    empty); and the call is the one the tail, without leading whitespace,
    describes, with [{}] for missing arguments. *)
Theorem streamed_json_splits_text (prev cur del : pystr)
  (st st' : ParserState) (m : DeltaMessage) :
  extract_tool_calls_streaming prev cur del st = (Ok (Some m), st') ->
  startswith (strip cur) (str "<think>") = true
  \/ startswith (strip cur) (str "{") = true ->
  exists block tail d,
    strip cur = block ++ tail
    /\ (block = []
        \/ exists inner, block = str "<think>" ++ inner ++ str "</think>")
    /\ delta_content m = (if nonempty block then Some block else None)
    /\ delta_tool_calls m = [d]
    /\ delta_of_json (lstrip tail) d.
Proof.
  intros E Hstart.
  assert (S : splits_json (strip cur) (Ok (Some m))); [|exact S].
  revert E. unfold extract_tool_calls_streaming. cbv zeta.
  destruct (startswith (strip cur) (str "<think>")) eqn:Ethink.
  - intros H.
    repeat match type of H with
           | context [if ?c then _ else _] => destruct c
           | context [match ?x with _ => _ end] => destruct x
           end; try discriminate.
    pose proof (splits_think_json cur del st) as S. rewrite H in S. exact S.
  - destruct Hstart as [Hs|Hs]; [discriminate|]. rewrite Hs. intros H.
    repeat match type of H with
           | context [if ?c then _ else _] => destruct c
           end; try discriminate.
    pose proof (splits_direct_json cur del st) as S. rewrite H in S. exact S.
Qed.

End StreamedJson.

Section StreamedRoo.
Context {R : Runtime}.

Lemma roo_xml_single (text : pystr) (r : ExtractedToolCallInformation) :
  _extract_roo_xml_tool_calls text = Ok r ->
  tools_called r = true ->
  exists tc, r = {| tools_called := true; tool_calls := [tc];
                    content := content r |}.
Proof.
  unfold _extract_roo_xml_tool_calls, roo_xml_try, try_except, bind.
  destruct (roo_xml_loop ROO_TOOLS text) as [[tcs c]|e] eqn:E.
  - destruct (roo_loop_choice ROO_TOOLS text tcs c E)
      as [(-> & -> & _) | (pre & t & post & a & _ & _ & _ & _ & -> & ->)];
      cbn [fst snd]; intros H; injection H as <-; [discriminate|].
    intros _. eexists. reflexivity.
  - intros H; injection H as <-. discriminate.
Qed.

Lemma streaming_roo_loop_call (tools : list pystr) (cur : pystr)
  (st st' : ParserState) (m : DeltaMessage) :
  streaming_roo_xml_loop tools cur st = (Ok (Some m), st') ->
  exists tc c,
    _extract_roo_xml_tool_calls cur =
      Ok {| tools_called := true; tool_calls := [tc]; content := c |}
    /\ streams_call m tc.
Proof.
  revert st; induction tools as [|t ts IH]; intros st;
    cbn [streaming_roo_xml_loop]; [discriminate|].
  destruct (negb (str_in (start_tag t) cur) || negb (str_in (end_tag t) cur));
    [apply IH|].
  cbv zeta.
  destruct (inner_tag_findall _) as [|i rest]; [discriminate|].
  unfold mbind at 1. unfold lift at 1.
  destruct (_extract_roo_xml_tool_calls cur) as [r|e] eqn:Er; [|discriminate].
  destruct (tools_called r) eqn:Ec; [|destruct (tool_calls r); discriminate].
  destruct (roo_xml_single cur r Er Ec) as [tc Hr].
  assert (Htc : tool_calls r = [tc]) by (rewrite Hr; reflexivity).
  rewrite Htc.
  destruct (negb (eqb (arguments (function tc)) (str "{}"))) eqn:Ee.
  - unfold mbind at 1. unfold lift at 1.
    destruct (json_loads (arguments (function tc))) as [v|e];
      [|discriminate].
    destruct (negb (truthy v)); [discriminate|].
    unfold mbind at 1. unfold get at 1.
    destruct (may_emit st); [|apply IH].
    unfold_methods. cbn [name function].
    intros H; injection H as <- _.
    exists tc, (content r). split; [f_equal; exact Hr|].
    eexists. split; [reflexivity|]. apply negb_true_iff in Ee. auto.
  - unfold mbind at 1. unfold ret at 1. cbn [truthy negb]. discriminate.
Qed.

(** X21. A call streamed from Roo XML is the call of the batch path: on
    a text with a Roo opening tag that starts neither with [<think>] nor
    with a brace, a message returned by the streaming method holds exactly
    the one call that the batch Roo extractor finds in the same text, with
    no content, and the arguments of that call are not the empty
    object. *)
Theorem streamed_roo_call_is_batch_call (prev cur del : pystr)
  (st st' : ParserState) (m : DeltaMessage) :
  extract_tool_calls_streaming prev cur del st = (Ok (Some m), st') ->
  startswith (strip cur) (str "<think>") = false ->
  startswith (strip cur) (str "{") = false ->
  _has_roo_xml_format cur = true ->
  exists tc c,
    _extract_roo_xml_tool_calls cur =
      Ok {| tools_called := true; tool_calls := [tc]; content := c |}
    /\ streams_call m tc.
Proof.
  intros E Ht Hb Hr. revert E.
  unfold extract_tool_calls_streaming. cbv zeta. rewrite Ht, Hb.
  assert (Hlt : str_in (str "<") cur = true).
  { destruct (str_in (str "<") cur) eqn:El; [reflexivity|].
    rewrite (no_lt_no_roo cur) in Hr; [discriminate|].
    apply str_in_char; exact El. }
  rewrite Hlt, Hr. unfold _streaming_extract_roo_xml.
  apply streaming_roo_loop_call.
Qed.

End StreamedRoo.

(* ------------------------------------------------------------------ *)
(** * Reasoning extraction *)

Section ThinkingFacts.
Context {D : ReModule}.

Lemma suffix_refl (s : pystr) : suffix_of s s.
Proof. exists []; reflexivity. Qed.

Lemma suffix_trans (a b c : pystr) :
  suffix_of a b -> suffix_of b c -> suffix_of a c.
Proof.
  intros (p & ->) (q & ->). exists (q ++ p). rewrite app_assoc; reflexivity.
Qed.

Lemma suffix_cons (c : char) (r s : pystr) :
  suffix_of r s -> suffix_of r (c :: s).
Proof. intros (p & ->). exists (c :: p); reflexivity. Qed.

Lemma suffix_length (r s : pystr) : suffix_of r s -> length r <= length s.
Proof. intros (p & ->). rewrite length_app. lia. Qed.

Lemma after_line_suffix (s r : pystr) :
  after_line s = Some r -> suffix_of r s /\ length r < length s.
Proof.
  revert r; induction s as [|c s IH]; intros r; simpl; [discriminate|].
  destruct (c =? 10)%N.
  - intros H; injection H as <-. split; [exists [c]; reflexivity|lia].
  - intros H. destruct (IH _ H) as [H1 H2].
    split; [apply suffix_cons; exact H1|lia].
Qed.

Lemma match_atoms_suffix (p : list atom) (s r : pystr) :
  match_atoms p s = Some r -> suffix_of r s.
Proof.
  revert s; induction p as [|a p IH]; intros s; simpl.
  - intros H; injection H as <-. apply suffix_refl.
  - destruct s as [|c s]; [discriminate|].
    destruct (atom_matches a c); [|discriminate].
    intros H. apply suffix_cons, IH, H.
Qed.

Lemma skipn_suffix (n : nat) (s : pystr) : suffix_of (skipn n s) s.
Proof. exists (firstn n s). symmetry; apply firstn_skipn. Qed.

Lemma lstrip_suffix (s : pystr) : suffix_of (lstrip s) s.
Proof.
  destruct (lstrip_by_suffix isspace s) as (a & H & _). exists a; exact H.
Qed.

Lemma match_entry_suffix (s r : pystr) :
  match_entry s = Some r -> suffix_of r s /\ length r < length s.
Proof.
  unfold match_entry. cbv zeta.
  destruct (startswith (lstrip s) (str "- ")); [|discriminate].
  assert (Hk : forall k, after_line (skipn k (skipn 2 (lstrip s))) = Some r ->
                 suffix_of r s /\ length r < length s).
  { intros k H. apply after_line_suffix in H as [H1 H2].
    assert (Hs : suffix_of (skipn k (skipn 2 (lstrip s))) s).
    { eapply suffix_trans; [apply skipn_suffix|].
      eapply suffix_trans; [apply skipn_suffix|apply lstrip_suffix]. }
    split; [eapply suffix_trans; eassumption|].
    apply suffix_length in Hs. lia. }
  destruct (startswith _ (str "Result")); [apply Hk|].
  destruct (startswith _ (str "Next")); [apply Hk|].
  destruct (startswith _ (str "Step")); [apply Hk|discriminate].
Qed.

Lemma match_entries_suffix (fuel : nat) (s : pystr) :
  suffix_of (match_entries fuel s) s.
Proof.
  revert s; induction fuel as [|k IH]; intros s; simpl; [apply suffix_refl|].
  destruct (match_entry s) as [r|] eqn:E; [|apply suffix_refl].
  eapply suffix_trans; [apply IH|]. apply (match_entry_suffix _ _ E).
Qed.

(** More rounds than characters change nothing. *)
Lemma match_entries_fuel (n m : nat) (s : pystr) :
  length s <= n -> length s <= m -> match_entries n s = match_entries m s.
Proof.
  revert m s; induction n as [|n IH]; intros m s Hn Hm.
  - destruct s; [|simpl in Hn; lia]. destruct m; reflexivity.
  - destruct m as [|m].
    + destruct s; [reflexivity|simpl in Hm; lia].
    + cbn [match_entries].
      destruct (match_entry s) as [r|] eqn:E; [|reflexivity].
      destruct (match_entry_suffix _ _ E) as [_ Hr].
      apply IH; lia.
Qed.

Lemma match_log_split (s g rest : pystr) :
  match_log s = Some (g, rest) -> s = g ++ rest.
Proof.
  unfold match_log.
  destruct (match_atoms date_pattern s) as [r0|] eqn:E0; [|discriminate].
  destruct (after_line r0) as [r1|] eqn:E1; [|discriminate].
  cbv zeta. intros H; injection H as <- <-.
  assert (Hs : suffix_of (match_entries (length r1) r1) s).
  { eapply suffix_trans; [apply match_entries_suffix|].
    eapply suffix_trans; [apply (after_line_suffix _ _ E1)|].
    apply (match_atoms_suffix _ _ _ E0). }
  destruct Hs as (p & Hp). set (rest := match_entries (length r1) r1) in *.
  clearbody rest. subst s.
  rewrite length_app, Nat.add_sub, firstn_app, firstn_all, Nat.sub_diag.
  simpl. rewrite app_nil_r. reflexivity.
Qed.

Lemma match_think_inner_split (s g rest : pystr) :
  match_think_inner s = Some (g, rest) ->
  exists tail,
    s = str "<think>" ++ g ++ str "</think>" ++ tail /\ rest = lstrip tail.
Proof.
  unfold match_think_inner.
  destruct (startswith s (str "<think>")) eqn:Es; [|discriminate].
  apply startswith_inv in Es. destruct Es as [body ->].
  change (skipn 7 (str "<think>" ++ body)) with body. cbv zeta.
  destruct (find_nat body (str "</think>")) as [q|] eqn:Eq; [|discriminate].
  intros H; injection H as <- <-.
  destruct (find_nat_Some _ _ _ Eq) as (a & b & -> & <-).
  rewrite firstn_app, firstn_all, Nat.sub_diag.
  change (firstn 0 (str "</think>" ++ b)) with (@nil char).
  rewrite app_nil_r.
  exists b. split; [reflexivity|].
  replace (length a + 8) with (length (a ++ str "</think>"))
    by (rewrite length_app; reflexivity).
  rewrite app_assoc, skipn_app, skipn_all, Nat.sub_diag. reflexivity.
Qed.

Lemma pieces_shape (g rest content : pystr) :
  subseq (g ++ rest) content ->
  trimmed (strip g)
  /\ cleaned_from content
       (if nonempty (strip rest) then Some (strip rest) else None)
  /\ subseq (strip g
             ++ text_of (if nonempty (strip rest) then Some (strip rest)
                         else None)) content.
Proof.
  intros Hs. split; [apply strip_idem|].
  assert (Hr : subseq (strip rest) content).
  { eapply subseq_trans; [apply strip_subseq|].
    eapply subseq_trans; [|exact Hs]. apply subseq_app_r, subseq_refl. }
  destruct (nonempty (strip rest)) eqn:En; cbn [cleaned_from text_of].
  - split.
    + split; [intros E; rewrite E in En; discriminate|].
      split; [apply strip_idem|exact Hr].
    + eapply subseq_trans; [|exact Hs].
      apply subseq_app; apply strip_subseq.
  - split; [exact I|]. rewrite app_nil_r.
    eapply subseq_trans; [apply strip_subseq|].
    eapply subseq_trans; [|exact Hs].
    rewrite <- (app_nil_r g) at 1. apply subseq_app;
      [apply subseq_refl|apply subseq_empty].
Qed.

(** X22. What [extract_thinking_from_content] returns: without
    reasoning, the content as it is ([None] for the empty content); with
    reasoning, a reasoning text without surrounding whitespace and a clean
    content that is [None] or non-empty and without surrounding
    whitespace, the two being, one after the other, characters of the
    content in their order. *)
Theorem thinking_result_cases (content : pystr)
  (thinking clean : option pystr) :
  extract_thinking_from_content content = (thinking, clean) ->
  match thinking with
  | None => clean = (if nonempty content then Some content else None)
  | Some t =>
      trimmed t
      /\ cleaned_from content clean
      /\ subseq (t ++ text_of clean) content
  end.
Proof.
  unfold extract_thinking_from_content.
  destruct (nonempty content) eqn:En; cbn [negb];
    [|intros H; injection H as <- <-; reflexivity].
  destruct (match_think_inner content) as [[g rest]|] eqn:Et.
  - cbv zeta. intros H; injection H as <- <-.
    destruct (match_think_inner_split _ _ _ Et) as (tail & Hc & ->).
    apply pieces_shape. rewrite Hc.
    apply subseq_app_r. apply subseq_app; [apply subseq_refl|].
    apply subseq_app_r.
    destruct (lstrip_by_suffix isspace tail) as (a & Ha & _).
    rewrite Ha at 2. apply subseq_app_r, subseq_refl.
  - destruct (match_log content) as [[g rest]|] eqn:El.
    + cbv zeta. intros H; injection H as <- <-.
      apply pieces_shape. rewrite <- (match_log_split _ _ _ El).
      apply subseq_refl.
    + intros H; injection H as <- <-. reflexivity.
Qed.

End ThinkingFacts.

Section UnclosedThink.
Context {D : ReModule}.

(** X23. A reasoning block that is not closed is no reasoning: on a
    content that starts with [<think>] and holds no [</think>],
    [extract_thinking_from_content] returns no reasoning and the content
    as it is. *)
Theorem unclosed_think_is_content (content : pystr) :
  startswith content (str "<think>") = true ->
  str_in (str "</think>") content = false ->
  extract_thinking_from_content content = (None, Some content).
Proof.
  intros Hs Hc. unfold extract_thinking_from_content, match_think_inner.
  rewrite Hs. apply startswith_inv in Hs as [body ->].
  change (skipn 7 (str "<think>" ++ body)) with body. cbv zeta.
  cbn [nonempty negb app str].
  destruct (find_nat body (str "</think>")) as [q|] eqn:Eq.
  - exfalso. destruct (find_nat_Some _ _ _ Eq) as (a & b & -> & _).
    assert (H : str_in (str "</think>")
                  (str "<think>" ++ a ++ str "</think>" ++ b) = true).
    { apply str_in_iff. exists (str "<think>" ++ a), b.
      rewrite <- app_assoc. reflexivity. }
    rewrite H in Hc. discriminate.
  - reflexivity.
Qed.

End UnclosedThink.

(* ------------------------------------------------------------------ *)
(** * The theorems above on sample inputs *)


Lemma emission_is_recorded_witness :
  let st' :=
    snd (extract_tool_calls_streaming [] tools_call_text tools_call_text
                                      qwen_state) in
  extract_tool_calls_streaming [] tools_call_text tools_call_text qwen_state
    = (Ok (Some list_files_message), st')
  /\ delta_tool_calls list_files_message = [list_files_delta]
  /\ may_emit qwen_state = true
  /\ index list_files_delta = current_tool_id st'
  /\ streamed_args_for_tool st' = [str "{}"].
Proof.
  cbv zeta.
  assert (H1 : extract_tool_calls_streaming [] tools_call_text tools_call_text
                 qwen_state
               = (Ok (Some list_files_message),
                  snd (extract_tool_calls_streaming [] tools_call_text
                         tools_call_text qwen_state)))
    by (vm_compute; reflexivity).
  assert (H2 : delta_tool_calls list_files_message = [list_files_delta])
    by reflexivity.
  destruct (@emission_is_recorded PyJson.runtime _ _ _ _ _ _ _ _ H1 H2)
    as (_ & Hg & Hi & _ & _ & Hs & _).
  split; [exact H1|]. split; [exact H2|]. split; [exact Hg|].
  split; [exact Hi|]. exact Hs.
Defined.

Lemma message_shapes_witness :
  extract_tool_calls_streaming [] (str "hi") (str "hi") qwen_state
    = (Ok (Some narration_message), qwen_state)
  /\ ((delta_content narration_message = Some (str "hi")
       /\ delta_tool_calls narration_message = []
       /\ qwen_state = qwen_state
       /\ passes_through (str "hi"))
      \/ (delta_content narration_message = None
          /\ length (delta_tool_calls narration_message) = 1)
      \/ ((exists c, delta_content narration_message = Some c)
          /\ length (delta_tool_calls narration_message) = 1
          /\ startswith (strip (str "hi")) (str "<think>") = true)).
Proof.
  assert (H : extract_tool_calls_streaming [] (str "hi") (str "hi") qwen_state
              = (Ok (Some narration_message), qwen_state))
    by (vm_compute; reflexivity).
  split; [exact H|].
  exact (@message_shapes PyJson.runtime _ _ _ _ _ _ H).
Defined.


Lemma no_narration_after_brace_witness :
  startswith (strip (str " {")) (str "{") = true
  /\ total_content (fst (feed (str " {") [str "}"; str " done"] qwen_state))
     = [].
Proof.
  assert (H : startswith (strip (str " {")) (str "{") = true) by reflexivity.
  split; [exact H|].
  exact (@no_narration_after_brace PyJson.runtime _ _ qwen_state H).
Defined.

Lemma buffer_conserves_text_witness :
  let deltas := [str "a"; str "<tool_call>"; str "b"] in
  (tool_call_start_token_array qwen_state <> []
   /\ tool_call_end_token_array qwen_state <> [])
  /\ forallb is_ok (fst (buffer_deltas deltas qwen_state)) = true
  /\ flat_map released (fst (buffer_deltas deltas qwen_state))
     ++ buffered_delta_text (snd (buffer_deltas deltas qwen_state))
     = buffered_delta_text qwen_state ++ concat deltas.
Proof.
  cbv zeta.
  assert (H1 : tool_call_start_token_array qwen_state <> []) by discriminate.
  assert (H2 : tool_call_end_token_array qwen_state <> []) by discriminate.
  split; [split; assumption|].
  exact (buffer_conserves_text _ qwen_state H1 H2).
Defined.

Lemma no_lt_not_accumulating_witness :
  str_in (str "<") (str "a > b") = false
  /\ _is_accumulating_xml_tag (str "a > b") = (false, None).
Proof.
  assert (H : str_in (str "<") (str "a > b") = false) by reflexivity.
  split; [exact H|]. exact (no_lt_not_accumulating _ H).
Defined.

Lemma accumulating_name_recognized_witness :
  snd (_is_accumulating_xml_tag (str "so <read_fi")) = Some (str "read_file")
  /\ fst (_is_accumulating_xml_tag (str "so <read_fi")) = true
  /\ In (str "read_file") recognized_names.
Proof.
  assert (H : snd (_is_accumulating_xml_tag (str "so <read_fi"))
              = Some (str "read_file")) by (vm_compute; reflexivity).
  split; [exact H|]. exact (accumulating_name_recognized _ _ H).
Defined.

Lemma unclosed_tag_accumulates_witness :
  In (str "read_file") recognized_names
  /\ str_in (start_tag (str "read_file")) unclosed_tag_text = true
  /\ str_in (end_tag (str "read_file")) unclosed_tag_text = false
  /\ fst (_is_accumulating_xml_tag unclosed_tag_text) = true.
Proof.
  assert (H1 : In (str "read_file") recognized_names)
    by (apply existsb_In; reflexivity).
  assert (H2 : str_in (start_tag (str "read_file")) unclosed_tag_text = true)
    by reflexivity.
  assert (H3 : str_in (end_tag (str "read_file")) unclosed_tag_text = false)
    by reflexivity.
  split; [exact H1|]. split; [exact H2|]. split; [exact H3|].
  exact (unclosed_tag_accumulates _ _ H1 H2 H3).
Defined.

Lemma sanitizer_only_deletes_witness :
  clean_content_from_xml_tags padded_text (str "tool_call")
    = Some (str "Hello")
  /\ subseq (str "Hello") padded_text
  /\ (str "Hello" <> [] /\ trimmed (str "Hello")).
Proof.
  assert (H : clean_content_from_xml_tags padded_text (str "tool_call")
              = Some (str "Hello")) by (vm_compute; reflexivity).
  split; [exact H|].
  destruct (sanitizer_only_deletes _ _ _ H) as (H1 & H2 & H3).
  split; [exact H1|]. split; [exact H2|exact H3].
Defined.

Lemma sanitizer_trims_plain_text_witness :
  str_in (str "<") (str " a > b ") = false
  /\ clean_content_from_xml_tags (str " a > b ") (str "tools")
     = Some (str "a > b")
  /\ clean_content_from_xml_tags (str "a > b") (str "tools")
     = Some (str "a > b").
Proof.
  assert (H : str_in (str "<") (str " a > b ") = false) by reflexivity.
  destruct (sanitizer_trims_plain_text (str " a > b ") (str "tools") H)
    as [H1 H2].
  split; [exact H|]. split; [exact H1|]. exact (H2 _ H1).
Defined.

Lemma roo_extractor_first_listed_witness :
  exists r,
    _extract_roo_xml_tool_calls two_tags_text = Ok r
    /\ tools_called r = true
    /\ exists pre post args,
         ROO_TOOLS = pre ++ str "read_file" :: post
         /\ (forall x, In x pre -> str_in (start_tag x) two_tags_text = false)
         /\ tool_calls r =
              [ {| type := str "function";
                   function := {| name := str "read_file";
                                  arguments := args |} |} ].
Proof.
  destruct (_extract_roo_xml_tool_calls two_tags_text) as [r|e] eqn:E;
    [|vm_compute in E; discriminate].
  assert (Hc : tools_called r = true)
    by (vm_compute in E; injection E as <-; reflexivity).
  exists r. split; [reflexivity|]. split; [exact Hc|].
  destruct (@roo_extractor_first_listed PyJson.runtime _ r E Hc)
    as (pre & t & post & args & H1 & H2 & H3 & H4 & _).
  assert (Ht : t = str "read_file").
  { vm_compute in E; injection E as <-. simpl in H4.
    injection H4 as Hn _. symmetry; exact Hn. }
  subst t. exists pre, post, args. split; [exact H1|]. split; [exact H2|].
  exact H4.
Defined.


Lemma hermes_missing_key_aborts_witness :
  In (strq "{'arguments': 1}", [])
     (findall_envelope tool_call_start_token tool_call_end_token 0
                       two_envelopes)
  /\ json_loads (match_json_str (strq "{'arguments': 1}", []))
     = Ok (JDict [(str "arguments", JInt 1)])
  /\ getitem (JDict [(str "arguments", JInt 1)]) (str "name") = Raise KeyError
  /\ _extract_hermes_tool_calls two_envelopes = Ok (fallback two_envelopes).
Proof.
  assert (H1 : In (strq "{'arguments': 1}", [])
                 (findall_envelope tool_call_start_token tool_call_end_token 0
                                   two_envelopes))
    by (vm_compute; auto).
  assert (H2 : json_loads (match_json_str (strq "{'arguments': 1}", []))
               = Ok (JDict [(str "arguments", JInt 1)]))
    by (vm_compute; reflexivity).
  assert (H3 : getitem (JDict [(str "arguments", JInt 1)]) (str "name")
               = Raise KeyError) by reflexivity.
  split; [exact H1|]. split; [exact H2|]. split; [exact H3|].
  exact (@hermes_missing_key_aborts PyJson.runtime _ _ _ _ H1 H2
           (or_introl H3)).
Defined.

Lemma batch_result_shape_witness :
  exists r,
    extract_tool_calls scenario_1_input = Ok r
    /\ tools_called r = true
    /\ content r = Some (str "Hello")
    /\ cleaned_from scenario_1_input (content r).
Proof.
  destruct (extract_tool_calls scenario_1_input) as [r|e] eqn:E;
    [|vm_compute in E; discriminate].
  exists r. split; [reflexivity|].
  assert (Hc : tools_called r = true /\ content r = Some (str "Hello"))
    by (vm_compute in E; injection E as <-; split; reflexivity).
  destruct Hc as [Hc1 Hc2]. split; [exact Hc1|]. split; [exact Hc2|].
  destruct (@batch_result_shape PyJson.runtime _ r E) as [(Hf & _)|(_ & Hs)].
  - rewrite Hc1 in Hf. discriminate.
  - exact Hs.
Defined.

Lemma hermes_one_call_per_decoded_envelope_witness :
  exists r,
    _extract_hermes_tool_calls three_envelopes = Ok r
    /\ tools_called r = true
    /\ length (tool_calls r) = 2
    /\ Forall2 call_of_json
         (filter decodes
            (map match_json_str
               (findall_envelope tool_call_start_token tool_call_end_token 0
                                 three_envelopes)))
         (tool_calls r).
Proof.
  destruct (_extract_hermes_tool_calls three_envelopes) as [r|e] eqn:E;
    [|vm_compute in E; discriminate].
  assert (Hc : tools_called r = true /\ length (tool_calls r) = 2)
    by (vm_compute in E; injection E as <-; split; reflexivity).
  destruct Hc as [Hc Hl].
  exists r. split; [reflexivity|]. split; [exact Hc|]. split; [exact Hl|].
  exact (proj1 (@hermes_one_call_per_decoded_envelope PyJson.runtime _ r E Hc)).
Defined.

Lemma tools_one_call_per_decoded_envelope_witness :
  exists r,
    _extract_tools_tag_format tools_call_text = Ok r
    /\ tools_called r = true
    /\ length (tool_calls r) = 1
    /\ Forall2 call_of_json
         (filter decodes
            (map (fun m => strip (match_json_str m))
               (findall_envelope (str "<tools>") (str "</tools>") 0
                                 tools_call_text)))
         (tool_calls r).
Proof.
  destruct (_extract_tools_tag_format tools_call_text) as [r|e] eqn:E;
    [|vm_compute in E; discriminate].
  assert (Hc : tools_called r = true /\ length (tool_calls r) = 1)
    by (vm_compute in E; injection E as <-; split; reflexivity).
  destruct Hc as [Hc Hl].
  exists r. split; [reflexivity|]. split; [exact Hc|]. split; [exact Hl|].
  exact (proj1 (proj2 (@tools_one_call_per_decoded_envelope PyJson.runtime
                         _ r E Hc))).
Defined.

Lemma direct_json_splits_output_witness :
  exists r,
    _extract_direct_json think_json_text = Ok r
    /\ tools_called r = true
    /\ content r = Some (str "<think>plan</think>")
    /\ exists block tail tc,
         think_json_text = block ++ tail
         /\ content r = (if nonempty block then Some block else None)
         /\ tool_calls r = [tc]
         /\ call_of_json (strip tail) tc.
Proof.
  destruct (_extract_direct_json think_json_text) as [r|e] eqn:E;
    [|vm_compute in E; discriminate].
  assert (Hc : tools_called r = true
               /\ content r = Some (str "<think>plan</think>"))
    by (vm_compute in E; injection E as <-; split; reflexivity).
  destruct Hc as [Hc Hk].
  exists r. split; [reflexivity|]. split; [exact Hc|]. split; [exact Hk|].
  destruct (@direct_json_splits_output PyJson.runtime _ r E Hc)
    as (block & tail & tc & H1 & _ & H3 & H4 & H5).
  exists block, tail, tc. split; [exact H1|]. split; [exact H3|].
  split; [exact H4|exact H5].
Defined.

Lemma streamed_json_splits_text_witness :
  exists m st',
    extract_tool_calls_streaming [] think_json_text think_json_text qwen_state
      = (Ok (Some m), st')
    /\ startswith (strip think_json_text) (str "<think>") = true
    /\ delta_content m = Some (str "<think>plan</think>")
    /\ exists block tail d,
         strip think_json_text = block ++ tail
         /\ delta_content m = (if nonempty block then Some block else None)
         /\ delta_tool_calls m = [d]
         /\ delta_of_json (lstrip tail) d.
Proof.
  destruct (extract_tool_calls_streaming [] think_json_text think_json_text
              qwen_state) as [[[m|]|e] st'] eqn:E;
    try (vm_compute in E; discriminate).
  assert (Hs : startswith (strip think_json_text) (str "<think>") = true)
    by reflexivity.
  assert (Hk : delta_content m = Some (str "<think>plan</think>"))
    by (vm_compute in E; injection E as <- _; reflexivity).
  exists m, st'. split; [reflexivity|]. split; [exact Hs|]. split; [exact Hk|].
  destruct (@streamed_json_splits_text PyJson.runtime _ _ _ _ _ _ E
              (or_introl Hs))
    as (block & tail & d & H1 & _ & H3 & H4 & H5).
  exists block, tail, d. split; [exact H1|]. split; [exact H3|].
  split; [exact H4|exact H5].
Defined.

Lemma streamed_roo_call_is_batch_call_witness :
  exists m st',
    extract_tool_calls_streaming [] scenario_2_input scenario_2_input
                                 qwen_state = (Ok (Some m), st')
    /\ startswith (strip scenario_2_input) (str "<think>") = false
    /\ startswith (strip scenario_2_input) (str "{") = false
    /\ _has_roo_xml_format scenario_2_input = true
    /\ exists tc c,
         _extract_roo_xml_tool_calls scenario_2_input =
           Ok {| tools_called := true; tool_calls := [tc]; content := c |}
         /\ streams_call m tc.
Proof.
  destruct (extract_tool_calls_streaming [] scenario_2_input scenario_2_input
              qwen_state) as [[[m|]|e] st'] eqn:E;
    try (vm_compute in E; discriminate).
  assert (H1 : startswith (strip scenario_2_input) (str "<think>") = false)
    by reflexivity.
  assert (H2 : startswith (strip scenario_2_input) (str "{") = false)
    by reflexivity.
  assert (H3 : _has_roo_xml_format scenario_2_input = true) by reflexivity.
  exists m, st'. split; [reflexivity|]. split; [exact H1|].
  split; [exact H2|]. split; [exact H3|].
  exact (@streamed_roo_call_is_batch_call PyJson.runtime _ _ _ _ _ _ E
           H1 H2 H3).
Defined.

Lemma thinking_result_cases_witness :
  @extract_thinking_from_content ascii_re log_sample
    = (Some (str "- 2024-05-01 start" ++ nl ++ str "  - Step one"),
       Some (str "answer"))
  /\ trimmed (str "- 2024-05-01 start" ++ nl ++ str "  - Step one")
  /\ cleaned_from log_sample (Some (str "answer"))
  /\ subseq ((str "- 2024-05-01 start" ++ nl ++ str "  - Step one")
             ++ text_of (Some (str "answer"))) log_sample.
Proof.
  assert (H : @extract_thinking_from_content ascii_re log_sample
              = (Some (str "- 2024-05-01 start" ++ nl ++ str "  - Step one"),
                 Some (str "answer"))) by (vm_compute; reflexivity).
  split; [exact H|].
  exact (@thinking_result_cases ascii_re _ _ _ H).
Defined.

Lemma unclosed_think_is_content_witness :
  startswith (str "<think>no end") (str "<think>") = true
  /\ str_in (str "</think>") (str "<think>no end") = false
  /\ @extract_thinking_from_content ascii_re (str "<think>no end")
     = (None, Some (str "<think>no end")).
Proof.
  assert (H1 : startswith (str "<think>no end") (str "<think>") = true)
    by reflexivity.
  assert (H2 : str_in (str "</think>") (str "<think>no end") = false)
    by reflexivity.
  split; [exact H1|]. split; [exact H2|].
  exact (@unclosed_think_is_content ascii_re _ H1 H2).
Defined.
